(** * flatbread-xl: layout, spans, merges, pattern matching and number formats

    A shallow embedding of the table layout engine (layout.py), the span
    detector and merge-range deriver (spans.py), the pattern matcher
    (pattern.py), the merge manager (merge.py) and the number-format
    resolution of the grid writer (table/writer.py), followed by the
    properties proved about them.

    Python integers are unbounded, so every coordinate, offset, start and
    count is a [Z].  A list that the source builds with [append] under a
    condition inside a loop is threaded through the loop as an accumulator;
    a loop or generator that yields one item per iteration is a [map]. *)

From Stdlib Require Import ZArith List String Ascii Bool Lia.
Import ListNotations.
Open Scope Z_scope.

(** ** Python values that can appear as labels and cell values *)

Module Py.

(** Scalars: [None], the float NaN, text and integers.  NaN is kept apart
    because it is the one scalar that compares unequal to itself; other
    floats do not occur in the model.  A NaN carries the identity of its
    float object ([id(v)]), since the items of two tuples are compared with
    [is] before [==]. *)
Inductive scalar : Type :=
| PNone
| PNaN (obj : nat)
| PStr (s : string)
| PInt (z : Z).

(** [np.nan], the one object that stands for a missing value in a level of
    object dtype; the NaN values of a float level are boxed into a float
    object of their own for every key. *)
Definition np_nan : scalar := PNaN 0.

(** A label of an axis: a scalar (flat index) or a tuple (MultiIndex). *)
Inductive label : Type :=
| LScalar (v : scalar)
| LTuple (parts : list scalar).

(** [a == b] on scalars. *)
Definition scalar_eq (a b : scalar) : bool :=
  match a, b with
  | PNone, PNone => true
  | PStr s, PStr t => String.eqb s t
  | PInt m, PInt n => Z.eqb m n
  | _, _ => false
  end.

(** Comparison of two tuple components: Python compares the items of a
    container with [x is y or x == y], so two NaN components compare equal
    exactly when they are the same object; for the other scalars identity
    implies [==]. *)
Definition part_eq (a b : scalar) : bool :=
  match a, b with
  | PNaN i, PNaN j => Nat.eqb i j
  | _, _ => scalar_eq a b
  end.

Fixpoint tuple_eq (a b : list scalar) : bool :=
  match a, b with
  | [], [] => true
  | u :: a', v :: b' => part_eq u v && tuple_eq a' b'
  | _, _ => false
  end.

(** [a == b] on labels; a tuple never equals a scalar. *)
Definition label_eq (a b : label) : bool :=
  match a, b with
  | LScalar u, LScalar v => scalar_eq u v
  | LTuple u, LTuple v => tuple_eq u v
  | _, _ => false
  end.

(** [a != b]. *)
Definition label_ne (a b : label) : bool := negb (label_eq a b).

(** [isinstance(v, tuple)] and [isinstance(v, str)]. *)
Definition is_tuple (l : label) : bool :=
  match l with LTuple _ => true | LScalar _ => false end.

Definition is_str (v : scalar) : bool :=
  match v with PStr _ => true | _ => false end.

(** [part.startswith(pattern)] for two strings. *)
Definition startswith (part pattern : string) : bool := String.prefix pattern part.

(** [pd.isna(v)]. *)
Definition isna (v : scalar) : bool :=
  match v with PNone | PNaN _ => true | _ => false end.

(** [len(l)] and [range(a, b)], [enumerate(l)]. *)
Definition len {A : Type} (l : list A) : Z := Z.of_nat (List.length l).

Definition range (a b : Z) : list Z :=
  map (fun k => a + Z.of_nat k) (seq 0 (Z.to_nat (b - a))).

Fixpoint enumerate_from {A : Type} (i : Z) (l : list A) : list (Z * A) :=
  match l with
  | [] => []
  | v :: rest => (i, v) :: enumerate_from (i + 1) rest
  end.

Definition enumerate {A : Type} (l : list A) : list (Z * A) := enumerate_from 0 l.

(** [l[k]] for an index in range ([None] stands in out of range, where
    Python raises; the loops below never index out of range). *)
Definition getitem (l : list scalar) (k : Z) : scalar := nth (Z.to_nat k) l PNone.

(** pandas indexes: a flat [Index] of scalars with one name, or a
    [MultiIndex] with its number of levels, level names and tuples. *)
Inductive pd_index : Type :=
| Index (name : option string) (values : list scalar)
| MultiIndex (nlevels : Z) (names : list (option string)) (tuples : list (list scalar)).

Definition index_labels (ix : pd_index) : list label :=
  match ix with
  | Index _ values => map LScalar values
  | MultiIndex _ _ tuples => map LTuple tuples
  end.

Definition index_nlevels (ix : pd_index) : Z :=
  match ix with
  | Index _ _ => 1
  | MultiIndex n _ _ => n
  end.

Definition index_names (ix : pd_index) : list (option string) :=
  match ix with
  | Index name _ => [name]
  | MultiIndex _ names _ => names
  end.

(** A DataFrame: row index, column index and the cell values by row. *)
Record DataFrame : Type := {
  index : pd_index;
  columns : pd_index;
  values : list (list scalar)
}.

(** [df.iloc[i, j]]. *)
Definition iloc (df : DataFrame) (i j : Z) : scalar :=
  getitem (nth (Z.to_nat i) (values df) []) j.

End Py.

(** ** layout.py *)

Module Layout.

(** [CellPosition]: the stored coordinates are zero-based. *)
Record CellPosition : Type := { x : Z; y : Z }.

(** [CellPosition.__init__]. *)
Definition CellPosition_init (x0 y0 : Z) (excel_based : bool) : CellPosition :=
  if excel_based
  then {| x := x0 - 1; y := y0 - 1 |}
  else {| x := x0; y := y0 |}.

Definition excel_x (self : CellPosition) : Z := x self + 1.
Definition excel_y (self : CellPosition) : Z := y self + 1.
Definition excel_position (self : CellPosition) : Z * Z := (excel_y self, excel_x self).

(** [CellPosition.__eq__] against another [CellPosition]. *)
Definition CellPosition_eq (self other : CellPosition) : bool :=
  (x self =? x other) && (y self =? y other).

(** [BaseLayout]; [NamesLayout] and [DataLayout] add nothing to it. *)
Record BaseLayout : Type := {
  width : Z;
  height : Z;
  position : CellPosition
}.

Definition BaseLayout_init (w h x_offset y_offset : Z) : BaseLayout :=
  {| width := w; height := h; position := CellPosition_init x_offset y_offset false |}.

Definition x_start (self : BaseLayout) : Z := x (position self).
Definition x_end (self : BaseLayout) : Z := x_start self + width self - 1.
Definition y_start (self : BaseLayout) : Z := y (position self).
Definition y_end (self : BaseLayout) : Z := y_start self + height self - 1.

Definition cell_at (self : BaseLayout) (x_offset y_offset : Z) : CellPosition :=
  CellPosition_init (x_start self + x_offset) (y_start self + y_offset) false.

(** [AxisLayout]: a [BaseLayout] with the [has_names] flag. *)
Record AxisLayout : Type := {
  base :> BaseLayout;
  has_names : bool
}.

Definition AxisLayout_init (w h : Z) (names : bool) (x_offset y_offset : Z) : AxisLayout :=
  {| base := BaseLayout_init w h x_offset y_offset; has_names := names |}.

(** The attributes [TableLayout.__init__] stores before [_init_layouts]. *)
Record TableArgs : Type := {
  table_position : CellPosition;
  index_width : Z;
  index_height : Z;
  column_width : Z;
  column_height : Z;
  has_index_names : bool;
  has_column_names : bool
}.

Definition _create_column_layout (self : TableArgs) : AxisLayout :=
  AxisLayout_init (column_width self) (column_height self) (has_column_names self)
                  (x (table_position self) + index_width self)
                  (y (table_position self)).

Definition _create_index_layout (self : TableArgs) : AxisLayout :=
  let additional_y_offset := if has_index_names self then 1 else 0 in
  AxisLayout_init (index_width self) (index_height self) (has_index_names self)
                  (x (table_position self))
                  (y (table_position self) + column_height self + additional_y_offset).

Definition _create_data_layout (columns index : AxisLayout) : BaseLayout :=
  BaseLayout_init (width columns) (height index) (x_start columns) (y_start index).

Definition _create_index_names_layout (self : TableArgs) (index : AxisLayout) : BaseLayout :=
  BaseLayout_init (width index)
                  (if has_index_names self then 1 else 0)
                  (x_start index)
                  (y_start index - (if has_index_names self then 1 else 0)).

Definition _create_column_names_layout (self : TableArgs) (columns : AxisLayout) : BaseLayout :=
  BaseLayout_init (if has_column_names self then 1 else 0)
                  (height columns)
                  (x_start columns - (if has_column_names self then 1 else 0))
                  (y_start columns).

(** The finished [TableLayout]. *)
Record TableLayout : Type := {
  args : TableArgs;
  columns : AxisLayout;
  index : AxisLayout;
  index_names : BaseLayout;
  column_names : BaseLayout;
  data_layout : BaseLayout
}.

(** [_init_layouts]: axis layouts, then the names layouts, then the data
    layout. *)
Definition _init_layouts (self : TableArgs) : TableLayout :=
  let columns := _create_column_layout self in
  let index := _create_index_layout self in
  let index_names := _create_index_names_layout self index in
  let column_names := _create_column_names_layout self columns in
  let data_layout := _create_data_layout columns index in
  {| args := self; columns := columns; index := index;
     index_names := index_names; column_names := column_names;
     data_layout := data_layout |}.

(** [TableLayout.__init__]. *)
Definition TableLayout_init (index_width index_height column_width column_height : Z)
           (has_index_names has_column_names : bool) (x_offset y_offset : Z) : TableLayout :=
  _init_layouts
    {| table_position := CellPosition_init x_offset y_offset false;
       index_width := index_width; index_height := index_height;
       column_width := column_width; column_height := column_height;
       has_index_names := has_index_names; has_column_names := has_column_names |}.

Definition total_width (self : TableLayout) : Z :=
  width (index self) + width (data_layout self).

Definition total_height (self : TableLayout) : Z :=
  height (columns self) + height (index_names self) + height (index self).

(** [any(name is not None for name in names)]. *)
Definition any_name (names : list (option string)) : bool :=
  existsb (fun n => match n with Some _ => true | None => false end) names.

(** [TableLayout.from_df]. *)
Definition from_df (df : Py.DataFrame) (x_offset y_offset : Z) : TableLayout :=
  TableLayout_init (Py.index_nlevels (Py.index df))
                   (Py.len (Py.index_labels (Py.index df)))
                   (Py.len (Py.index_labels (Py.columns df)))
                   (Py.index_nlevels (Py.columns df))
                   (any_name (Py.index_names (Py.index df)))
                   (any_name (Py.index_names (Py.columns df)))
                   x_offset y_offset.

(** [iter_data_positions]: the triples [(i, j, position)] in row-major
    order. *)
Definition iter_data_positions (self : TableLayout) : list (Z * Z * CellPosition) :=
  flat_map (fun i =>
    map (fun j => (i, j, CellPosition_init (x_start (data_layout self) + j)
                                           (y_start (data_layout self) + i) false))
        (Py.range 0 (width (columns self))))
    (Py.range 0 (height (index self))).

(** [CellPosition.__add__], [__sub__] and [offset]. *)
Definition CellPosition_add (self other : CellPosition) : CellPosition :=
  CellPosition_init (x self + x other) (y self + y other) false.

Definition CellPosition_sub (self other : CellPosition) : CellPosition :=
  CellPosition_init (x self - x other) (y self - y other) false.

Definition offset (self : CellPosition) (dx dy : Z) : CellPosition :=
  CellPosition_init (x self + dx) (y self + dy) false.

(** [BaseLayout.excel_cell_at]. *)
Definition excel_cell_at (self : BaseLayout) (x_offset y_offset : Z) : Z * Z :=
  excel_position (cell_at self x_offset y_offset).

(** [BaseLayout.iter_positions], [iter_rows] and [iter_columns]: the
    positions the generators yield, in order. *)
Definition iter_positions (self : BaseLayout) : list CellPosition :=
  flat_map (fun y0 => map (fun x0 => cell_at self x0 y0) (Py.range 0 (width self)))
           (Py.range 0 (height self)).

Definition iter_rows (self : BaseLayout) : list (list CellPosition) :=
  map (fun y0 => map (fun x0 => cell_at self x0 y0) (Py.range 0 (width self)))
      (Py.range 0 (height self)).

Definition iter_columns (self : BaseLayout) : list (list CellPosition) :=
  map (fun x0 => map (fun y0 => cell_at self x0 y0) (Py.range 0 (height self)))
      (Py.range 0 (width self)).

(** The bounds of the whole table: [TableLayout.x_start], [y_start],
    [x_end] and [y_end]. *)
Definition TableLayout_x_start (self : TableLayout) : Z := x (table_position (args self)).
Definition TableLayout_y_start (self : TableLayout) : Z := y (table_position (args self)).
Definition TableLayout_x_end (self : TableLayout) : Z := x_end (data_layout self).
Definition TableLayout_y_end (self : TableLayout) : Z := y_end (data_layout self).

(** [TableLayout.iter_index_positions] and [iter_column_positions]. *)
Definition iter_index_positions (self : TableLayout) : list (Z * Z * CellPosition) :=
  flat_map (fun i =>
    map (fun level => (i, level, CellPosition_init (x_start (index self) + level)
                                                   (y_start (index self) + i) false))
        (Py.range 0 (width (index self))))
    (Py.range 0 (height (index self))).

Definition iter_column_positions (self : TableLayout) : list (Z * Z * CellPosition) :=
  flat_map (fun j =>
    map (fun level => (j, level, CellPosition_init (x_start (columns self) + j)
                                                   (y_start (columns self) + level) false))
        (Py.range 0 (height (columns self))))
    (Py.range 0 (width (columns self))).

(** [TableLayout.iter_index_name_positions] and
    [iter_column_name_positions]: nothing without names. *)
Definition iter_index_name_positions (self : TableLayout) : list (Z * CellPosition) :=
  if has_index_names (args self) then
    map (fun level => (level, CellPosition_init (x_start (index_names self) + level)
                                                (y_start (index_names self)) false))
        (Py.range 0 (width (index_names self)))
  else [].

Definition iter_column_name_positions (self : TableLayout) : list (Z * CellPosition) :=
  if has_column_names (args self) then
    map (fun level => (level, CellPosition_init (x_start (column_names self))
                                                (y_start (column_names self) + level) false))
        (Py.range 0 (height (column_names self)))
  else [].

(** [get_data_range], [get_index_range] and [get_columns_range]. *)
Definition corners (r : BaseLayout) : CellPosition * CellPosition :=
  (CellPosition_init (x_start r) (y_start r) false,
   CellPosition_init (x_end r) (y_end r) false).

Definition get_data_range (self : TableLayout) : CellPosition * CellPosition :=
  corners (data_layout self).
Definition get_index_range (self : TableLayout) : CellPosition * CellPosition :=
  corners (index self).
Definition get_columns_range (self : TableLayout) : CellPosition * CellPosition :=
  corners (columns self).

(** The position lies in the rectangle of the region. *)
Definition contains (r : BaseLayout) (p : CellPosition) : Prop :=
  x_start r <= x p <= x_end r /\ y_start r <= y p <= y_end r.

(** The position lies within the bounds of the table. *)
Definition in_table (t : TableLayout) (p : CellPosition) : Prop :=
  TableLayout_x_start t <= x p <= TableLayout_x_end t
  /\ TableLayout_y_start t <= y p <= TableLayout_y_end t.

End Layout.

(** ** spans.py *)

Module Spans.
Import Py.

(** A span dictionary [{'start': _, 'value': _, 'count': _}]. *)
Record span (A : Type) : Type := {
  start : Z;
  value : A;
  count : Z
}.
Arguments start {A} _.
Arguments value {A} _.
Arguments count {A} _.

(** [(start_row, start_col, end_row, end_col)], one-based and inclusive. *)
Definition MergeRange : Type := (Z * Z * Z * Z)%type.

Section ContiguousSpans.
(** The values scanned, Python's [None] among them, and [!=] on them. *)
Context {A : Type} (py_none : A) (py_ne : A -> A -> bool).

(** The local variables of [get_contiguous_spans]. *)
Record loop_state : Type := {
  spans : list (span A);
  prev : A;
  start_idx : Z
}.

(** One iteration of [for i, val in enumerate(values)]. *)
Definition loop_body (st : loop_state) (i : Z) (val : A) : loop_state :=
  if py_ne val (prev st) then
    {| spans :=
         if 0 <? i
         then spans st ++ [ {| start := start_idx st; value := prev st;
                               count := i - start_idx st |} ]
         else spans st;
       prev := val;
       start_idx := i |}
  else st.

Fixpoint loop (i : Z) (values : list A) (st : loop_state) : loop_state :=
  match values with
  | [] => st
  | val :: rest => loop (i + 1) rest (loop_body st i val)
  end.

Definition get_contiguous_spans (values : list A) : list (span A) :=
  let st := loop 0 values {| spans := []; prev := py_none; start_idx := 0 |} in
  if 0 <? len values
  then spans st ++ [ {| start := start_idx st; value := prev st;
                        count := len values - start_idx st |} ]
  else spans st.

(** Re-expansion of spans: each span becomes [count] copies of its
    stored value. *)
Definition expand_spans (l : list (span A)) : list A :=
  flat_map (fun s => repeat (value s) (Z.to_nat (count s))) l.

(** Spans that tile the positions from [s] up to [e]: each span is
    non-empty and starts where the one before it ends. *)
Fixpoint chained (s : Z) (l : list (span A)) (e : Z) : Prop :=
  match l with
  | [] => s = e
  | sp :: rest => start sp = s /\ 0 < count sp /\ chained (s + count sp) rest e
  end.

(** Spans in increasing order of [start], none reaching into the next. *)
Fixpoint ordered (l : list (span A)) : Prop :=
  match l with
  | [] => True
  | sp :: rest =>
      Forall (fun later => start sp + count sp <= start later) rest /\ ordered rest
  end.

(** [sum(s.count for s in spans)]. *)
Definition total_count (l : list (span A)) : Z :=
  fold_right (fun sp acc => count sp + acc) 0 l.

(** Equality of two items as Python's list comparison sees it:
    [a is b or a == b]. *)
Definition same_item (a b : A) : Prop := a = b \/ py_ne a b = false.

(** The loop invariant at the head of iteration [i], when [seen] are
    the values already consumed: the closed spans tile [0, start_idx),
    the open run is [start_idx, i), and [seen] is, item by item, the
    expansion of the closed spans followed by the open run of [prev]. *)
Record loop_inv (i : Z) (seen : list A) (st : loop_state) : Prop := {
  inv_len : i = len seen;
  inv_chain : chained 0 (spans st) (start_idx st);
  inv_start : start_idx st <= i /\ (0 < i -> start_idx st < i);
  inv_seen : Forall2 same_item seen
                     (expand_spans (spans st)
                        ++ repeat (prev st) (Z.to_nat (i - start_idx st)))
}.
End ContiguousSpans.

(** [idx[:level+1]]. *)
Definition slice_to (idx : list scalar) (stop : Z) : list scalar :=
  firstn (Z.to_nat stop) idx.

(** [get_level_spans(index, max_level)]. *)
Definition get_level_spans (index : pd_index) (max_level : option Z)
  : list (list (span label)) :=
  match index with
  | Index _ values =>
      [get_contiguous_spans (LScalar PNone) label_ne (map LScalar values)]
  | MultiIndex nlevels _ tuples =>
      let n_levels := match max_level with Some m => m | None => nlevels end in
      map (fun level =>
             let level_values := map (fun idx => LTuple (slice_to idx (level + 1))) tuples in
             get_contiguous_spans (LScalar PNone) label_ne level_values)
          (range 0 n_levels)
  end.

(** The range appended for one span of the row index (a vertical merge)
    or of the column index (a horizontal merge). *)
Definition span_merge_range {A : Type} (layout : Layout.BaseLayout) (is_row_index : bool)
           (level : Z) (sp : span A) : MergeRange :=
  if is_row_index then
    let cell_start := Layout.cell_at layout level (start sp) in
    let cell_end := Layout.cell_at layout level (start sp + count sp - 1) in
    (Layout.excel_y cell_start, Layout.excel_x cell_start,
     Layout.excel_y cell_end, Layout.excel_x cell_start)
  else
    let cell_start := Layout.cell_at layout (start sp) level in
    let cell_end := Layout.cell_at layout (start sp + count sp - 1) level in
    (Layout.excel_y cell_start, Layout.excel_x cell_start,
     Layout.excel_y cell_start, Layout.excel_x cell_end).

(** [get_merge_ranges_from_spans]: the two nested loops append, level by
    level and span by span, one range for every span longer than 1. *)
Definition get_merge_ranges_from_spans {A : Type} (spans : list (list (span A)))
           (layout : Layout.BaseLayout) (is_row_index : bool) : list MergeRange :=
  fold_left
    (fun merge_ranges '(level, level_spans) =>
       fold_left
         (fun merge_ranges sp =>
            if 1 <? count sp
            then merge_ranges ++ [span_merge_range layout is_row_index level sp]
            else merge_ranges)
         level_spans merge_ranges)
    (enumerate spans) [].

(** [pd.isna(value) or value == ''] *)
Definition is_empty_value (v : scalar) : bool :=
  isna v || scalar_eq v (PStr EmptyString).

(** The variables of the scan of one row in [get_empty_spans];
    [merge_ranges] is shared by all rows. *)
Record scan_state : Type := {
  merge_ranges : list MergeRange;
  span_start : option Z;
  last_non_empty : Z
}.

(** The horizontal range from level [from_level] to level [to_level] on
    row [i] of the index block. *)
Definition empty_merge_range (layout : Layout.TableLayout) (i from_level to_level : Z)
  : MergeRange :=
  let start_cell := Layout.cell_at (Layout.base (Layout.index layout)) from_level i in
  let end_cell := Layout.cell_at (Layout.base (Layout.index layout)) to_level i in
  (Layout.excel_y start_cell, Layout.excel_x start_cell,
   Layout.excel_y end_cell, Layout.excel_x end_cell).

(** One iteration of [for level in range(1, len(idx))]. *)
Definition scan_level (layout : Layout.TableLayout) (i : Z) (idx : list scalar)
           (st : scan_state) (level : Z) : scan_state :=
  let value := getitem idx level in
  if is_empty_value value then
    match span_start st with
    | None => {| merge_ranges := merge_ranges st; span_start := Some level;
                 last_non_empty := last_non_empty st |}
    | Some _ => st
    end
  else
    {| merge_ranges :=
         match span_start st with
         | Some _ => merge_ranges st
                       ++ [empty_merge_range layout i (last_non_empty st) (level - 1)]
         | None => merge_ranges st
         end;
       span_start := None;
       last_non_empty := level |}.

(** One iteration of [for i, idx in enumerate(df.index)]; every row of a
    MultiIndex is a tuple, so the [isinstance(idx, tuple)] test passes. *)
Definition scan_row (layout : Layout.TableLayout) (nlevels : Z)
           (merge_ranges0 : list MergeRange) (row : Z * list scalar) : list MergeRange :=
  let '(i, idx) := row in
  let st := fold_left (scan_level layout i idx) (range 1 (len idx))
                      {| merge_ranges := merge_ranges0; span_start := None;
                         last_non_empty := 0 |} in
  match span_start st with
  | Some _ => merge_ranges st
                ++ [empty_merge_range layout i (last_non_empty st) (nlevels - 1)]
  | None => merge_ranges st
  end.

(** [get_empty_spans(df, layout)]. *)
Definition get_empty_spans (df : DataFrame) (layout : Layout.TableLayout)
  : list MergeRange :=
  match index df with
  | Index _ _ => []
  | MultiIndex nlevels _ tuples =>
      fold_left (scan_row layout nlevels) (enumerate tuples) []
  end.

Definition row_merges (df : DataFrame) (layout : Layout.TableLayout) : list MergeRange :=
  get_merge_ranges_from_spans (get_level_spans (index df) None)
                              (Layout.base (Layout.index layout)) true.

Definition column_merges (df : DataFrame) (layout : Layout.TableLayout) : list MergeRange :=
  get_merge_ranges_from_spans (get_level_spans (columns df) None)
                              (Layout.base (Layout.columns layout)) false.

(** [get_all_merge_ranges(df, layout)]. *)
Definition get_all_merge_ranges (df : DataFrame) (layout : Layout.TableLayout)
  : list MergeRange :=
  row_merges df layout ++ column_merges df layout ++ get_empty_spans df layout.

(** The cells of a merge range, and overlap of two ranges. *)
Definition covers (r : MergeRange) (row col : Z) : Prop :=
  let '(r1, c1, r2, c2) := r in r1 <= row <= r2 /\ c1 <= col <= c2.

Definition disjoint (a b : MergeRange) : Prop :=
  forall row col, ~ (covers a row col /\ covers b row col).

Definition overlap (a b : MergeRange) : Prop :=
  exists row col, covers a row col /\ covers b row col.

(** No two ranges at distinct positions of the list share a cell. *)
Definition pairwise_disjoint (l : list MergeRange) : Prop :=
  forall i j a b,
    i <> j -> nth_error l i = Some a -> nth_error l j = Some b -> disjoint a b.

(** The outputs of one [get_all_merge_ranges] call that belong to the row
    axis: the vertical merges of the row header and the horizontal merges
    of blank trailing levels. *)
Definition row_axis_merges (df : DataFrame) (layout : Layout.TableLayout)
  : list MergeRange :=
  row_merges df layout ++ get_empty_spans df layout.

(** Every range of the list is disjoint from all the ranges after it. *)
Fixpoint separated (l : list MergeRange) : Prop :=
  match l with
  | [] => True
  | r :: rest => Forall (disjoint r) rest /\ separated rest
  end.

(** The ranges one level of spans contributes, and those of all levels
    numbered from [k]. *)
Definition level_block {A : Type} (layout : Layout.BaseLayout) (is_row_index : bool)
           (level : Z) (level_spans : list (span A)) : list MergeRange :=
  flat_map (fun sp => if 1 <? count sp
                      then [span_merge_range layout is_row_index level sp]
                      else [])
           level_spans.

Definition level_blocks {A : Type} (layout : Layout.BaseLayout) (is_row_index : bool)
           (k : Z) (spans : list (list (span A))) : list MergeRange :=
  flat_map (fun '(level, level_spans) => level_block layout is_row_index level level_spans)
           (enumerate_from k spans).

(** A scan state with ranges put in front of its own. *)
Definition prepend (acc : list MergeRange) (st : scan_state) : scan_state :=
  {| merge_ranges := acc ++ merge_ranges st;
     span_start := span_start st;
     last_non_empty := last_non_empty st |}.

(** Rows and columns of a range. *)
Definition start_row (r : MergeRange) : Z := let '(r1, _, _, _) := r in r1.
Definition start_col (r : MergeRange) : Z := let '(_, c1, _, _) := r in c1.
Definition end_row (r : MergeRange) : Z := let '(_, _, r2, _) := r in r2.
Definition end_col (r : MergeRange) : Z := let '(_, _, _, c2) := r in c2.

(** The range lies on the single sheet row [row]. *)
Definition on_row (row : Z) (r : MergeRange) : bool :=
  (start_row r =? row) && (end_row r =? row).

(** The sheet row of row [i] of the index block and the sheet column of
    its level [level]. *)
Definition sheet_row (layout : Layout.TableLayout) (i : Z) : Z :=
  Layout.excel_y (Layout.cell_at (Layout.base (Layout.index layout)) 0 i).

Definition sheet_col (layout : Layout.TableLayout) (level : Z) : Z :=
  Layout.excel_x (Layout.cell_at (Layout.base (Layout.index layout)) level 0).

(** The invariant of the scan of row [i] at the head of the iteration
    for [level]: the last non-empty level lies before [level], the ranges
    appended so far lie on the row, end before the column of the last
    non-empty level, and share no cell. *)
Definition row_scan_inv (layout : Layout.TableLayout) (i level : Z) (st : scan_state)
  : Prop :=
  0 <= last_non_empty st < level
  /\ Forall (fun r => start_row r = sheet_row layout i
                      /\ end_row r = sheet_row layout i
                      /\ start_col r <= end_col r
                      /\ end_col r < sheet_col layout (last_non_empty st))
            (merge_ranges st)
  /\ separated (merge_ranges st).

(** The sparse row index of the scenario: [("A", "x", "y")] followed by
    [("A", NaN, NaN)], over one flat column, laid out at the origin. *)
Definition sparse_df : DataFrame :=
  {| index := MultiIndex 3 [None; None; None]
                         [[PStr "A"; PStr "x"; PStr "y"]; [PStr "A"; np_nan; np_nan]];
     columns := Index None [PStr "c"];
     values := [[PInt 1]; [PInt 2]] |}.

Definition sparse_layout : Layout.TableLayout := Layout.from_df sparse_df 0 0.

(** A row index with a blank inside the key as well as at its end:
    [("C", "", "z", "")], over one flat column, laid out at the origin. *)
Definition gapped_df : DataFrame :=
  {| index := MultiIndex 4 [None; None; None; None]
                         [[PStr "C"; PStr EmptyString; PStr "z"; PStr EmptyString]];
     columns := Index None [PStr "c"];
     values := [[PInt 1]] |}.

Definition gapped_layout : Layout.TableLayout := Layout.from_df gapped_df 0 0.

Section SpanRuns.
Context {A : Type} (py_ne : A -> A -> bool).

(** The value [v] differs from the value of the last span of the list. *)
Fixpoint differs_from_last (l : list (span A)) (v : A) : Prop :=
  match l with
  | [] => True
  | [sp] => py_ne v (value sp) = true
  | _ :: rest => differs_from_last rest v
  end.

(** Every span holds a value that differs from the value of the span
    before it. *)
Fixpoint adjacent_differ (l : list (span A)) : Prop :=
  match l with
  | [] => True
  | sp :: rest =>
      match rest with
      | [] => True
      | next :: _ => py_ne (value next) (value sp) = true
      end /\ adjacent_differ rest
  end.
End SpanRuns.

(** The range lies inside the region, in the one-based coordinates of the
    sheet. *)
Definition range_within (region : Layout.BaseLayout) (r : MergeRange) : Prop :=
  Layout.x_start region + 1 <= start_col r
  /\ end_col r <= Layout.x_end region + 1
  /\ Layout.y_start region + 1 <= start_row r
  /\ end_row r <= Layout.y_end region + 1.

(** No component below the outermost level of any row is blank. *)
Definition no_blank_levels (ix : pd_index) : Prop :=
  match ix with
  | Index _ _ => True
  | MultiIndex _ _ tuples =>
      Forall (fun idx => Forall (fun v => is_empty_value v = false) (tl idx)) tuples
  end.

(** Every row of a MultiIndex has one component per level. *)
Definition well_formed (ix : pd_index) : Prop :=
  match ix with
  | Index _ _ => True
  | MultiIndex nlevels _ tuples => Forall (fun idx => len idx = nlevels) tuples
  end.

(** The stricter invariant of the scan of row [i]: an open span starts
    after the last non-empty level, and every range appended so far lies
    on the row, starts at level 0 or later, covers at least two columns
    and ends before the column of the last non-empty level. *)
Definition row_scan_strict (layout : Layout.TableLayout) (i level : Z) (st : scan_state)
  : Prop :=
  0 <= last_non_empty st < level
  /\ (forall s, span_start st = Some s -> last_non_empty st < s < level)
  /\ Forall (fun r => start_row r = sheet_row layout i
                      /\ end_row r = sheet_row layout i
                      /\ sheet_col layout 0 <= start_col r
                      /\ start_col r < end_col r
                      /\ end_col r < sheet_col layout (last_non_empty st))
            (merge_ranges st).

(** A MultiIndex without blank components. *)
Definition dense_df : DataFrame :=
  {| index := MultiIndex 2 [None; None]
                         [[PStr "A"; PInt 1]; [PStr "A"; PInt 2]; [PStr "B"; PInt 1]];
     columns := Index None [PStr "c"];
     values := [[PInt 1]; [PInt 2]; [PInt 3]] |}.

(** The cell in sheet row [row] and sheet column [col] belongs to the
    data region. *)
Definition data_cell (layout : Layout.TableLayout) (row col : Z) : Prop :=
  Layout.contains (Layout.data_layout layout) (Layout.CellPosition_init col row true).

End Spans.

(** ** pattern.py *)

Module Pattern.
Import Py.

(** [PatternMatcher._tuple_contains_match]. *)
Fixpoint _tuple_contains_match (label_tuple : list scalar) (pattern : label) : bool :=
  match label_tuple with
  | [] => false
  | part :: rest =>
      if label_eq (LScalar part) pattern then true
      else
        match part, pattern with
        | PStr p, LScalar (PStr pat) =>
            if startswith p pat then true else _tuple_contains_match rest pattern
        | _, _ => _tuple_contains_match rest pattern
        end
  end.

(** [PatternMatcher.is_match]. *)
Definition is_match (lbl : label) (pattern : label) : bool :=
  if is_tuple pattern && is_tuple lbl && label_eq lbl pattern then true
  else if negb (is_tuple pattern) then
    if label_eq lbl pattern then true
    else
      match lbl with
      | LTuple parts => _tuple_contains_match parts pattern
      | LScalar _ => false
      end
  else false.

(** [PatternMatcher.find_match]: the value of the first matching pattern. *)
Fixpoint find_match {T : Type} (lbl : label) (patterns : list (label * T)) : option T :=
  match patterns with
  | [] => None
  | (pattern, v) :: rest =>
      if is_match lbl pattern then Some v else find_match lbl rest
  end.

(** [result[i] = v] for a position inside the list. *)
Fixpoint list_set {T : Type} (l : list T) (i : nat) (v : T) : list T :=
  match l, i with
  | [], _ => []
  | _ :: rest, O => v :: rest
  | a :: rest, S k => a :: list_set rest k v
  end.

(** [PatternMatcher.create_position_map]: a value of a pattern may itself
    be [None], which the [is not None] test treats as no match. *)
Definition create_position_map {T : Type} (labels : list label)
           (patterns : list (label * option T)) : list (option T) :=
  fold_left
    (fun result '(i, lbl) =>
       match find_match lbl patterns with
       | Some (Some m) => list_set result (Z.to_nat i) (Some m)
       | _ => result
       end)
    (enumerate labels) (repeat None (Z.to_nat (len labels))).

End Pattern.

(** ** merge.py *)

Module Merge.
Import Py.

(** Exceptions a sink call can raise: the [ValueError] with which a
    worksheet rejects a range, or any other exception. *)
Inductive exn : Type :=
| ValueError
| OtherException (name : string).

Section Manager.
(** The worksheet (the grid sink) and its [merge_cells] method: the
    state after the call and the exception raised, if any. *)
Context {Worksheet : Type}.
Variable merge_cells : Worksheet -> Spans.MergeRange -> Worksheet * option exn.

Record MergeManager : Type := {
  worksheet : Worksheet;
  applied_merges : list Spans.MergeRange
}.

(** [MergeManager.__init__]. *)
Definition MergeManager_init (ws : Worksheet) : MergeManager :=
  {| worksheet := ws; applied_merges := [] |}.

(** [MergeManager.apply_merges]: the manager afterwards and the
    exception that left the method, if any. *)
Fixpoint apply_merges (self : MergeManager) (merge_ranges : list Spans.MergeRange)
  : MergeManager * option exn :=
  match merge_ranges with
  | [] => (self, None)
  | r :: rest =>
      let '(ws, raised) := merge_cells (worksheet self) r in
      match raised with
      | None =>
          apply_merges {| worksheet := ws;
                          applied_merges := applied_merges self ++ [r] |} rest
      | Some ValueError =>
          apply_merges {| worksheet := ws;
                          applied_merges := applied_merges self |} rest
      | Some e =>
          ({| worksheet := ws; applied_merges := applied_merges self |}, Some e)
      end
  end.

(** [MergeManager.is_merged_cell]. *)
Definition is_merged_cell (self : MergeManager) (row col : Z) : bool :=
  existsb (fun '(start_row, start_col, end_row, end_col) =>
             (start_row <=? row) && (row <=? end_row)
             && (start_col <=? col) && (col <=? end_col))
          (applied_merges self).

(** What the sink does when it is handed every range of the list in
    turn: its final state, and the ranges it accepted. *)
Fixpoint sink_after (ws : Worksheet) (merge_ranges : list Spans.MergeRange) : Worksheet :=
  match merge_ranges with
  | [] => ws
  | r :: rest => sink_after (fst (merge_cells ws r)) rest
  end.

Fixpoint sink_accepted (ws : Worksheet) (merge_ranges : list Spans.MergeRange)
  : list Spans.MergeRange :=
  match merge_ranges with
  | [] => []
  | r :: rest =>
      match snd (merge_cells ws r) with
      | None => r :: sink_accepted (fst (merge_cells ws r)) rest
      | Some _ => sink_accepted (fst (merge_cells ws r)) rest
      end
  end.

(** The sink reports a rejected merge with [ValueError] and raises
    nothing else. *)
Definition rejects_with_ValueError : Prop :=
  forall ws r, match snd (merge_cells ws r) with
               | Some (OtherException _) => False
               | _ => True
               end.

(** Handed the ranges of the list in turn, starting from the sheet [ws],
    the sink accepts each of them or rejects it with [ValueError]. *)
Fixpoint only_ValueError (ws : Worksheet) (merge_ranges : list Spans.MergeRange) : Prop :=
  match merge_ranges with
  | [] => True
  | r :: rest =>
      match snd (merge_cells ws r) with
      | Some (OtherException _) => False
      | _ => only_ValueError (fst (merge_cells ws r)) rest
      end
  end.
End Manager.

(** A sink that keeps the merged ranges and rejects a range sharing a
    cell with one of them. *)
Definition overlapb (a b : Spans.MergeRange) : bool :=
  let '(r1, c1, r2, c2) := a in
  let '(s1, d1, s2, d2) := b in
  (r1 <=? s2) && (s1 <=? r2) && (c1 <=? d2) && (d1 <=? c2).

Definition strict_merge_cells (ws : list Spans.MergeRange) (r : Spans.MergeRange)
  : list Spans.MergeRange * option exn :=
  if existsb (overlapb r) ws then (ws, Some ValueError) else (ws ++ [r], None).

(** The same sink, which moreover cannot take a range that starts before
    row 1 or column 1 and fails on it with an exception of another type. *)
Definition guarded_merge_cells (ws : list Spans.MergeRange) (r : Spans.MergeRange)
  : list Spans.MergeRange * option exn :=
  let '(start_row, start_col, _, _) := r in
  if (start_row <? 1) || (start_col <? 1)
  then (ws, Some (OtherException "TypeError"))
  else strict_merge_cells ws r.

End Merge.

(** ** table/writer.py: number formats of the data cells *)

Module Writer.
Import Py.

(** A number format is a string or [None]. *)
Definition number_format : Type := option string.

(** The shapes of the [number_formats] argument that
    [_process_number_formats] tells apart. *)
Inductive number_formats_arg : Type :=
| NoFormats
| AxisFormats (rows columns : option (list (label * number_format)))
| PatternFormats (patterns : list (label * number_format))
| SinglePattern (pattern : label).

Record ExcelTableWriter : Type := {
  df : DataFrame;
  layout : Layout.TableLayout;
  default_number_format : number_format;
  number_formats : number_formats_arg;
  row_formats : list number_format;
  column_formats : list number_format
}.

(** Truth value of a format and of a pattern, and Python's [a or b]. *)
Definition format_truthy (f : number_format) : bool :=
  match f with
  | Some s => negb (String.eqb s EmptyString)
  | None => false
  end.

Definition label_truthy (l : label) : bool :=
  match l with
  | LScalar PNone => false
  | LScalar (PStr s) => negb (String.eqb s EmptyString)
  | LScalar (PInt z) => negb (z =? 0)
  | LScalar (PNaN _) => true
  | LTuple parts => negb (len parts =? 0)
  end.

Definition py_or (a b : number_format) : number_format :=
  if format_truthy a then a else b.

(** [formats[i] = v] and [formats[i]] for a position inside the list. *)
Fixpoint setitem (formats : list number_format) (i : nat) (v : number_format)
  : list number_format :=
  match formats, i with
  | [], _ => []
  | _ :: rest, O => v :: rest
  | f :: rest, S k => f :: setitem rest k v
  end.

Definition format_at (formats : list number_format) (i : Z) : number_format :=
  nth (Z.to_nat i) formats None.

(** [for i, lbl in enumerate(labels): match = find_match(lbl, patterns);
     if match is not None: formats[i] = match]. *)
Definition apply_patterns (patterns : list (label * number_format))
           (labels : list label) (formats : list number_format) : list number_format :=
  fold_left
    (fun formats '(i, lbl) =>
       match Pattern.find_match lbl patterns with
       | Some (Some m) => setitem formats (Z.to_nat i) (Some m)
       | _ => formats
       end)
    (enumerate labels) formats.

(** [for i, lbl in enumerate(labels): if is_match(lbl, pattern):
     formats[i] = default_number_format]. *)
Definition apply_single (pattern : label) (default : number_format)
           (labels : list label) (formats : list number_format) : list number_format :=
  fold_left
    (fun formats '(i, lbl) =>
       if Pattern.is_match lbl pattern
       then setitem formats (Z.to_nat i) default
       else formats)
    (enumerate labels) formats.

(** [_process_number_formats]: the writer with its two format lists
    filled in. *)
Definition _process_number_formats (self : ExcelTableWriter) : ExcelTableWriter :=
  let rows := index_labels (index (df self)) in
  let cols := index_labels (columns (df self)) in
  let set (rf cf : list number_format) :=
    {| df := df self; layout := layout self;
       default_number_format := default_number_format self;
       number_formats := number_formats self;
       row_formats := rf; column_formats := cf |} in
  match number_formats self with
  | NoFormats => self
  | AxisFormats None None => self
  | PatternFormats [] => self
  | AxisFormats row_specs col_specs =>
      set (match row_specs with
           | Some row_patterns => apply_patterns row_patterns rows (row_formats self)
           | None => row_formats self
           end)
          (match col_specs with
           | Some column_patterns => apply_patterns column_patterns cols (column_formats self)
           | None => column_formats self
           end)
  | PatternFormats patterns =>
      set (apply_patterns patterns rows (row_formats self))
          (apply_patterns patterns cols (column_formats self))
  | SinglePattern pattern =>
      if label_truthy pattern then
        set (apply_single pattern (default_number_format self) rows (row_formats self))
            (apply_single pattern (default_number_format self) cols (column_formats self))
      else self
  end.

(** [ExcelTableWriter.__init__], as far as number formats go. *)
Definition ExcelTableWriter_init (d : DataFrame) (x_offset y_offset : Z)
           (default : number_format) (formats : number_formats_arg) : ExcelTableWriter :=
  let lay := Layout.from_df d x_offset y_offset in
  _process_number_formats
    {| df := d; layout := lay;
       default_number_format := default;
       number_formats := formats;
       row_formats :=
         repeat None (Z.to_nat (Layout.height (Layout.base (Layout.index lay))));
       column_formats :=
         repeat None (Z.to_nat (Layout.width (Layout.base (Layout.columns lay)))) |}.

(** [_handle_na_value] and [isinstance(value, (int, float, np.number))]
    on the value it returns. *)
Definition _handle_na_value (v : scalar) : scalar :=
  if isna v then PStr EmptyString else v.

Definition is_number (v : scalar) : bool :=
  match v with PInt _ => true | PNaN _ => true | _ => false end.

(** What [_write_cell] does to the sink: the cell written, its value and
    the number format assigned to it ([None]: none assigned). *)
Record cell_write : Type := {
  cell_row : Z;
  cell_column : Z;
  cell_value : scalar;
  cell_number_format : number_format
}.

Definition _write_cell (position : Layout.CellPosition) (v : scalar)
           (fmt : number_format) : cell_write :=
  let v' := _handle_na_value v in
  let '(row, col) := Layout.excel_position position in
  {| cell_row := row; cell_column := col; cell_value := v';
     cell_number_format :=
       if format_truthy fmt && is_number v' then fmt else None |}.

(** The body of the loop of [write_data] for one [(i, j, position)]. *)
Definition write_data_cell (self : ExcelTableWriter)
           (entry : Z * Z * Layout.CellPosition) : cell_write :=
  let '(i, j, position) := entry in
  let v := iloc (df self) i j in
  let col_format := format_at (column_formats self) j in
  let row_format := format_at (row_formats self) i in
  let fmt := py_or (py_or row_format col_format) (default_number_format self) in
  _write_cell position v fmt.

(** [write_data]: the cells written, in order. *)
Definition write_data (self : ExcelTableWriter) : list cell_write :=
  map (write_data_cell self) (Layout.iter_data_positions (layout self)).

(** The label at position [i] of an axis. *)
Definition label_at (ix : pd_index) (i : Z) : label :=
  nth (Z.to_nat i) (index_labels ix) (LScalar PNone).

(** A result of [find_match] that passes the [is not None] test. *)
Definition found (m : option number_format) : number_format :=
  match m with
  | Some (Some f) => Some f
  | _ => None
  end.

(** The pattern match of a row label and of a column label under the
    [number_formats] argument. *)
Definition row_match (formats : number_formats_arg) (default : number_format)
           (lbl : label) : number_format :=
  match formats with
  | NoFormats => None
  | AxisFormats (Some row_patterns) _ => found (Pattern.find_match lbl row_patterns)
  | AxisFormats None _ => None
  | PatternFormats patterns => found (Pattern.find_match lbl patterns)
  | SinglePattern pattern =>
      if label_truthy pattern && Pattern.is_match lbl pattern then default else None
  end.

Definition column_match (formats : number_formats_arg) (default : number_format)
           (lbl : label) : number_format :=
  match formats with
  | NoFormats => None
  | AxisFormats _ (Some column_patterns) => found (Pattern.find_match lbl column_patterns)
  | AxisFormats _ None => None
  | PatternFormats patterns => found (Pattern.find_match lbl patterns)
  | SinglePattern pattern =>
      if label_truthy pattern && Pattern.is_match lbl pattern then default else None
  end.

(** The priority rule as the specification words it: the row match if
    there is one, otherwise the column match if there is one, otherwise
    the default, otherwise nothing. *)
Definition spec_number_format (row_m col_m default : number_format) : number_format :=
  match row_m with
  | Some f => Some f
  | None => match col_m with
            | Some f => Some f
            | None => default
            end
  end.

(** The first of the three that is a non-empty string, if any. *)
Definition first_non_empty (row_m col_m default : number_format) : number_format :=
  if format_truthy row_m then row_m
  else if format_truthy col_m then col_m
  else if format_truthy default then default
  else None.

(** Two rows and one column, with a row pattern whose format is the
    empty string, a row pattern on a text cell, and a column pattern. *)
Definition formats_df : DataFrame :=
  {| index := Index None [PStr "A"; PStr "B"];
     columns := Index None [PStr "c"];
     values := [[PInt 1]; [PStr "n/a"]] |}.

Definition formats_arg : number_formats_arg :=
  AxisFormats (Some [(LScalar (PStr "A"), Some EmptyString); (LScalar (PStr "B"), Some "0%"%string)])
              (Some [(LScalar (PStr "c"), Some "0.00"%string)]).

Definition formats_writer : ExcelTableWriter :=
  ExcelTableWriter_init formats_df 0 0 None formats_arg.

(** The shapes of the [border_specs] argument that
    [_process_border_specs] tells apart: nothing, a dict with a ['rows']
    or ['columns'] entry (a pattern or a list of patterns each), another
    dict (its keys are the patterns), a single pattern, a list of
    patterns. *)
Inductive border_specs_arg : Type :=
| NoBorders
| AxisBorders (rows columns : option (list label))
| KeyBorders (patterns : list label)
| SingleBorder (pattern : label)
| ListBorders (patterns : list label).

(** [for i, lbl in enumerate(labels): for pattern in patterns:
     if is_match(lbl, pattern): flags[i] = True; break]. *)
Definition mark_borders (patterns : list label) (labels : list label)
           (flags : list bool) : list bool :=
  fold_left
    (fun flags '(i, lbl) =>
       if existsb (Pattern.is_match lbl) patterns
       then Pattern.list_set flags (Z.to_nat i) true
       else flags)
    (enumerate labels) flags.

(** [_process_border_specs] on the flag lists [row_borders] and
    [column_borders] of the writer. *)
Definition _process_border_specs (d : DataFrame) (border_specs : border_specs_arg)
           (row_borders column_borders : list bool) : list bool * list bool :=
  let rows := index_labels (index d) in
  let cols := index_labels (columns d) in
  let both patterns :=
    (mark_borders patterns rows row_borders, mark_borders patterns cols column_borders) in
  match border_specs with
  | NoBorders => (row_borders, column_borders)
  | AxisBorders None None => (row_borders, column_borders)
  | AxisBorders row_specs col_specs =>
      (match row_specs with
       | Some row_patterns => mark_borders row_patterns rows row_borders
       | None => row_borders
       end,
       match col_specs with
       | Some column_patterns => mark_borders column_patterns cols column_borders
       | None => column_borders
       end)
  | KeyBorders [] => (row_borders, column_borders)
  | KeyBorders patterns => both patterns
  | SingleBorder pattern =>
      if label_truthy pattern then both [pattern] else (row_borders, column_borders)
  | ListBorders [] => (row_borders, column_borders)
  | ListBorders patterns => both patterns
  end.

(** The flag lists of a writer after [__init__]. *)
Definition border_flags (d : DataFrame) (x_offset y_offset : Z)
           (border_specs : border_specs_arg) : list bool * list bool :=
  let lay := Layout.from_df d x_offset y_offset in
  _process_border_specs d border_specs
    (repeat false (Z.to_nat (Layout.height (Layout.base (Layout.index lay)))))
    (repeat false (Z.to_nat (Layout.width (Layout.base (Layout.columns lay))))).

(** The patterns that apply to the rows and to the columns. *)
Definition row_border_patterns (border_specs : border_specs_arg) : list label :=
  match border_specs with
  | NoBorders => []
  | AxisBorders (Some row_patterns) _ => row_patterns
  | AxisBorders None _ => []
  | KeyBorders patterns => patterns
  | SingleBorder pattern => if label_truthy pattern then [pattern] else []
  | ListBorders patterns => patterns
  end.

Definition column_border_patterns (border_specs : border_specs_arg) : list label :=
  match border_specs with
  | NoBorders => []
  | AxisBorders _ (Some column_patterns) => column_patterns
  | AxisBorders _ None => []
  | KeyBorders patterns => patterns
  | SingleBorder pattern => if label_truthy pattern then [pattern] else []
  | ListBorders patterns => patterns
  end.

End Writer.

(** ** style.py: the border styles *)

Module Style.

Inductive BorderStyle : Type :=
| THIN | MEDIUM | THICK | DASHED | DOTTED | DOUBLE | NONE.

(** [BorderStyle.value]. *)
Definition BorderStyle_value (s : BorderStyle) : option string :=
  match s with
  | THIN => Some "thin"%string
  | MEDIUM => Some "medium"%string
  | THICK => Some "thick"%string
  | DASHED => Some "dashed"%string
  | DOTTED => Some "dotted"%string
  | DOUBLE => Some "double"%string
  | NONE => None
  end.

End Style.

(** ** borders.py *)

Module Borders.
Import Py Style.

(** The border of a cell as openpyxl holds it: four sides, each a [Side]
    with its style or [None]. *)
Record Side : Type := { side_style : option string }.

Record Border : Type := {
  left : option Side;
  right : option Side;
  top : option Side;
  bottom : option Side
}.

(** The worksheet as far as borders go: the border of the cell in each
    sheet row and column; assigning [cell.border] replaces it. *)
Definition Worksheet : Type := Z -> Z -> Border.

Definition set_border (ws : Worksheet) (row col : Z) (b : Border) : Worksheet :=
  fun r c => if (r =? row) && (c =? col) then b else ws r c.

(** [Side(style=style.value) if style.value else None]. *)
Definition make_side (style : BorderStyle) : option Side :=
  match BorderStyle_value style with
  | Some v => Some {| side_style := Some v |}
  | None => None
  end.

Definition add_left_border (ws : Worksheet) (cell_position : Layout.CellPosition)
           (style : BorderStyle) : Worksheet :=
  let row := Layout.excel_y cell_position in
  let col := Layout.excel_x cell_position in
  let existing_border := ws row col in
  set_border ws row col
             {| left := make_side style; right := right existing_border;
                top := top existing_border; bottom := bottom existing_border |}.

Definition add_top_border (ws : Worksheet) (cell_position : Layout.CellPosition)
           (style : BorderStyle) : Worksheet :=
  let row := Layout.excel_y cell_position in
  let col := Layout.excel_x cell_position in
  let existing_border := ws row col in
  set_border ws row col
             {| left := left existing_border; right := right existing_border;
                top := make_side style; bottom := bottom existing_border |}.

Definition add_right_border (ws : Worksheet) (cell_position : Layout.CellPosition)
           (style : BorderStyle) : Worksheet :=
  let row := Layout.excel_y cell_position in
  let col := Layout.excel_x cell_position in
  let existing_border := ws row col in
  set_border ws row col
             {| left := left existing_border; right := make_side style;
                top := top existing_border; bottom := bottom existing_border |}.

Definition add_bottom_border (ws : Worksheet) (cell_position : Layout.CellPosition)
           (style : BorderStyle) : Worksheet :=
  let row := Layout.excel_y cell_position in
  let col := Layout.excel_x cell_position in
  let existing_border := ws row col in
  set_border ws row col
             {| left := left existing_border; right := right existing_border;
                top := top existing_border; bottom := make_side style |}.

Definition add_all_borders (ws : Worksheet) (cell_position : Layout.CellPosition)
           (style : BorderStyle) : Worksheet :=
  let side := make_side style in
  set_border ws (Layout.excel_y cell_position) (Layout.excel_x cell_position)
             {| left := side; right := side; top := side; bottom := side |}.

(** A top edge on every cell of sheet row [row_pos] across the width of
    the table, and a left edge on every cell of column [col_pos] down its
    height: the innermost loops of the methods below. *)
Definition top_edge_across (ws : Worksheet) (layout : Layout.TableLayout) (row_pos : Z)
           (style : BorderStyle) : Worksheet :=
  fold_left (fun ws x0 => add_top_border ws (Layout.CellPosition_init x0 row_pos false) style)
            (range (Layout.TableLayout_x_start layout) (Layout.TableLayout_x_end layout + 1))
            ws.

Definition left_edge_down (ws : Worksheet) (layout : Layout.TableLayout) (col_pos : Z)
           (style : BorderStyle) : Worksheet :=
  fold_left (fun ws y0 => add_left_border ws (Layout.CellPosition_init col_pos y0 false) style)
            (range (Layout.TableLayout_y_start layout) (Layout.TableLayout_y_end layout + 1))
            ws.

Definition add_vertical_index_border (ws : Worksheet) (layout : Layout.TableLayout)
           (border_style : BorderStyle) : Worksheet :=
  let data_first_col := Layout.x_start (Layout.data_layout layout) in
  left_edge_down ws layout data_first_col border_style.

Definition add_horizontal_header_border (ws : Worksheet) (layout : Layout.TableLayout)
           (border_style : BorderStyle) : Worksheet :=
  let data_first_row := Layout.y_start (Layout.data_layout layout) in
  top_edge_across ws layout data_first_row border_style.

(** The loop over the spans of one level in [_add_row_level_borders] and
    in [_add_column_level_borders]. *)
Definition row_level_pass {A : Type} (layout : Layout.TableLayout) (style : BorderStyle)
           (ws : Worksheet) (spans : list (Spans.span A)) : Worksheet :=
  fold_left
    (fun ws sp =>
       if 0 <? Spans.start sp
       then top_edge_across ws layout
              (Layout.y_start (Layout.base (Layout.index layout)) + Spans.start sp) style
       else ws)
    spans ws.

Definition column_level_pass {A : Type} (layout : Layout.TableLayout) (style : BorderStyle)
           (ws : Worksheet) (spans : list (Spans.span A)) : Worksheet :=
  fold_left
    (fun ws sp =>
       if 0 <? Spans.start sp
       then left_edge_down ws layout
              (Layout.x_start (Layout.base (Layout.columns layout)) + Spans.start sp) style
       else ws)
    spans ws.

(** [_add_row_level_borders]; [None] stands for the [IndexError] that
    [row_spans[level]] raises when [min_border_level] is negative. *)
Definition _add_row_level_borders {A : Type} (ws : Worksheet) (layout : Layout.TableLayout)
           (row_spans : list (list (Spans.span A))) (min_border_level : Z)
           (border_style : BorderStyle) : option Worksheet :=
  let max_level_to_show := len row_spans - min_border_level in
  fold_left
    (fun acc level =>
       match acc with
       | None => None
       | Some ws =>
           match nth_error row_spans (Z.to_nat level) with
           | None => None
           | Some spans => Some (row_level_pass layout border_style ws spans)
           end
       end)
    (range 0 max_level_to_show) (Some ws).

Definition _add_column_level_borders {A : Type} (ws : Worksheet)
           (layout : Layout.TableLayout)
           (column_spans : list (list (Spans.span A))) (min_border_level : Z)
           (border_style : BorderStyle) : option Worksheet :=
  let max_level_to_show := len column_spans - min_border_level in
  fold_left
    (fun acc level =>
       match acc with
       | None => None
       | Some ws =>
           match nth_error column_spans (Z.to_nat level) with
           | None => None
           | Some spans => Some (column_level_pass layout border_style ws spans)
           end
       end)
    (range 0 max_level_to_show) (Some ws).

(** [add_level_borders]. *)
Definition add_level_borders {A : Type} (ws : Worksheet) (layout : Layout.TableLayout)
           (row_spans column_spans : list (list (Spans.span A))) (min_border_level : Z)
           (border_style : BorderStyle) : option Worksheet :=
  match (if min_border_level <? len row_spans
         then _add_row_level_borders ws layout row_spans min_border_level border_style
         else Some ws) with
  | None => None
  | Some ws1 =>
      if min_border_level <? len column_spans
      then _add_column_level_borders ws1 layout column_spans min_border_level border_style
      else Some ws1
  end.

(** [add_custom_borders]. *)
Definition add_custom_borders (ws : Worksheet) (layout : Layout.TableLayout)
           (row_borders column_borders : list bool) (border_style : BorderStyle)
  : Worksheet :=
  let ws1 :=
    fold_left
      (fun ws '(i, needs_border) =>
         if (needs_border : bool)
         then top_edge_across ws layout
                (Layout.y_start (Layout.base (Layout.index layout)) + i) border_style
         else ws)
      (enumerate row_borders) ws in
  fold_left
    (fun ws '(j, needs_border) =>
       if (needs_border : bool)
       then left_edge_down ws layout
              (Layout.x_start (Layout.base (Layout.columns layout)) + j) border_style
       else ws)
    (enumerate column_borders) ws1.

(** The border with its top side, or its left side, replaced. *)
Definition with_top (b : Border) (side : option Side) : Border :=
  {| left := left b; right := right b; top := side; bottom := bottom b |}.

Definition with_left (b : Border) (side : option Side) : Border :=
  {| left := side; right := right b; top := top b; bottom := bottom b |}.

(** The sheet column lies within the width of the table, and the sheet
    row within its height. *)
Definition in_table_columns (layout : Layout.TableLayout) (c : Z) : bool :=
  (Layout.TableLayout_x_start layout + 1 <=? c)
  && (c <=? Layout.TableLayout_x_end layout + 1).

Definition in_table_rows (layout : Layout.TableLayout) (r : Z) : bool :=
  (Layout.TableLayout_y_start layout + 1 <=? r)
  && (r <=? Layout.TableLayout_y_end layout + 1).

(** The zero-based position [pos] is the one of the sheet line [line]. *)
Definition at_line (line : Z) (pos : Z) : bool := line =? pos + 1.

(** The positions where spans of the levels shown start, the first span
    of a level apart: the levels are those before the last
    [min_border_level]. *)
Definition level_border_positions {A : Type} (origin : Z)
           (spans : list (list (Spans.span A))) (min_border_level : Z) : list Z :=
  flat_map (fun level_spans =>
              flat_map (fun sp => if 0 <? Spans.start sp
                                  then [origin + Spans.start sp] else [])
                       level_spans)
           (firstn (Z.to_nat (len spans - min_border_level)) spans).

(** The positions flagged in a list of booleans. *)
Definition flagged_positions (origin : Z) (flags : list bool) : list Z :=
  flat_map (fun '(i, needs_border) => if (needs_border : bool) then [origin + i] else [])
           (enumerate flags).

(** Top edges across the table on the given rows, then left edges down
    the table on the given columns, applied to the border of the cell in
    sheet row [r] and column [c]. *)
Definition edges_at (layout : Layout.TableLayout) (side : option Side)
           (rows cols : list Z) (b : Border) (r c : Z) : Border :=
  let b1 := if in_table_columns layout c && existsb (at_line r) rows
            then with_top b side else b in
  if in_table_rows layout r && existsb (at_line c) cols
  then with_left b1 side else b1.

End Borders.

(** ** elements: tables with a title and a caption *)

Module Elements.
Import Py.

(** [TextElement]: one cell. *)
Record TextElement : Type := {
  text : string;
  text_position : Layout.CellPosition;
  style_preset : string
}.

Definition TextElement_width (e : TextElement) : Z := 1.
Definition TextElement_height (e : TextElement) : Z := 1.

(** Truth value of an optional string: [None] and the empty string are
    false. *)
Definition text_truthy (t : option string) : bool :=
  match t with
  | Some s => negb (String.eqb s EmptyString)
  | None => false
  end.

Definition text_of (t : option string) : string :=
  match t with Some s => s | None => EmptyString end.

(** [TableElement] after [__init__]. *)
Record TableElement : Type := {
  position : Layout.CellPosition;
  title_element : option TextElement;
  table_layout : Layout.TableLayout;
  caption_element : option TextElement;
  _calculated_height : Z;
  _calculated_width : Z
}.

(** [TableElement.__init__] with [_calculate_layout]. *)
Definition TableElement_init (d : DataFrame) (x_offset y_offset : Z)
           (title caption : option string) : TableElement :=
  let pos := Layout.CellPosition_init x_offset y_offset false in
  let x_start := Layout.x pos in
  let y_start := Layout.y pos in
  let current_y := y_start in
  let title_element :=
    if text_truthy title
    then Some {| text := text_of title;
                 text_position := Layout.CellPosition_init x_start current_y false;
                 style_preset := "subtitle" |}
    else None in
  let current_y :=
    match title_element with
    | Some e => current_y + TextElement_height e
    | None => current_y
    end in
  let table_layout := Layout.from_df d x_start current_y in
  let current_y := current_y + Layout.total_height table_layout in
  let caption_element :=
    if text_truthy caption
    then Some {| text := text_of caption;
                 text_position := Layout.CellPosition_init x_start current_y false;
                 style_preset := "caption" |}
    else None in
  let current_y :=
    match caption_element with
    | Some e => current_y + TextElement_height e
    | None => current_y
    end in
  {| position := pos;
     title_element := title_element;
     table_layout := table_layout;
     caption_element := caption_element;
     _calculated_height := current_y - y_start;
     _calculated_width := Layout.total_width table_layout |}.

(** [WorksheetElement.x_start], [y_start], [x_end], [y_end] and the two
    placement helpers, on a table element. *)
Definition x_start (e : TableElement) : Z := Layout.x (position e).
Definition y_start (e : TableElement) : Z := Layout.y (position e).
Definition width (e : TableElement) : Z := _calculated_width e.
Definition height (e : TableElement) : Z := _calculated_height e.
Definition x_end (e : TableElement) : Z := x_start e + width e - 1.
Definition y_end (e : TableElement) : Z := y_start e + height e - 1.

Definition get_position_below (e : TableElement) (spacing : Z) : Layout.CellPosition :=
  Layout.CellPosition_init (x_start e) (y_end e + spacing) false.

Definition get_position_right (e : TableElement) (spacing : Z) : Layout.CellPosition :=
  Layout.CellPosition_init (x_end e + spacing) (y_start e) false.

(** The row of an optional text element. *)
Definition text_row (e : option TextElement) : option Z :=
  match e with
  | Some t => Some (Layout.y (text_position t))
  | None => None
  end.

End Elements.

(** * Properties *)

(** ** Coordinates and table layout *)

Module LayoutProps.
Import Layout.

Lemma CellPosition_eq_spec (p q : CellPosition) :
  CellPosition_eq p q = true <-> p = q.
Proof.
  destruct p as [px py], q as [qx qy]; unfold CellPosition_eq; simpl.
  rewrite andb_true_iff, !Z.eqb_eq.
  split; [intros [-> ->]; reflexivity | intros H; inversion H; auto].
Qed.

(** C10: a zero-based coordinate [(x, y)] exposes [excel_x = x + 1] and
    [excel_y = y + 1], and a coordinate rebuilt from these one-based
    values with [excel_based=True] equals the original, both as a value
    and under [__eq__]. *)
Theorem excel_round_trip (x0 y0 : Z) :
  let p := CellPosition_init x0 y0 false in
  excel_x p = x0 + 1
  /\ excel_y p = y0 + 1
  /\ CellPosition_init (excel_x p) (excel_y p) true = p
  /\ CellPosition_eq (CellPosition_init (excel_x p) (excel_y p) true) p = true.
Proof.
  cbv zeta.
  assert (E : CellPosition_init (excel_x (CellPosition_init x0 y0 false))
                                (excel_y (CellPosition_init x0 y0 false)) true
              = CellPosition_init x0 y0 false).
  { unfold CellPosition_init, excel_x, excel_y; simpl. f_equal; lia. }
  repeat split; try reflexivity; try exact E.
  apply CellPosition_eq_spec, E.
Qed.

(** C7: the layout built for 2 index levels, 3 rows, 1 column level,
    2 columns, index names present, column names absent, at origin (0,0),
    has its row-index region starting at row 2 and its data region at
    (x=2, y=2) with width 2 and height 3. *)
Theorem layout_scenario :
  let t := TableLayout_init 2 3 2 1 true false 0 0 in
  y_start (index t) = 2
  /\ x_start (data_layout t) = 2
  /\ y_start (data_layout t) = 2
  /\ width (data_layout t) = 2
  /\ height (data_layout t) = 3.
Proof. cbv zeta. repeat split. Qed.

(** C8: for all dimensions, flags and offsets, the total width is the
    index region's width plus the data region's width, and the total
    height is the column region's height plus one row when index names
    are present plus the index region's height; in terms of the
    constructor's arguments these are [index_width + column_width] and
    [column_height + (1 or 0) + index_height]. *)
Theorem total_size (iw ih cw ch : Z) (inames cnames : bool) (xo yo : Z) :
  let t := TableLayout_init iw ih cw ch inames cnames xo yo in
  total_width t = width (index t) + width (data_layout t)
  /\ total_height t
     = height (columns t) + (if inames then 1 else 0) + height (index t)
  /\ total_width t = iw + cw
  /\ total_height t = ch + (if inames then 1 else 0) + ih.
Proof. cbv zeta. repeat split. Qed.

End LayoutProps.

(** ** Pattern matching *)

Module PatternProps.
Import Py Pattern.

Lemma is_match_scalar_label (v : scalar) (pattern : label) :
  is_match (LScalar v) pattern = label_eq (LScalar v) pattern.
Proof.
  unfold is_match. destruct pattern as [p | parts]; simpl.
  - destruct (scalar_eq v p); reflexivity.
  - reflexivity.
Qed.

(** C2, refuted as stated: the scalar label "EU-total" starts with the
    pattern "EU", yet [is_match] returns [False]. *)
Lemma is_match_scalar_prefix_fails :
  startswith "EU-total" "EU" = true
  /\ is_match (LScalar (PStr "EU-total")) (LScalar (PStr "EU")) = false.
Proof. split; reflexivity. Qed.

(** C2, amended: on a scalar string label a string pattern matches
    exactly when the two strings are equal; a proper prefix does not
    match. *)
Theorem is_match_scalar_strings (s pat : string) :
  is_match (LScalar (PStr s)) (LScalar (PStr pat)) = String.eqb s pat.
Proof. rewrite is_match_scalar_label. reflexivity. Qed.

(** The prefix rule lives in the scan of a tuple label's components. *)
Lemma tuple_contains_prefix (parts : list scalar) (s pat : string) :
  In (PStr s) parts -> startswith s pat = true ->
  is_match (LTuple parts) (LScalar (PStr pat)) = true.
Proof.
  intros Hin Hpre. unfold is_match; simpl.
  induction parts as [| part rest IH]; [destruct Hin |].
  simpl. destruct (scalar_eq part (PStr pat)) eqn:E; [reflexivity |].
  destruct Hin as [-> | Hin].
  - rewrite Hpre. reflexivity.
  - destruct part; try (apply IH; assumption).
    destruct (startswith s0 pat); [reflexivity | apply IH; assumption].
Qed.

End PatternProps.

(** ** Span detection *)

Module SpanProps.
Import Py Spans.

Section Contiguous.
Context {A : Type} (py_none : A) (py_ne : A -> A -> bool).

Lemma chained_app (l1 l2 : list (span A)) (s m e : Z) :
  chained s l1 m -> chained m l2 e -> chained s (l1 ++ l2) e.
Proof.
  revert s. induction l1 as [| sp l1 IH]; simpl; intros s H1 H2.
  - subst. assumption.
  - destruct H1 as (Hs & Hc & Hrest). repeat split; auto.
Qed.

Lemma chained_bounds (l : list (span A)) (s e : Z) :
  chained s l e ->
  s <= e /\ Forall (fun sp => s <= start sp /\ start sp + count sp <= e /\ 0 < count sp) l.
Proof.
  revert s. induction l as [| sp l IH]; simpl; intros s H.
  - split; [lia | constructor].
  - destruct H as (Hs & Hc & Hrest). destruct (IH _ Hrest) as (Hle & Hall).
    split; [lia |]. constructor; [lia |].
    eapply Forall_impl; [| exact Hall]. simpl. intros a Ha. lia.
Qed.

Lemma chained_ordered (l : list (span A)) (s e : Z) :
  chained s l e -> ordered l.
Proof.
  revert s. induction l as [| sp l IH]; simpl; intros s H; [exact I |].
  destruct H as (Hs & Hc & Hrest). split; [| eauto].
  destruct (chained_bounds _ _ _ Hrest) as (_ & Hall).
  eapply Forall_impl; [| exact Hall]. simpl. intros a Ha. lia.
Qed.

Lemma chained_total (l : list (span A)) (s e : Z) :
  chained s l e -> total_count l = e - s.
Proof.
  revert s. induction l as [| sp l IH]; simpl; intros s H.
  - lia.
  - destruct H as (Hs & Hc & Hrest).
    change (count sp + total_count l = e - s). rewrite (IH _ Hrest). lia.
Qed.

Lemma expand_spans_app (l1 l2 : list (span A)) :
  expand_spans (l1 ++ l2) = expand_spans l1 ++ expand_spans l2.
Proof. unfold expand_spans. apply flat_map_app. Qed.

Lemma repeat_snoc (a : A) (n : nat) : repeat a (S n) = repeat a n ++ [a].
Proof. induction n as [| n IH]; simpl in *; [reflexivity | f_equal; exact IH]. Qed.

Lemma len_app {B : Type} (l1 l2 : list B) : len (l1 ++ l2) = len l1 + len l2.
Proof. unfold len. rewrite length_app. lia. Qed.

Lemma len_nonneg {B : Type} (l : list B) : 0 <= len l.
Proof. unfold len. lia. Qed.

Lemma loop_inv_init :
  loop_inv py_ne 0 [] {| spans := []; prev := py_none; start_idx := 0 |}.
Proof. constructor; simpl; try reflexivity; try lia; constructor. Qed.

Lemma loop_body_inv (i : Z) (seen : list A) (st : loop_state) (val : A) :
  loop_inv py_ne i seen st -> loop_inv py_ne (i + 1) (seen ++ [val]) (loop_body py_ne st i val).
Proof.
  intros [Hlen Hchain [Hle Hlt] Hseen].
  assert (Hi : 0 <= i) by (rewrite Hlen; apply len_nonneg).
  assert (Hs : 0 <= start_idx st) by (destruct (chained_bounds _ _ _ Hchain); lia).
  unfold loop_body. destruct (py_ne val (prev st)) eqn:Hne.
  - (* a new span opens at [i] *)
    constructor; simpl.
    + rewrite len_app, <- Hlen. reflexivity.
    + destruct (0 <? i) eqn:Hpos.
      * apply Z.ltb_lt in Hpos.
        apply chained_app with (m := start_idx st); [assumption |].
        simpl. repeat split; lia.
      * apply Z.ltb_ge in Hpos. assert (i = 0) by lia. subst i.
        assert (start_idx st = 0) by lia. congruence.
    + lia.
    + replace (i + 1 - i) with 1 by lia. simpl.
      apply Forall2_app; [| constructor; [left; reflexivity | constructor]].
      destruct (0 <? i) eqn:Hpos.
      * rewrite expand_spans_app. simpl. rewrite app_nil_r. exact Hseen.
      * apply Z.ltb_ge in Hpos.
        replace (Z.to_nat (i - start_idx st)) with 0%nat in Hseen by lia.
        simpl in Hseen. rewrite app_nil_r in Hseen. exact Hseen.
  - (* the open run goes on *)
    constructor.
    + rewrite len_app, <- Hlen. reflexivity.
    + assumption.
    + lia.
    + replace (Z.to_nat (i + 1 - start_idx st))
        with (S (Z.to_nat (i - start_idx st))) by lia.
      rewrite repeat_snoc, app_assoc.
      apply Forall2_app; [exact Hseen |].
      constructor; [right; exact Hne | constructor].
Qed.

Lemma loop_preserves_inv (values seen : list A) (i : Z) (st : loop_state) :
  loop_inv py_ne i seen st ->
  loop_inv py_ne (i + len values) (seen ++ values) (loop py_ne i values st).
Proof.
  revert seen i st. induction values as [| val rest IH]; intros seen i st Hinv.
  - simpl. rewrite app_nil_r. replace (i + len []) with i by (unfold len; simpl; lia).
    exact Hinv.
  - simpl. replace (i + len (val :: rest)) with (i + 1 + len rest)
      by (unfold len; simpl; lia).
    replace (seen ++ val :: rest) with ((seen ++ [val]) ++ rest)
      by (rewrite <- app_assoc; reflexivity).
    apply IH, loop_body_inv, Hinv.
Qed.

Lemma get_contiguous_spans_nil : get_contiguous_spans py_none py_ne [] = [].
Proof. reflexivity. Qed.

Lemma get_contiguous_spans_chained (values : list A) :
  chained 0 (get_contiguous_spans py_none py_ne values) (len values).
Proof.
  unfold get_contiguous_spans.
  pose proof (loop_preserves_inv values [] 0 _ loop_inv_init) as Hinv.
  simpl in Hinv.
  set (st := loop py_ne 0 values _) in *.
  destruct Hinv as [_ Hchain [Hle Hlt] _].
  destruct (0 <? len values) eqn:Hpos.
  - apply Z.ltb_lt in Hpos.
    apply chained_app with (m := start_idx st); [assumption |].
    simpl. repeat split; lia.
  - apply Z.ltb_ge in Hpos. pose proof (len_nonneg values).
    assert (Hz : len values = 0) by lia. rewrite Hz in *.
    replace (start_idx st) with 0 in Hchain; [assumption |].
    destruct (chained_bounds _ _ _ Hchain). lia.
Qed.

Lemma get_contiguous_spans_same_items (values : list A) :
  Forall2 (same_item py_ne) values
          (expand_spans (get_contiguous_spans py_none py_ne values)).
Proof.
  unfold get_contiguous_spans.
  pose proof (loop_preserves_inv values [] 0 _ loop_inv_init) as Hinv.
  simpl in Hinv.
  set (st := loop py_ne 0 values _) in *.
  destruct Hinv as [_ Hchain [Hle Hlt] Hseen].
  destruct (0 <? len values) eqn:Hpos.
  - rewrite expand_spans_app. simpl. rewrite app_nil_r. exact Hseen.
  - apply Z.ltb_ge in Hpos. pose proof (len_nonneg values).
    assert (Hz : len values = 0) by lia.
    destruct values; [| unfold len in Hz; simpl in Hz; lia].
    unfold st. simpl. constructor.
Qed.

(** C4: the spans found in any key sequence tile the positions
    [0 .. len(keys)): the first span starts at 0, every span has a
    positive count and starts where its predecessor ends, so they are
    ordered by start and do not overlap, and the counts add up to
    [len(keys)]; the empty sequence has no spans. *)
Theorem spans_partition (keys : list A) :
  let spans := get_contiguous_spans py_none py_ne keys in
  chained 0 spans (len keys)
  /\ ordered spans
  /\ total_count spans = len keys
  /\ get_contiguous_spans py_none py_ne [] = [].
Proof.
  cbv zeta. pose proof (get_contiguous_spans_chained keys) as H.
  repeat split.
  - exact H.
  - eapply chained_ordered, H.
  - rewrite (chained_total _ _ _ H). lia.
Qed.

End Contiguous.

Lemma scalar_eq_true (a b : scalar) : scalar_eq a b = true -> a = b.
Proof.
  destruct a, b; simpl; try discriminate; intros H.
  - reflexivity.
  - apply String.eqb_eq in H. congruence.
  - apply Z.eqb_eq in H. congruence.
Qed.

Lemma part_eq_true (a b : scalar) : part_eq a b = true -> a = b.
Proof.
  destruct a, b; simpl; try discriminate; intros H;
    try reflexivity; try (apply scalar_eq_true; exact H).
  apply Nat.eqb_eq in H. congruence.
Qed.

Lemma tuple_eq_true (a b : list scalar) : tuple_eq a b = true -> a = b.
Proof.
  revert b. induction a as [| u a IH]; destruct b as [| v b]; simpl;
    try discriminate; intros H; [reflexivity |].
  apply andb_true_iff in H. destruct H as [H1 H2].
  f_equal; [apply part_eq_true, H1 | apply IH, H2].
Qed.

Lemma label_ne_false (a b : label) : label_ne a b = false -> a = b.
Proof.
  unfold label_ne. intros H. apply negb_false_iff in H.
  destruct a, b; simpl in H; try discriminate.
  - f_equal. apply scalar_eq_true, H.
  - f_equal. apply tuple_eq_true, H.
Qed.

Lemma Forall2_eq_same {B : Type} (R : B -> B -> Prop) (l1 l2 : list B) :
  (forall a b, R a b -> a = b) -> Forall2 R l1 l2 -> l1 = l2.
Proof.
  intros HR H. induction H as [| a b l1 l2 Hab _ IH]; [reflexivity |].
  f_equal; [apply HR, Hab | exact IH].
Qed.

(** C5: expanding every span found in a key sequence into [count] copies
    of its stored value and concatenating the runs in order gives back
    the key sequence. *)
Theorem spans_round_trip (keys : list label) :
  expand_spans (get_contiguous_spans (LScalar PNone) label_ne keys) = keys.
Proof.
  symmetry. apply Forall2_eq_same with (R := same_item label_ne).
  - intros a b [E | E]; [exact E | apply label_ne_false, E].
  - apply get_contiguous_spans_same_items.
Qed.

(** Every level of [get_level_spans] tiles the rows of the index. *)
Lemma get_level_spans_chained (ix : pd_index) (max_level : option Z) :
  Forall (fun level_spans => chained 0 level_spans (len (index_labels ix)))
         (get_level_spans ix max_level).
Proof.
  destruct ix as [name values | nlevels names tuples]; simpl.
  - constructor; [| constructor]. apply get_contiguous_spans_chained.
  - apply Forall_forall. intros ls Hin. apply in_map_iff in Hin.
    destruct Hin as (level & <- & _).
    replace (len (map LTuple tuples))
      with (len (map (fun idx => LTuple (slice_to idx (level + 1))) tuples))
      by (unfold len; rewrite !length_map; reflexivity).
    apply get_contiguous_spans_chained.
Qed.

Lemma get_level_spans_ordered (ix : pd_index) (max_level : option Z) :
  Forall (ordered (A := label)) (get_level_spans ix max_level).
Proof.
  eapply Forall_impl; [| apply get_level_spans_chained].
  intros ls H. eapply chained_ordered, H.
Qed.

End SpanProps.

(** ** Merge ranges *)

Module MergeRangeProps.
Import Py Spans SpanProps.

Lemma disjoint_sym (a b : MergeRange) : disjoint a b -> disjoint b a.
Proof. unfold disjoint. intros H row col [Hb Ha]. apply (H row col). split; assumption. Qed.

Lemma separated_app (l1 l2 : list MergeRange) :
  separated l1 -> separated l2 ->
  (forall a b, In a l1 -> In b l2 -> disjoint a b) ->
  separated (l1 ++ l2).
Proof.
  induction l1 as [| r l1 IH]; simpl; intros H1 H2 Hx; [assumption |].
  destruct H1 as [Hr H1]. split.
  - apply Forall_app. split; [assumption |].
    apply Forall_forall. intros b Hb. apply Hx; auto.
  - apply IH; auto.
Qed.

Lemma separated_pairwise (l : list MergeRange) :
  separated l -> pairwise_disjoint l.
Proof.
  induction l as [| r l IH]; intros Hsep i j a b Hij Hi Hj.
  - destruct i; discriminate.
  - destruct Hsep as [Hr Hsep]. rewrite Forall_forall in Hr.
    destruct i as [| i], j as [| j]; simpl in Hi, Hj.
    + congruence.
    + inversion Hi; subst. apply Hr. eapply nth_error_In, Hj.
    + inversion Hj; subst. apply disjoint_sym, Hr. eapply nth_error_In, Hi.
    + apply (IH Hsep i j); auto.
Qed.

(** *** Ranges derived from spans *)

Section FromSpans.
Context {A : Type} (layout : Layout.BaseLayout) (is_row_index : bool).

Lemma level_fold (level : Z) (level_spans : list (span A)) (acc : list MergeRange) :
  fold_left
    (fun merge_ranges sp =>
       if 1 <? count sp
       then merge_ranges ++ [span_merge_range layout is_row_index level sp]
       else merge_ranges)
    level_spans acc
  = acc ++ level_block layout is_row_index level level_spans.
Proof.
  revert acc. induction level_spans as [| sp rest IH]; intros acc; simpl.
  - rewrite app_nil_r. reflexivity.
  - rewrite IH. destruct (1 <? count sp); simpl.
    + rewrite <- app_assoc. reflexivity.
    + reflexivity.
Qed.

Lemma levels_fold (k : Z) (spans : list (list (span A))) (acc : list MergeRange) :
  fold_left
    (fun merge_ranges '(level, level_spans) =>
       fold_left
         (fun merge_ranges sp =>
            if 1 <? count sp
            then merge_ranges ++ [span_merge_range layout is_row_index level sp]
            else merge_ranges)
         level_spans merge_ranges)
    (enumerate_from k spans) acc
  = acc ++ level_blocks layout is_row_index k spans.
Proof.
  revert k acc. induction spans as [| ls rest IH]; intros k acc; simpl.
  - rewrite app_nil_r. reflexivity.
  - rewrite level_fold, IH. unfold level_blocks. simpl.
    rewrite <- app_assoc. reflexivity.
Qed.

Lemma get_merge_ranges_from_spans_blocks (spans : list (list (span A))) :
  get_merge_ranges_from_spans spans layout is_row_index
  = level_blocks layout is_row_index 0 spans.
Proof. unfold get_merge_ranges_from_spans, enumerate. apply levels_fold. Qed.

(** The cells of the range of one span: one line of the header (a
    column for the row index, a row for the column index) over the
    positions of the span. *)
Lemma covers_span_merge_range (level : Z) (sp : span A) (row col : Z) :
  covers (span_merge_range layout is_row_index level sp) row col <->
  if is_row_index
  then col = Layout.x_start layout + level + 1
       /\ Layout.y_start layout + start sp + 1 <= row
          <= Layout.y_start layout + start sp + count sp
  else row = Layout.y_start layout + level + 1
       /\ Layout.x_start layout + start sp + 1 <= col
          <= Layout.x_start layout + start sp + count sp.
Proof.
  unfold span_merge_range, covers, Layout.cell_at, Layout.CellPosition_init,
    Layout.excel_x, Layout.excel_y.
  destruct is_row_index; simpl; lia.
Qed.

Lemma disjoint_levels (l1 l2 : Z) (s1 s2 : span A) :
  l1 <> l2 ->
  disjoint (span_merge_range layout is_row_index l1 s1)
           (span_merge_range layout is_row_index l2 s2).
Proof.
  intros Hne row col [H1 H2].
  apply covers_span_merge_range in H1, H2. destruct is_row_index; lia.
Qed.

Lemma disjoint_starts (level : Z) (s1 s2 : span A) :
  start s1 + count s1 <= start s2 ->
  disjoint (span_merge_range layout is_row_index level s1)
           (span_merge_range layout is_row_index level s2).
Proof.
  intros Hle row col [H1 H2].
  apply covers_span_merge_range in H1, H2. destruct is_row_index; lia.
Qed.

Lemma in_level_block (level : Z) (level_spans : list (span A)) (r : MergeRange) :
  In r (level_block layout is_row_index level level_spans) ->
  exists sp : span A,
    In sp level_spans /\ r = span_merge_range layout is_row_index level sp.
Proof.
  unfold level_block. intros H. apply in_flat_map in H.
  destruct H as (sp & Hsp & Hr). exists sp. split; [assumption |].
  destruct (1 <? count sp); simpl in Hr; [| contradiction].
  destruct Hr as [<- | []]. reflexivity.
Qed.

Lemma in_level_blocks (k : Z) (spans : list (list (span A))) (r : MergeRange) :
  In r (level_blocks layout is_row_index k spans) ->
  exists level (sp : span A),
    k <= level /\ r = span_merge_range layout is_row_index level sp.
Proof.
  revert k. induction spans as [| ls rest IH]; intros k H.
  - destruct H.
  - unfold level_blocks in H. simpl in H. apply in_app_iff in H.
    destruct H as [H | H].
    + apply in_level_block in H. destruct H as (sp & _ & ->).
      exists k, sp. split; [lia | reflexivity].
    + apply IH in H. destruct H as (level & sp & Hk & ->).
      exists level, sp. split; [lia | reflexivity].
Qed.

Lemma level_block_separated (level : Z) (level_spans : list (span A)) :
  ordered level_spans ->
  separated (level_block layout is_row_index level level_spans).
Proof.
  induction level_spans as [| sp rest IH]; simpl; intros Hord; [exact I |].
  destruct Hord as [Hlater Hord]. rewrite Forall_forall in Hlater.
  apply separated_app.
  - destruct (1 <? count sp); simpl; auto.
  - apply IH, Hord.
  - intros a b Ha Hb.
    destruct (1 <? count sp); simpl in Ha; [| contradiction].
    destruct Ha as [<- | []].
    apply in_level_block in Hb. destruct Hb as (sp' & Hin & ->).
    apply disjoint_starts, Hlater, Hin.
Qed.

Lemma level_blocks_separated (k : Z) (spans : list (list (span A))) :
  Forall (ordered (A := A)) spans ->
  separated (level_blocks layout is_row_index k spans).
Proof.
  revert k. induction spans as [| ls rest IH]; intros k Hall; [exact I |].
  inversion Hall as [| ? ? Hls Hrest]; subst.
  unfold level_blocks. simpl. apply separated_app.
  - apply level_block_separated, Hls.
  - apply IH, Hrest.
  - intros a b Ha Hb.
    apply in_level_block in Ha. destruct Ha as (sp & _ & ->).
    apply in_level_blocks in Hb. destruct Hb as (level & sp' & Hk & ->).
    apply disjoint_levels. lia.
Qed.

(** Ranges derived from the spans of [get_level_spans] never share a
    cell. *)
Lemma span_merges_separated (spans : list (list (span A))) :
  Forall (ordered (A := A)) spans ->
  separated (get_merge_ranges_from_spans spans layout is_row_index).
Proof.
  intros H. rewrite get_merge_ranges_from_spans_blocks.
  apply level_blocks_separated, H.
Qed.
End FromSpans.

(** *** [range] *)

Lemma range_nil (a b : Z) : b <= a -> range a b = [].
Proof. intros H. unfold range. replace (Z.to_nat (b - a)) with 0%nat by lia. reflexivity. Qed.

Lemma range_cons (a b : Z) : a < b -> range a b = a :: range (a + 1) b.
Proof.
  intros H. unfold range.
  replace (Z.to_nat (b - a)) with (S (Z.to_nat (b - (a + 1)))) by lia.
  simpl. f_equal; [lia |].
  rewrite <- seq_shift, map_map. apply map_ext. intros k. lia.
Qed.

Lemma range_app (a m b : Z) : a <= m <= b -> range a b = range a m ++ range m b.
Proof.
  intros H. remember (Z.to_nat (m - a)) as n eqn:Hn.
  revert a H Hn. induction n as [| n IH]; intros a H Hn.
  - assert (a = m) by lia. subst a. rewrite (range_nil m m) by lia. reflexivity.
  - rewrite (range_cons a b) by lia. rewrite (range_cons a m) by lia.
    simpl. f_equal. apply IH; lia.
Qed.

Lemma range_single (a : Z) : range a (a + 1) = [a].
Proof. rewrite range_cons by lia. rewrite range_nil by lia. reflexivity. Qed.

(** *** Blank trailing levels *)

Lemma covers_bounds (r : MergeRange) (row col : Z) :
  covers r row col ->
  start_row r <= row <= end_row r /\ start_col r <= col <= end_col r.
Proof. destruct r as [[[r1 c1] r2] c2]. simpl. tauto. Qed.

Lemma separated_snoc (l : list MergeRange) (r : MergeRange) :
  separated l -> Forall (fun a => disjoint a r) l -> separated (l ++ [r]).
Proof.
  intros Hl Hr. apply separated_app; [assumption | simpl; auto |].
  rewrite Forall_forall in Hr. intros a b Ha [<- | []]. apply Hr, Ha.
Qed.

Section RowScan.
Variable layout : Layout.TableLayout.

Lemma empty_merge_range_eq (i a b : Z) :
  empty_merge_range layout i a b
  = (sheet_row layout i, sheet_col layout a, sheet_row layout i, sheet_col layout b).
Proof.
  unfold empty_merge_range, sheet_row, sheet_col, Layout.cell_at,
    Layout.CellPosition_init, Layout.excel_x, Layout.excel_y. simpl.
  repeat f_equal.
Qed.

Lemma sheet_col_mono (a b : Z) : a <= b <-> sheet_col layout a <= sheet_col layout b.
Proof.
  unfold sheet_col, Layout.cell_at, Layout.CellPosition_init, Layout.excel_x.
  simpl. lia.
Qed.

Lemma sheet_row_inj (i j : Z) : sheet_row layout i = sheet_row layout j -> i = j.
Proof.
  unfold sheet_row, Layout.cell_at, Layout.CellPosition_init, Layout.excel_y.
  simpl. lia.
Qed.

Lemma scan_level_prepend (i : Z) (idx : list scalar) (acc : list MergeRange)
      (st : scan_state) (level : Z) :
  scan_level layout i idx (prepend acc st) level
  = prepend acc (scan_level layout i idx st level).
Proof.
  destruct st as [ranges opened lne]. unfold scan_level, prepend. simpl.
  destruct (is_empty_value (getitem idx level)), opened; simpl;
    rewrite ?app_assoc; reflexivity.
Qed.

Lemma scan_levels_prepend (i : Z) (idx : list scalar) (levels : list Z)
      (acc : list MergeRange) (st : scan_state) :
  fold_left (scan_level layout i idx) levels (prepend acc st)
  = prepend acc (fold_left (scan_level layout i idx) levels st).
Proof.
  revert st. induction levels as [| level rest IH]; intros st; simpl.
  - reflexivity.
  - rewrite scan_level_prepend. apply IH.
Qed.

Lemma scan_row_prepend (nlevels : Z) (acc : list MergeRange) (row : Z * list scalar) :
  scan_row layout nlevels acc row = acc ++ scan_row layout nlevels [] row.
Proof.
  destruct row as [i idx]. unfold scan_row.
  change {| merge_ranges := []; span_start := None; last_non_empty := 0 |}
    with (prepend [] {| merge_ranges := []; span_start := None; last_non_empty := 0 |}).
  replace {| merge_ranges := acc; span_start := None; last_non_empty := 0 |}
    with (prepend acc {| merge_ranges := []; span_start := None; last_non_empty := 0 |})
    by (unfold prepend; simpl; rewrite app_nil_r; reflexivity).
  rewrite !scan_levels_prepend. simpl.
  destruct (span_start _); rewrite ?app_assoc; reflexivity.
Qed.

Lemma scan_rows_flat_map (nlevels : Z) (rows : list (Z * list scalar))
      (acc : list MergeRange) :
  fold_left (scan_row layout nlevels) rows acc
  = acc ++ flat_map (scan_row layout nlevels []) rows.
Proof.
  revert acc. induction rows as [| row rest IH]; intros acc; simpl.
  - rewrite app_nil_r. reflexivity.
  - rewrite IH, scan_row_prepend, <- app_assoc. reflexivity.
Qed.

Lemma row_scan_inv_step (i : Z) (idx : list scalar) (level : Z) (st : scan_state) :
  row_scan_inv layout i level st ->
  row_scan_inv layout i (level + 1) (scan_level layout i idx st level).
Proof.
  intros (Hlne & Hall & Hsep). unfold scan_level.
  destruct (is_empty_value (getitem idx level)).
  - destruct (span_start st); repeat split; simpl; try lia; assumption.
  - assert (Hold : Forall (fun r => start_row r = sheet_row layout i
                                    /\ end_row r = sheet_row layout i
                                    /\ start_col r <= end_col r
                                    /\ end_col r < sheet_col layout level)
                          (merge_ranges st)).
    { eapply Forall_impl; [| exact Hall]. simpl. intros r (H1 & H2 & H3 & H4).
      repeat split; auto.
      pose proof (proj1 (sheet_col_mono (last_non_empty st) level)). lia. }
    destruct (span_start st); repeat split; simpl; try lia; try assumption.
    + apply Forall_app. split; [exact Hold |].
      constructor; [| constructor]. rewrite empty_merge_range_eq. simpl.
      unfold sheet_col, Layout.cell_at, Layout.CellPosition_init, Layout.excel_x.
      simpl. repeat split; lia.
    + apply separated_snoc; [assumption |].
      eapply Forall_impl; [| exact Hall]. simpl.
      intros r (H1 & H2 & H3 & H4) row col [Ha Hb].
      apply covers_bounds in Ha. rewrite empty_merge_range_eq in Hb.
      apply covers_bounds in Hb. simpl in Hb.
      unfold sheet_col, Layout.cell_at, Layout.CellPosition_init, Layout.excel_x in *.
      simpl in *. lia.
Qed.

Lemma row_scan_inv_range (i : Z) (idx : list scalar) (a b : Z) (st : scan_state) :
  a <= b ->
  row_scan_inv layout i a st ->
  row_scan_inv layout i b (fold_left (scan_level layout i idx) (range a b) st).
Proof.
  intros Hab. remember (Z.to_nat (b - a)) as n eqn:Hn.
  revert a st Hab Hn. induction n as [| n IH]; intros a st Hab Hn Hinv.
  - assert (a = b) by lia. subst a. rewrite range_nil by lia. exact Hinv.
  - rewrite range_cons by lia. simpl. apply IH; try lia.
    apply row_scan_inv_step, Hinv.
Qed.

Lemma row_scan_inv_init (i : Z) :
  row_scan_inv layout i 1
               {| merge_ranges := []; span_start := None; last_non_empty := 0 |}.
Proof. repeat split; simpl; try lia; constructor. Qed.

(** The ranges of one row lie on that row and share no cell. *)
Lemma scan_row_output (nlevels i : Z) (idx : list scalar) :
  let out := scan_row layout nlevels [] (i, idx) in
  Forall (fun r => start_row r = sheet_row layout i /\ end_row r = sheet_row layout i) out
  /\ separated out.
Proof.
  cbv zeta. unfold scan_row.
  set (st := fold_left _ _ _).
  assert (Hinv : row_scan_inv layout i (Z.max 1 (len idx)) st).
  { destruct (Z.le_gt_cases 1 (len idx)) as [H | H].
    - rewrite Z.max_r by lia. apply row_scan_inv_range; [lia | apply row_scan_inv_init].
    - unfold st. rewrite range_nil by lia. simpl. rewrite Z.max_l by lia.
      apply row_scan_inv_init. }
  destruct Hinv as (Hlne & Hall & Hsep).
  assert (Hrows : Forall (fun r => start_row r = sheet_row layout i
                                   /\ end_row r = sheet_row layout i)
                         (merge_ranges st)).
  { eapply Forall_impl; [| exact Hall]. simpl. tauto. }
  destruct (span_start st); [| split; assumption].
  split.
  - apply Forall_app. split; [assumption |].
    constructor; [| constructor]. rewrite empty_merge_range_eq. simpl. auto.
  - apply separated_snoc; [assumption |].
    eapply Forall_impl; [| exact Hall]. simpl.
    intros r (H1 & H2 & H3 & H4) row col [Ha Hb].
    apply covers_bounds in Ha. rewrite empty_merge_range_eq in Hb.
    apply covers_bounds in Hb. simpl in Hb.
    unfold sheet_col, Layout.cell_at, Layout.CellPosition_init, Layout.excel_x in *.
    simpl in *. lia.
Qed.

Lemma in_scan_rows (nlevels k : Z) (tuples : list (list scalar)) (r : MergeRange) :
  In r (flat_map (scan_row layout nlevels []) (enumerate_from k tuples)) ->
  exists i, k <= i /\ start_row r = sheet_row layout i /\ end_row r = sheet_row layout i.
Proof.
  revert k. induction tuples as [| idx rest IH]; intros k H; [destruct H |].
  simpl in H. apply in_app_iff in H. destruct H as [H | H].
  - destruct (scan_row_output nlevels k idx) as [Hrows _].
    rewrite Forall_forall in Hrows. exists k. split; [lia | apply Hrows, H].
  - apply IH in H. destruct H as (i & Hi & Hr). exists i. split; [lia | exact Hr].
Qed.

Lemma scan_rows_separated (nlevels k : Z) (tuples : list (list scalar)) :
  separated (flat_map (scan_row layout nlevels []) (enumerate_from k tuples)).
Proof.
  revert k. induction tuples as [| idx rest IH]; intros k; [exact I |].
  simpl. destruct (scan_row_output nlevels k idx) as [Hrows Hsep].
  rewrite Forall_forall in Hrows.
  apply separated_app; [assumption | apply IH |].
  intros a b Ha Hb row col [Hca Hcb].
  apply Hrows in Ha. apply in_scan_rows in Hb. destruct Hb as (i & Hi & Hb1 & Hb2).
  apply covers_bounds in Hca, Hcb.
  assert (E : sheet_row layout k = sheet_row layout i) by lia.
  apply sheet_row_inj in E. lia.
Qed.

Lemma get_empty_spans_rows (df : DataFrame) :
  get_empty_spans df layout
  = match index df with
    | Index _ _ => []
    | MultiIndex nlevels _ tuples =>
        flat_map (scan_row layout nlevels []) (enumerate tuples)
    end.
Proof.
  unfold get_empty_spans. destruct (index df); [reflexivity |].
  apply scan_rows_flat_map.
Qed.

Lemma get_empty_spans_separated (df : DataFrame) :
  separated (get_empty_spans df layout).
Proof.
  rewrite get_empty_spans_rows. destruct (index df); [exact I |].
  apply scan_rows_separated.
Qed.
End RowScan.

(** *** The trailing run of blanks of one row *)

Section TrailingRun.
Variable layout : Layout.TableLayout.
Variables (i : Z) (front : list scalar) (v : scalar) (blanks : list scalar).

Let idx := front ++ v :: blanks.
Let init := {| merge_ranges := []; span_start := None; last_non_empty := 0 |}.

Lemma getitem_last_non_blank : getitem idx (len front) = v.
Proof.
  unfold getitem, idx, len. rewrite Nat2Z.id. apply nth_middle.
Qed.

Lemma getitem_blank (level : Z) :
  Forall (fun b => is_empty_value b = true) blanks ->
  len front < level < len idx ->
  is_empty_value (getitem idx level) = true.
Proof.
  intros Hblank Hlevel. unfold getitem, idx, len in *.
  rewrite length_app in Hlevel. simpl in Hlevel.
  rewrite app_nth2 by lia.
  replace (Z.to_nat level - List.length front)%nat
    with (S (Z.to_nat level - List.length front - 1)) by lia.
  simpl. rewrite Forall_forall in Hblank. apply Hblank, nth_In. lia.
Qed.

Lemma getitem_front (level : Z) :
  Forall (fun b => is_empty_value b = false) (tl front) ->
  1 <= level < len front ->
  is_empty_value (getitem idx level) = false.
Proof.
  intros Hfull Hlevel. unfold getitem, idx, len in *.
  rewrite app_nth1 by lia.
  destruct front as [| f0 rest]; [simpl in Hlevel; lia |].
  simpl in Hfull, Hlevel.
  replace (Z.to_nat level) with (S (Z.to_nat level - 1)) by lia.
  simpl. rewrite Forall_forall in Hfull. apply Hfull, nth_In. lia.
Qed.

(** Over levels that are all blank nothing is appended and the last
    non-empty level stays; a span is open afterwards. *)
Lemma scan_blank_levels (a b : Z) (st : scan_state) :
  (forall level, a <= level < b -> is_empty_value (getitem idx level) = true) ->
  let st' := fold_left (scan_level layout i idx) (range a b) st in
  merge_ranges st' = merge_ranges st
  /\ last_non_empty st' = last_non_empty st
  /\ (a < b \/ span_start st <> None -> span_start st' <> None).
Proof.
  cbv zeta. remember (Z.to_nat (b - a)) as n eqn:Hn.
  revert a st Hn. induction n as [| n IH]; intros a st Hn Hblank.
  - rewrite range_nil by lia. simpl. repeat split. intros [H | H]; [lia | exact H].
  - rewrite range_cons by lia. simpl.
    destruct (IH (a + 1) (scan_level layout i idx st a)) as (H1 & H2 & H3);
      [lia | intros level Hl; apply Hblank; lia |].
    assert (E : is_empty_value (getitem idx a) = true) by (apply Hblank; lia).
    unfold scan_level in *. rewrite E in *.
    destruct (span_start st) eqn:Es; simpl in *.
    + repeat split; auto. intros _. apply H3. right. congruence.
    + repeat split; auto. intros _. apply H3. right. discriminate.
Qed.

(** Over levels that are all non-blank nothing is appended either. *)
Lemma scan_full_levels (a b : Z) (st : scan_state) :
  (forall level, a <= level < b -> is_empty_value (getitem idx level) = false) ->
  span_start st = None ->
  let st' := fold_left (scan_level layout i idx) (range a b) st in
  merge_ranges st' = merge_ranges st /\ span_start st' = None.
Proof.
  cbv zeta. remember (Z.to_nat (b - a)) as n eqn:Hn.
  revert a st Hn. induction n as [| n IH]; intros a st Hn Hfull Hclosed.
  - rewrite range_nil by lia. simpl. auto.
  - rewrite range_cons by lia. simpl.
    assert (E : is_empty_value (getitem idx a) = false) by (apply Hfull; lia).
    destruct (IH (a + 1) (scan_level layout i idx st a)) as (H1 & H2);
      [lia | intros level Hl; apply Hfull; lia
       | unfold scan_level; rewrite E; reflexivity |].
    split; [| exact H2]. rewrite H1. unfold scan_level. rewrite E, Hclosed.
    reflexivity.
Qed.

(** The state once the last non-blank level has been scanned. *)
Lemma scan_up_to_last_non_blank :
  is_empty_value v = false ->
  let st := fold_left (scan_level layout i idx) (range 1 (len front + 1)) init in
  span_start st = None
  /\ last_non_empty st = len front
  /\ Forall (fun r => start_col r <= end_col r < sheet_col layout (len front))
            (merge_ranges st)
  /\ (Forall (fun b => is_empty_value b = false) (tl front) -> merge_ranges st = []).
Proof.
  intros Hv. cbv zeta. pose proof (len_nonneg front) as Hpos.
  destruct (Z.eq_dec (len front) 0) as [Hz | Hnz].
  - rewrite Hz. rewrite range_nil by lia. simpl. repeat split; auto.
  - assert (Hinv : row_scan_inv layout i (len front + 1)
                     (fold_left (scan_level layout i idx)
                                (range 1 (len front + 1)) init)).
    { apply row_scan_inv_range; [lia | apply row_scan_inv_init]. }
    assert (Hfull : Forall (fun b => is_empty_value b = false) (tl front) ->
                    forall level, 1 <= level < len front + 1 ->
                                  is_empty_value (getitem idx level) = false).
    { intros Hfront level Hl. destruct (Z.eq_dec level (len front)) as [-> | Hne].
      - rewrite getitem_last_non_blank. exact Hv.
      - apply getitem_front; [assumption | lia]. }
    revert Hinv Hfull.
    rewrite (range_app 1 (len front) (len front + 1)) by lia.
    rewrite range_single, fold_left_app. simpl.
    set (st0 := fold_left _ (range 1 (len front)) init).
    intros Hinv Hfull.
    assert (Elast : scan_level layout i idx st0 (len front)
                    = {| merge_ranges :=
                           match span_start st0 with
                           | Some _ => merge_ranges st0
                                         ++ [empty_merge_range layout i (last_non_empty st0)
                                                               (len front - 1)]
                           | None => merge_ranges st0
                           end;
                         span_start := None;
                         last_non_empty := len front |}).
    { unfold scan_level. rewrite getitem_last_non_blank, Hv. reflexivity. }
    rewrite Elast in *. simpl. repeat split.
    + destruct Hinv as (_ & Hall & _). simpl in Hall.
      eapply Forall_impl; [| exact Hall]. simpl. tauto.
    + intros Hfront.
      destruct (scan_full_levels 1 (len front) init) as (H1 & H2);
        [intros level Hl; apply Hfull; [assumption | lia] | reflexivity |].
      fold st0 in H1, H2. rewrite H2. exact H1.
Qed.

(** The ranges of a row that ends in a run of blanks: those of the
    blank runs further left, then the range of the trailing run. *)
Lemma scan_row_trailing_run (nlevels : Z) :
  is_empty_value v = false ->
  blanks <> [] ->
  Forall (fun b => is_empty_value b = true) blanks ->
  exists earlier,
    scan_row layout nlevels [] (i, idx)
    = earlier ++ [empty_merge_range layout i (len front) (nlevels - 1)]
    /\ Forall (fun r => start_col r <= end_col r < sheet_col layout (len front)) earlier
    /\ (Forall (fun b => is_empty_value b = false) (tl front) -> earlier = []).
Proof.
  intros Hv Hne Hblank.
  destruct (scan_up_to_last_non_blank Hv) as (Hs & Hl & Hcols & Hnone).
  set (st1 := fold_left _ (range 1 (len front + 1)) init) in *.
  assert (Hlen : len front + 1 < len idx).
  { unfold idx, len. rewrite length_app. simpl.
    destruct blanks; [congruence | simpl; lia]. }
  pose proof (len_nonneg front) as Hpos.
  destruct (scan_blank_levels (len front + 1) (len idx) st1) as (H1 & H2 & H3).
  { intros level Hlevel. apply getitem_blank; [assumption | lia]. }
  exists (merge_ranges st1). split; [| split; assumption].
  unfold scan_row. fold init.
  rewrite (range_app 1 (len front + 1) (len idx)) by lia.
  rewrite fold_left_app. fold st1.
  destruct (span_start (fold_left _ (range (len front + 1) (len idx)) st1)) eqn:E.
  - rewrite H1, H2, Hl. reflexivity.
  - exfalso. apply H3; [left; lia | reflexivity].
Qed.
End TrailingRun.

(** *** The merges of a whole DataFrame *)

Lemma filter_none {B : Type} (f : B -> bool) (l : list B) :
  Forall (fun b => f b = false) l -> filter f l = [].
Proof.
  induction 1 as [| b l Hb _ IH]; simpl; [reflexivity |]. rewrite Hb. exact IH.
Qed.

Lemma filter_all {B : Type} (f : B -> bool) (l : list B) :
  Forall (fun b => f b = true) l -> filter f l = l.
Proof.
  induction 1 as [| b l Hb _ IH]; simpl; [reflexivity |]. rewrite Hb, IH. reflexivity.
Qed.

Lemma enumerate_from_app {B : Type} (k : Z) (l1 l2 : list B) :
  enumerate_from k (l1 ++ l2) = enumerate_from k l1 ++ enumerate_from (k + len l1) l2.
Proof.
  revert k. induction l1 as [| b l1 IH]; intros k; simpl.
  - f_equal. unfold len. simpl. lia.
  - rewrite IH. do 3 f_equal. unfold len. simpl. lia.
Qed.

Lemma on_row_own (layout : Layout.TableLayout) (nlevels i : Z) (idx : list scalar) :
  filter (on_row (sheet_row layout i)) (scan_row layout nlevels [] (i, idx))
  = scan_row layout nlevels [] (i, idx).
Proof.
  apply filter_all. destruct (scan_row_output layout nlevels i idx) as [Hrows _].
  eapply Forall_impl; [| exact Hrows]. simpl. intros r [H1 H2].
  unfold on_row. rewrite H1, H2, Z.eqb_refl. reflexivity.
Qed.

Lemma on_row_others (layout : Layout.TableLayout) (nlevels i k : Z)
      (tuples : list (list scalar)) :
  i < k \/ k + len tuples <= i ->
  filter (on_row (sheet_row layout i))
         (flat_map (scan_row layout nlevels []) (enumerate_from k tuples)) = [].
Proof.
  revert k. induction tuples as [| idx rest IH]; intros k Hk; [reflexivity |].
  simpl. rewrite filter_app, IH.
  - rewrite app_nil_r. apply filter_none.
    destruct (scan_row_output layout nlevels k idx) as [Hrows _].
    eapply Forall_impl; [| exact Hrows]. simpl. intros r [H1 H2].
    unfold on_row. rewrite H1.
    replace (sheet_row layout k =? sheet_row layout i) with false; [reflexivity |].
    symmetry. apply Z.eqb_neq. intros E. apply sheet_row_inj in E.
    unfold len in Hk. simpl in Hk. lia.
  - unfold len in *. simpl in Hk. lia.
Qed.

(** C3, amended: in a row of a MultiIndex whose key ends in a run of
    blank (null or empty) components after its last non-blank level, the
    merges that [get_empty_spans] puts on that row end with one range
    that runs from the column of the last non-blank level to the last
    index column; every other merge of the row ends before that column,
    and there is none when the levels from 1 up to the last non-blank one
    hold no blank: only then is the trailing merge the one merge of the
    row. *)
Theorem blank_trailing_merge
        (df : DataFrame) (layout : Layout.TableLayout)
        (nlevels : Z) (names : list (option string)) (tuples : list (list scalar))
        (i : nat) (front : list scalar) (v : scalar) (blanks : list scalar) :
  index df = MultiIndex nlevels names tuples ->
  nth_error tuples i = Some (front ++ v :: blanks) ->
  is_empty_value v = false ->
  blanks <> [] ->
  Forall (fun b => is_empty_value b = true) blanks ->
  let row := sheet_row layout (Z.of_nat i) in
  exists earlier,
    filter (on_row row) (get_empty_spans df layout)
    = earlier ++ [(row, sheet_col layout (len front), row, sheet_col layout (nlevels - 1))]
    /\ Forall (fun r => start_col r <= end_col r < sheet_col layout (len front)) earlier
    /\ (Forall (fun b => is_empty_value b = false) (tl front) -> earlier = []).
Proof.
  intros Hix Hnth Hv Hne Hblank. cbv zeta.
  destruct (scan_row_trailing_run layout (Z.of_nat i) front v blanks nlevels Hv Hne Hblank)
    as (earlier & Hrow & Hcols & Hnone).
  exists earlier. split; [| split; assumption].
  rewrite get_empty_spans_rows, Hix.
  apply nth_error_split in Hnth. destruct Hnth as (before & after & -> & Hi).
  unfold enumerate. rewrite enumerate_from_app.
  replace (0 + len before) with (Z.of_nat i) by (unfold len; lia).
  change (enumerate_from (Z.of_nat i) ((front ++ v :: blanks) :: after))
    with ((Z.of_nat i, front ++ v :: blanks) :: enumerate_from (Z.of_nat i + 1) after).
  rewrite flat_map_app.
  change (flat_map (scan_row layout nlevels [])
                   ((Z.of_nat i, front ++ v :: blanks)
                      :: enumerate_from (Z.of_nat i + 1) after))
    with (scan_row layout nlevels [] (Z.of_nat i, front ++ v :: blanks)
            ++ flat_map (scan_row layout nlevels [])
                        (enumerate_from (Z.of_nat i + 1) after)).
  rewrite !filter_app.
  rewrite (on_row_others layout nlevels (Z.of_nat i) 0 before) by (unfold len; lia).
  rewrite (on_row_others layout nlevels (Z.of_nat i) (Z.of_nat i + 1) after)
    by (unfold len; lia).
  rewrite on_row_own, app_nil_r, Hrow, empty_merge_range_eq. reflexivity.
Qed.

(** C3 on the scenario: the key [("A", NaN, NaN)] in the second row gives
    one merge on sheet row 3, from index column 1 to index column 3. *)
Lemma blank_trailing_merge_scenario :
  exists earlier,
    filter (on_row 3) (get_empty_spans sparse_df sparse_layout)
    = earlier ++ [(3, 1, 3, 3)]
    /\ Forall (fun r => start_col r <= end_col r < 1) earlier
    /\ (Forall (fun b => is_empty_value b = false) (tl []) -> earlier = []).
Proof.
  refine (blank_trailing_merge sparse_df sparse_layout 3 [None; None; None]
            [[PStr "A"; PStr "x"; PStr "y"]; [PStr "A"; np_nan; np_nan]]
            1 [] (PStr "A") [np_nan; np_nan] _ _ _ _ _).
  - reflexivity.
  - reflexivity.
  - reflexivity.
  - discriminate.
  - repeat constructor.
Defined.

(** C3, refuted as stated: the key [("C", "", "z", "")] ends in a run
    of blanks after its last non-blank level, and its row gets two merges:
    one for the blank inside the key, from the column of "C" to the column
    of the blank, and the one of the trailing run. *)
Lemma blank_trailing_two_merges :
  index gapped_df
  = MultiIndex 4 [None; None; None; None]
               [[PStr "C"; PStr EmptyString] ++ PStr "z" :: [PStr EmptyString]]
  /\ is_empty_value (PStr "z") = false
  /\ Forall (fun b => is_empty_value b = true) [PStr EmptyString]
  /\ filter (on_row (sheet_row gapped_layout 0)) (get_empty_spans gapped_df gapped_layout)
     = [(2, 1, 2, 2); (2, 3, 2, 4)].
Proof.
  split; [reflexivity |]. split; [reflexivity |].
  split; [repeat constructor | reflexivity].
Qed.

(** C1, refuted as stated: in the scenario the vertical merge of the
    repeated label "A" (rows 2-3 of column 1) and the blank-trailing merge
    of the second row (columns 1-3 of row 3) are two distinct row-axis
    outputs that both cover the cell in row 3, column 1. *)
Lemma row_axis_merges_overlap :
  row_axis_merges sparse_df sparse_layout = [(2, 1, 3, 1); (3, 1, 3, 3)]
  /\ ~ pairwise_disjoint (row_axis_merges sparse_df sparse_layout).
Proof.
  assert (E : row_axis_merges sparse_df sparse_layout = [(2, 1, 3, 1); (3, 1, 3, 3)])
    by reflexivity.
  split; [exact E |]. rewrite E. intros H.
  apply (H 0%nat 1%nat (2, 1, 3, 1) (3, 1, 3, 3)
           ltac:(discriminate) eq_refl eq_refl 3 1).
  simpl. lia.
Qed.

(** C1, amended: for every DataFrame and layout, no two distinct vertical
    merges of the row header share a cell, no two distinct blank-trailing
    merges share a cell, and no two distinct merges of the column header
    share a cell. *)
Theorem merges_disjoint_within_kind (df : DataFrame) (layout : Layout.TableLayout) :
  pairwise_disjoint (row_merges df layout)
  /\ pairwise_disjoint (get_empty_spans df layout)
  /\ pairwise_disjoint (column_merges df layout).
Proof.
  repeat split; apply separated_pairwise.
  - apply span_merges_separated, get_level_spans_ordered.
  - apply get_empty_spans_separated.
  - apply span_merges_separated, get_level_spans_ordered.
Qed.

End MergeRangeProps.

(** ** The merge manager *)

Module MergeProps.
Import Merge.

Section Manager.
Context {Worksheet : Type}.
Variable merge_cells : Worksheet -> Spans.MergeRange -> Worksheet * option exn.

(** An exception other than [ValueError] is not caught: it leaves
    [apply_merges] at the range that raised it. *)
Lemma apply_merges_propagates_other (self : MergeManager) (r : Spans.MergeRange)
      (rest : list Spans.MergeRange) (ws : Worksheet) (name : string) :
  merge_cells (worksheet self) r = (ws, Some (OtherException name)) ->
  snd (apply_merges merge_cells self (r :: rest)) = Some (OtherException name).
Proof. intros E. simpl. rewrite E. reflexivity. Qed.

(** C9, amended: when the sink reports a rejected merge with [ValueError],
    [apply_merges] returns normally for every list of ranges; every
    range of the list is handed to the sink in turn, whether or not an
    earlier one was rejected, and the applied-merge list grows by
    exactly the ranges the sink accepted, in order. *)
Theorem apply_merges_skips_rejected (self : MergeManager)
        (merge_ranges : list Spans.MergeRange) :
  rejects_with_ValueError merge_cells ->
  apply_merges merge_cells self merge_ranges
  = ({| worksheet := sink_after merge_cells (worksheet self) merge_ranges;
        applied_merges :=
          applied_merges self
            ++ sink_accepted merge_cells (worksheet self) merge_ranges |},
     None).
Proof.
  intros Hsink. revert self.
  induction merge_ranges as [| r rest IH]; intros self; simpl.
  - rewrite app_nil_r. destruct self; reflexivity.
  - specialize (Hsink (worksheet self) r).
    destruct (merge_cells (worksheet self) r) as [ws raised]. simpl in *.
    destruct raised as [[| name] |].
    + rewrite IH. reflexivity.
    + contradiction.
    + rewrite IH. simpl. rewrite <- app_assoc. reflexivity.
Qed.
End Manager.

(** C9, refuted as stated: a failure the sink reports with an exception
    other than [ValueError] leaves [apply_merges]; the range after the
    failing one is never handed to the sink. *)
Lemma apply_merges_other_failure_escapes :
  apply_merges guarded_merge_cells (MergeManager_init [])
               [(2, 1, 3, 1); (0, 1, 0, 3); (5, 1, 6, 1)]
  = ({| worksheet := [(2, 1, 3, 1)]; applied_merges := [(2, 1, 3, 1)] |},
     Some (OtherException "TypeError")).
Proof. reflexivity. Qed.

Lemma strict_sink_rejects_with_ValueError : rejects_with_ValueError strict_merge_cells.
Proof.
  intros ws r. unfold strict_merge_cells. destruct (existsb (overlapb r) ws); exact I.
Qed.

(** C9 on a sink that rejects overlapping merges: of three ranges the
    second overlaps the first and is skipped, the third is still applied. *)
Lemma apply_merges_skips_rejected_example :
  apply_merges strict_merge_cells (MergeManager_init [])
               [(2, 1, 3, 1); (3, 1, 3, 3); (5, 1, 6, 1)]
  = ({| worksheet := [(2, 1, 3, 1); (5, 1, 6, 1)];
        applied_merges := [(2, 1, 3, 1); (5, 1, 6, 1)] |}, None).
Proof.
  exact (apply_merges_skips_rejected strict_merge_cells (MergeManager_init [])
           [(2, 1, 3, 1); (3, 1, 3, 3); (5, 1, 6, 1)]
           strict_sink_rejects_with_ValueError).
Defined.

End MergeProps.

(** ** Number formats of the data cells *)

Module WriterProps.
Import Py Writer.

Lemma in_range (k a b : Z) : In k (range a b) <-> a <= k < b.
Proof.
  unfold range. rewrite in_map_iff. split.
  - intros (n & <- & Hn). apply in_seq in Hn. lia.
  - intros H. exists (Z.to_nat (k - a)). split; [lia |]. apply in_seq. lia.
Qed.

Lemma in_iter_data_positions (t : Layout.TableLayout) (i j : Z) (pos : Layout.CellPosition) :
  In (i, j, pos) (Layout.iter_data_positions t) ->
  0 <= i < Layout.height (Layout.base (Layout.index t))
  /\ 0 <= j < Layout.width (Layout.base (Layout.columns t)).
Proof.
  unfold Layout.iter_data_positions. intros H. apply in_flat_map in H.
  destruct H as (i' & Hi & H). apply in_map_iff in H. destruct H as (j' & E & Hj).
  inversion E; subst. apply in_range in Hi, Hj. lia.
Qed.

Lemma length_setitem (fs : list number_format) (n : nat) (v : number_format) :
  List.length (setitem fs n v) = List.length fs.
Proof.
  revert n. induction fs as [| f fs IH]; intros [| n]; simpl; auto.
Qed.

Lemma nth_setitem_same (fs : list number_format) (n : nat) (v : number_format) :
  (n < List.length fs)%nat -> nth n (setitem fs n v) None = v.
Proof.
  revert n. induction fs as [| f fs IH]; intros [| n] H; simpl in *; try lia.
  - reflexivity.
  - apply IH. lia.
Qed.

Lemma nth_setitem_other (fs : list number_format) (n m : nat) (v : number_format) :
  n <> m -> nth n (setitem fs m v) None = nth n fs None.
Proof.
  revert n m. induction fs as [| f fs IH]; intros [| n] [| m] H; simpl; try reflexivity.
  - congruence.
  - apply IH. congruence.
Qed.

Section Updates.
(** A loop over the labels that assigns [formats[i] = v] when [upd]
    gives [Some v] for label [i]. *)
Variable upd : label -> option number_format.
Variable step : list number_format -> Z * label -> list number_format.
Hypothesis step_spec :
  forall fs i lbl,
    step fs (i, lbl)
    = match upd lbl with
      | Some v => setitem fs (Z.to_nat i) v
      | None => fs
      end.

Lemma length_step (fs : list number_format) (i : Z) (lbl : label) :
  List.length (step fs (i, lbl)) = List.length fs.
Proof. rewrite step_spec. destruct (upd lbl); [apply length_setitem | reflexivity]. Qed.

Lemma nth_step_other (fs : list number_format) (i : Z) (lbl : label) (n : nat) :
  n <> Z.to_nat i -> nth n (step fs (i, lbl)) None = nth n fs None.
Proof.
  intros H. rewrite step_spec. destruct (upd lbl); [| reflexivity].
  apply nth_setitem_other, H.
Qed.

Lemma updates_outside (labels : list label) (k : Z) (fs : list number_format) (n : nat) :
  0 <= k ->
  (n < Z.to_nat k \/ Z.to_nat k + List.length labels <= n)%nat ->
  nth n (fold_left step (enumerate_from k labels) fs) None = nth n fs None.
Proof.
  revert k fs. induction labels as [| lbl rest IH]; intros k fs Hk Hn; simpl.
  - reflexivity.
  - rewrite IH by (simpl in Hn; lia).
    apply nth_step_other. simpl in Hn. lia.
Qed.

Lemma updates_inside (labels : list label) (k : Z) (fs : list number_format) (n : nat) :
  0 <= k ->
  (Z.to_nat k + List.length labels <= List.length fs)%nat ->
  (Z.to_nat k <= n < Z.to_nat k + List.length labels)%nat ->
  nth n (fold_left step (enumerate_from k labels) fs) None
  = match upd (nth (n - Z.to_nat k) labels (LScalar PNone)) with
    | Some v => v
    | None => nth n fs None
    end.
Proof.
  revert k fs. induction labels as [| lbl rest IH]; intros k fs Hk Hlen Hn; simpl in *.
  - lia.
  - destruct (Nat.eq_dec n (Z.to_nat k)) as [-> | Hne].
    + rewrite updates_outside by lia.
      rewrite Nat.sub_diag, step_spec.
      destruct (upd lbl); [apply nth_setitem_same; lia | reflexivity].
    + rewrite IH by (rewrite ?length_step; lia).
      replace (n - Z.to_nat k)%nat with (S (n - Z.to_nat (k + 1))) by lia.
      rewrite nth_step_other by exact Hne. reflexivity.
Qed.
End Updates.

Lemma nth_repeat_None (n m : nat) : nth n (repeat (@None string) m) None = None.
Proof.
  revert n. induction m as [| m IH]; intros [| n]; simpl; auto.
Qed.

Lemma apply_patterns_at (patterns : list (label * number_format)) (labels : list label)
      (n : nat) :
  (n < List.length labels)%nat ->
  nth n (apply_patterns patterns labels (repeat None (List.length labels))) None
  = found (Pattern.find_match (nth n labels (LScalar PNone)) patterns).
Proof.
  intros Hn. unfold apply_patterns, enumerate.
  rewrite (updates_inside
             (fun lbl => match Pattern.find_match lbl patterns with
                         | Some (Some m) => Some (Some m)
                         | _ => None
                         end)).
  - simpl. rewrite Nat.sub_0_r, nth_repeat_None.
    destruct (Pattern.find_match _ patterns) as [[m |] |]; reflexivity.
  - intros fs i lbl. destruct (Pattern.find_match lbl patterns) as [[m |] |]; reflexivity.
  - lia.
  - rewrite repeat_length. simpl. lia.
  - simpl. lia.
Qed.

Lemma apply_single_at (pattern : label) (default : number_format) (labels : list label)
      (n : nat) :
  (n < List.length labels)%nat ->
  nth n (apply_single pattern default labels (repeat None (List.length labels))) None
  = if Pattern.is_match (nth n labels (LScalar PNone)) pattern then default else None.
Proof.
  intros Hn. unfold apply_single, enumerate.
  rewrite (updates_inside
             (fun lbl => if Pattern.is_match lbl pattern then Some default else None)).
  - simpl. rewrite Nat.sub_0_r, nth_repeat_None.
    destruct (Pattern.is_match _ pattern); reflexivity.
  - intros fs i lbl. destruct (Pattern.is_match lbl pattern); reflexivity.
  - lia.
  - rewrite repeat_length. simpl. lia.
  - simpl. lia.
Qed.

Section Init.
Variables (d : DataFrame) (x_offset y_offset : Z).
Variables (default : number_format) (formats : number_formats_arg).

Let w := ExcelTableWriter_init d x_offset y_offset default formats.

Lemma init_fields :
  df w = d /\ layout w = Layout.from_df d x_offset y_offset
  /\ default_number_format w = default.
Proof.
  unfold w, ExcelTableWriter_init, _process_number_formats. simpl.
  destruct formats as [| [rp |] [cp |] | [| p ps] | p]; simpl;
    try (destruct (label_truthy p)); simpl; repeat split.
Qed.

Lemma init_heights :
  Z.to_nat (Layout.height (Layout.base (Layout.index (Layout.from_df d x_offset y_offset))))
  = List.length (index_labels (index d))
  /\ Z.to_nat (Layout.width (Layout.base (Layout.columns (Layout.from_df d x_offset y_offset))))
     = List.length (index_labels (columns d)).
Proof. split; apply Nat2Z.id. Qed.

Lemma row_formats_at (i : Z) :
  0 <= i < len (index_labels (index d)) ->
  format_at (row_formats w) i = row_match formats default (label_at (index d) i).
Proof.
  intros Hi. unfold format_at, label_at.
  assert (Hn : (Z.to_nat i < List.length (index_labels (index d)))%nat)
    by (unfold len in Hi; lia).
  destruct init_heights as [Hh Hw].
  unfold w, ExcelTableWriter_init. rewrite Hh, Hw.
  unfold _process_number_formats, row_match.
  cbn [df layout default_number_format number_formats row_formats column_formats].
  destruct formats as [| [rp |] [cp |] | [| p ps] | p];
    try (destruct (label_truthy p));
    cbn [df layout default_number_format number_formats row_formats column_formats
         andb];
    rewrite ?nth_repeat_None, ?apply_patterns_at, ?apply_single_at by exact Hn;
    reflexivity.
Qed.

Lemma column_formats_at (j : Z) :
  0 <= j < len (index_labels (columns d)) ->
  format_at (column_formats w) j = column_match formats default (label_at (columns d) j).
Proof.
  intros Hj. unfold format_at, label_at.
  assert (Hn : (Z.to_nat j < List.length (index_labels (columns d)))%nat)
    by (unfold len in Hj; lia).
  destruct init_heights as [Hh Hw].
  unfold w, ExcelTableWriter_init. rewrite Hh, Hw.
  unfold _process_number_formats, column_match.
  cbn [df layout default_number_format number_formats row_formats column_formats].
  destruct formats as [| [rp |] [cp |] | [| p ps] | p];
    try (destruct (label_truthy p));
    cbn [df layout default_number_format number_formats row_formats column_formats
         andb];
    rewrite ?nth_repeat_None, ?apply_patterns_at, ?apply_single_at by exact Hn;
    reflexivity.
Qed.
End Init.

(** C6, refuted as stated, on a frame with rows "A", "B" and column "c":
    the cell of row "A" holds a number and row "A" has a pattern match,
    the empty format string, yet the column's format "0.00" is applied;
    the cell of row "B" holds text and row "B" matches "0%", yet no
    format is applied. *)
Lemma number_format_priority_fails :
  let a := (0, 0, Layout.CellPosition_init 1 1 false) in
  let b := (1, 0, Layout.CellPosition_init 1 2 false) in
  let row_m i := row_match formats_arg None (label_at (index formats_df) i) in
  let col_m j := column_match formats_arg None (label_at (columns formats_df) j) in
  Layout.iter_data_positions (layout formats_writer) = [a; b]
  /\ row_m 0 = Some EmptyString
  /\ cell_number_format (write_data_cell formats_writer a) = Some "0.00"%string
  /\ cell_number_format (write_data_cell formats_writer a)
     <> spec_number_format (row_m 0) (col_m 0) None
  /\ row_m 1 = Some "0%"%string
  /\ cell_number_format (write_data_cell formats_writer b) = None
  /\ cell_number_format (write_data_cell formats_writer b)
     <> spec_number_format (row_m 1) (col_m 0) None.
Proof. cbv zeta. repeat split; try reflexivity; vm_compute; discriminate. Qed.

(** C6, amended: for every data cell the writer visits, if the value
    written is a number, the format applied is the first non-empty
    string among the row's pattern match, the column's pattern match and
    the default number format, and none if there is no such string; if
    the value written is not a number, no format is applied. *)
Theorem data_cell_number_format
        (d : DataFrame) (x_offset y_offset : Z)
        (default : number_format) (formats : number_formats_arg)
        (i j : Z) (pos : Layout.CellPosition) :
  let w := ExcelTableWriter_init d x_offset y_offset default formats in
  In (i, j, pos) (Layout.iter_data_positions (layout w)) ->
  cell_number_format (write_data_cell w (i, j, pos))
  = if is_number (_handle_na_value (iloc d i j))
    then first_non_empty (row_match formats default (label_at (index d) i))
                         (column_match formats default (label_at (columns d) j))
                         default
    else None.
Proof.
  cbv zeta. intros Hin.
  pose proof (init_fields d x_offset y_offset default formats) as Hf.
  cbv zeta in Hf. destruct Hf as (Hdf & Hlay & Hdef).
  rewrite Hlay in Hin. apply in_iter_data_positions in Hin.
  change (Layout.height _) with (len (index_labels (index d))) in Hin.
  change (Layout.width _) with (len (index_labels (columns d))) in Hin.
  destruct Hin as [Hi Hj].
  pose proof (row_formats_at d x_offset y_offset default formats i Hi) as Hrow.
  pose proof (column_formats_at d x_offset y_offset default formats j Hj) as Hcol.
  cbv zeta in Hrow, Hcol.
  unfold write_data_cell. rewrite Hdf, Hdef, Hrow, Hcol.
  unfold _write_cell, py_or, first_non_empty.
  destruct (Layout.excel_position pos) as [row col]. simpl.
  set (rm := row_match formats default (label_at (index d) i)).
  set (cm := column_match formats default (label_at (columns d) j)).
  set (num := is_number (_handle_na_value (iloc d i j))).
  destruct (format_truthy rm) eqn:Er;
    destruct (format_truthy cm) eqn:Ec;
    destruct (format_truthy default) eqn:Ed;
    destruct num;
    simpl; rewrite ?Er, ?Ec, ?Ed; reflexivity.
Qed.

(** C6 on the frame above: the number in row "A" gets the column's
    format. *)
Lemma data_cell_number_format_example :
  In (0, 0, Layout.CellPosition_init 1 1 false)
     (Layout.iter_data_positions (layout formats_writer))
  /\ cell_number_format
       (write_data_cell formats_writer (0, 0, Layout.CellPosition_init 1 1 false))
     = Some "0.00"%string.
Proof.
  assert (H : In (0, 0, Layout.CellPosition_init 1 1 false)
                 (Layout.iter_data_positions (layout formats_writer)))
    by (left; reflexivity).
  split; [exact H |].
  exact (data_cell_number_format formats_df 0 0 None formats_arg 0 0
           (Layout.CellPosition_init 1 1 false) H).
Defined.

End WriterProps.

(** * Further properties of the code *)

(** ** Coordinates, regions and their iteration *)

Module LayoutExtra.
Import Py Layout.

Lemma range_NoDup (a b : Z) : NoDup (range a b).
Proof.
  unfold range. apply NoDup_map_NoDup_ForallPairs; [| apply seq_NoDup].
  intros m n _ _ H. lia.
Qed.

Lemma NoDup_flat_map {B C : Type} (f : B -> list C) (l : list B) :
  NoDup l ->
  (forall b, In b l -> NoDup (f b)) ->
  (forall b1 b2 c, In b1 l -> In b2 l -> In c (f b1) -> In c (f b2) -> b1 = b2) ->
  NoDup (flat_map f l).
Proof.
  induction l as [| b l IH]; intros Hl Hf Hx; simpl; [constructor |].
  apply NoDup_cons_iff in Hl. destruct Hl as [Hb Hl].
  apply NoDup_app.
  - apply Hf. left. reflexivity.
  - apply IH; [assumption | intros; apply Hf; right; assumption |].
    intros b1 b2 c H1 H2. apply Hx; right; assumption.
  - intros c Hc Hin. apply in_flat_map in Hin. destruct Hin as (b' & Hb' & Hc').
    assert (b = b') by (eapply Hx; eauto; [left | right]; auto).
    subst. contradiction.
Qed.

Lemma nth_range (a b : Z) (k : nat) (d : Z) :
  a + Z.of_nat k < b -> nth k (range a b) d = a + Z.of_nat k.
Proof.
  intros H. unfold range.
  rewrite (nth_indep _ d (a + Z.of_nat 0)) by (rewrite length_map, length_seq; lia).
  rewrite (map_nth (fun n => a + Z.of_nat n)), seq_nth by lia. reflexivity.
Qed.

Lemma length_range (a b : Z) : List.length (range a b) = Z.to_nat (b - a).
Proof. unfold range. rewrite length_map, length_seq. reflexivity. Qed.

(** Adding a position and subtracting it again gives the position back;
    [offset] is addition of the position [(dx, dy)], and two offsets
    compose by adding their components. *)
Theorem add_sub_round_trip (p q : CellPosition) (dx dy ex ey : Z) :
  CellPosition_sub (CellPosition_add p q) q = p
  /\ CellPosition_add (CellPosition_sub p q) q = p
  /\ offset p dx dy = CellPosition_add p (CellPosition_init dx dy false)
  /\ offset (offset p dx dy) ex ey = offset p (dx + ex) (dy + ey).
Proof.
  destruct p as [px py], q as [qx qy].
  unfold CellPosition_sub, CellPosition_add, offset, CellPosition_init. simpl.
  repeat split; f_equal; lia.
Qed.

Ltac unfold_regions :=
  unfold contains, in_table, _init_layouts, _create_column_layout, _create_index_layout,
    _create_index_names_layout, _create_column_names_layout, _create_data_layout,
    AxisLayout_init, BaseLayout_init, CellPosition_init,
    TableLayout_x_start, TableLayout_x_end, TableLayout_y_start, TableLayout_y_end,
    total_width, total_height in *;
  unfold x_end, y_end in *; unfold x_start, y_start in *;
  simpl in *.

(** The five regions of a table layout share no cell, whatever the
    dimensions, flags and origin. *)
Theorem regions_disjoint (self : TableArgs) (p : CellPosition) :
  let t := _init_layouts self in
  let ix := base (index t) in
  let cols := base (columns t) in
  ~ (contains ix p /\ contains cols p)
  /\ ~ (contains ix p /\ contains (data_layout t) p)
  /\ ~ (contains ix p /\ contains (index_names t) p)
  /\ ~ (contains ix p /\ contains (column_names t) p)
  /\ ~ (contains cols p /\ contains (data_layout t) p)
  /\ ~ (contains cols p /\ contains (index_names t) p)
  /\ ~ (contains cols p /\ contains (column_names t) p)
  /\ ~ (contains (index_names t) p /\ contains (column_names t) p)
  /\ ~ (contains (index_names t) p /\ contains (data_layout t) p)
  /\ ~ (contains (column_names t) p /\ contains (data_layout t) p).
Proof.
  cbv zeta. destruct self as [[x0 y0] iw ih cw ch inames cnames], p as [px py].
  unfold_regions.
  destruct inames, cnames; simpl; repeat split; lia.
Qed.

(** The bounds of the table agree with its total size: from [x_start] to
    [x_end] there are [total_width] columns and from [y_start] to [y_end]
    there are [total_height] rows. *)
Theorem table_bounds_total_size (self : TableArgs) :
  let t := _init_layouts self in
  TableLayout_x_end t - TableLayout_x_start t + 1 = total_width t
  /\ TableLayout_y_end t - TableLayout_y_start t + 1 = total_height t.
Proof.
  cbv zeta. destruct self as [[x0 y0] iw ih cw ch inames cnames].
  unfold_regions. destruct inames; simpl; split; lia.
Qed.

(** With at least one index level and no negative dimension, every cell
    of every region lies within the bounds of the table. *)
Theorem regions_in_table (self : TableArgs) (p : CellPosition) :
  1 <= index_width self -> 0 <= index_height self ->
  0 <= column_width self -> 0 <= column_height self ->
  let t := _init_layouts self in
  (contains (base (index t)) p -> in_table t p)
  /\ (contains (base (columns t)) p -> in_table t p)
  /\ (contains (index_names t) p -> in_table t p)
  /\ (contains (column_names t) p -> in_table t p)
  /\ (contains (data_layout t) p -> in_table t p).
Proof.
  cbv zeta. destruct self as [[x0 y0] iw ih cw ch inames cnames], p as [px py].
  simpl. intros Hiw Hih Hcw Hch. unfold_regions.
  destruct inames, cnames; simpl; repeat split; lia.
Qed.

Lemma regions_in_table_example :
  let t := TableLayout_init 2 3 2 1 true true 0 0 in
  let p := CellPosition_init 1 0 false in
  (contains (base (index t)) p -> in_table t p)
  /\ (contains (base (columns t)) p -> in_table t p)
  /\ (contains (index_names t) p -> in_table t p)
  /\ (contains (column_names t) p -> in_table t p)
  /\ (contains (data_layout t) p -> in_table t p).
Proof.
  refine (regions_in_table
            {| table_position := CellPosition_init 0 0 false;
               index_width := 2; index_height := 3;
               column_width := 2; column_height := 1;
               has_index_names := true; has_column_names := true |}
            (CellPosition_init 1 0 false) _ _ _ _);
    simpl; lia.
Defined.

Lemma in_cells (f : Z -> Z -> CellPosition) (w h : Z) (p : CellPosition) :
  In p (flat_map (fun y0 => map (fun x0 => f x0 y0) (range 0 w)) (range 0 h)) <->
  exists x0 y0, 0 <= x0 < w /\ 0 <= y0 < h /\ p = f x0 y0.
Proof.
  rewrite in_flat_map. split.
  - intros (y0 & Hy & H). apply in_map_iff in H. destruct H as (x0 & <- & Hx).
    apply WriterProps.in_range in Hx, Hy. exists x0, y0. auto.
  - intros (x0 & y0 & Hx & Hy & ->). exists y0.
    split; [apply WriterProps.in_range; lia |].
    apply in_map_iff. exists x0. split; [reflexivity | apply WriterProps.in_range; lia].
Qed.

(** [iter_positions] yields exactly the cells of the region, each one
    once. *)
Theorem iter_positions_cells (r : BaseLayout) :
  (forall p, In p (iter_positions r) <-> contains r p)
  /\ NoDup (iter_positions r).
Proof.
  split.
  - intros p. unfold iter_positions. rewrite in_cells.
    unfold contains, cell_at, CellPosition_init, x_end, y_end. split.
    + intros (x0 & y0 & Hx & Hy & ->). simpl. lia.
    + intros [Hx Hy]. exists (x p - x_start r), (y p - y_start r).
      repeat split; try lia. destruct p as [px py]. simpl in *. f_equal; lia.
  - unfold iter_positions. apply NoDup_flat_map.
    + apply range_NoDup.
    + intros y0 _. apply NoDup_map_NoDup_ForallPairs; [| apply range_NoDup].
      intros a b _ _ H. unfold cell_at, CellPosition_init in H. inversion H. lia.
    + intros y1 y2 c _ _ H1 H2.
      apply in_map_iff in H1, H2. destruct H1 as (a & <- & _), H2 as (b & H2 & _).
      unfold cell_at, CellPosition_init in H2. inversion H2. lia.
Qed.

(** [iter_rows] and [iter_columns] are transposes of each other: entry [x]
    of row [y] and entry [y] of column [x] are both [cell_at(x, y)]. *)
Theorem rows_columns_transpose (r : BaseLayout) (x0 y0 : nat) (d : CellPosition) :
  Z.of_nat x0 < width r -> Z.of_nat y0 < height r ->
  nth x0 (nth y0 (iter_rows r) []) d = cell_at r (Z.of_nat x0) (Z.of_nat y0)
  /\ nth y0 (nth x0 (iter_columns r) []) d = cell_at r (Z.of_nat x0) (Z.of_nat y0).
Proof.
  intros Hx Hy. unfold iter_rows, iter_columns. split.
  - rewrite (nth_indep _ [] ((fun y1 => map (fun x1 => cell_at r x1 y1) (range 0 (width r))) 0))
      by (rewrite length_map, length_range; lia).
    rewrite (map_nth (fun y1 => map (fun x1 => cell_at r x1 y1) (range 0 (width r)))).
    rewrite nth_range by lia.
    rewrite (nth_indep _ d ((fun x1 => cell_at r x1 (0 + Z.of_nat y0)) 0))
      by (rewrite length_map, length_range; lia).
    rewrite (map_nth (fun x1 => cell_at r x1 (0 + Z.of_nat y0))).
    rewrite nth_range by lia. reflexivity.
  - rewrite (nth_indep _ [] ((fun x1 => map (fun y1 => cell_at r x1 y1) (range 0 (height r))) 0))
      by (rewrite length_map, length_range; lia).
    rewrite (map_nth (fun x1 => map (fun y1 => cell_at r x1 y1) (range 0 (height r)))).
    rewrite nth_range by lia.
    rewrite (nth_indep _ d ((fun y1 => cell_at r (0 + Z.of_nat x0) y1) 0))
      by (rewrite length_map, length_range; lia).
    rewrite (map_nth (fun y1 => cell_at r (0 + Z.of_nat x0) y1)).
    rewrite nth_range by lia. reflexivity.
Qed.

Lemma rows_columns_transpose_example :
  let r := BaseLayout_init 3 2 5 7 in
  nth 2 (nth 1 (iter_rows r) []) (CellPosition_init 0 0 false) = cell_at r 2 1
  /\ nth 1 (nth 2 (iter_columns r) []) (CellPosition_init 0 0 false) = cell_at r 2 1.
Proof.
  exact (rows_columns_transpose (BaseLayout_init 3 2 5 7) 2 1 (CellPosition_init 0 0 false)
           ltac:(simpl; lia) ltac:(simpl; lia)).
Defined.

Lemma map_flat_map {B C D : Type} (g : C -> D) (f : B -> list C) (l : list B) :
  map g (flat_map f l) = flat_map (fun b => map g (f b)) l.
Proof.
  induction l as [| b l IH]; simpl; [reflexivity |]. rewrite map_app, IH. reflexivity.
Qed.

(** The positions [iter_data_positions] and [iter_index_positions] visit
    are those of [iter_positions] on the data region and on the index
    region, in the same row-major order, and the indices that come with a
    position are its offsets within the region. *)
Theorem table_iterators_follow_regions (self : TableArgs) :
  let t := _init_layouts self in
  map snd (iter_data_positions t) = iter_positions (data_layout t)
  /\ map snd (iter_index_positions t) = iter_positions (base (index t))
  /\ Forall (fun '(i, j, p) => p = cell_at (data_layout t) j i) (iter_data_positions t)
  /\ Forall (fun '(i, level, p) => p = cell_at (base (index t)) level i)
            (iter_index_positions t).
Proof.
  cbv zeta. unfold iter_data_positions, iter_index_positions, iter_positions.
  repeat split.
  - rewrite map_flat_map. apply flat_map_ext. intros i. rewrite map_map. reflexivity.
  - rewrite map_flat_map. apply flat_map_ext. intros i. rewrite map_map. reflexivity.
  - apply Forall_forall. intros [[i j] p] H. apply in_flat_map in H.
    destruct H as (i' & _ & H).
    apply in_map_iff in H. destruct H as (j' & E & _). inversion E; subst. reflexivity.
  - apply Forall_forall. intros [[i level] p] H. apply in_flat_map in H.
    destruct H as (i' & _ & H).
    apply in_map_iff in H. destruct H as (l' & E & _). inversion E; subst. reflexivity.
Qed.

End LayoutExtra.

(** ** Pattern matching *)

Module PatternExtra.
Import Py Pattern.

Lemma scalar_eq_refl (a : scalar) : isna a = false -> scalar_eq a a = true.
Proof.
  destruct a; simpl; intros H; try reflexivity; try congruence.
  - apply String.eqb_refl.
  - apply Z.eqb_refl.
Qed.

Lemma part_eq_refl (a : scalar) : part_eq a a = true.
Proof.
  destruct a; simpl; try reflexivity;
    [apply Nat.eqb_refl | apply String.eqb_refl | apply Z.eqb_refl].
Qed.

Lemma tuple_eq_refl (a : list scalar) : tuple_eq a a = true.
Proof.
  induction a as [| u a IH]; simpl; [reflexivity |]. rewrite part_eq_refl. exact IH.
Qed.

Lemma tuple_eq_iff (a b : list scalar) : tuple_eq a b = true <-> a = b.
Proof.
  split; [apply SpanProps.tuple_eq_true | intros ->; apply tuple_eq_refl].
Qed.

(** [find_match] is first-match-wins: it returns the value of the first
    pattern of the list that matches, whatever later patterns say, and
    [None] exactly when no pattern matches. *)
Theorem find_match_first {T : Type} (lbl : label) (patterns : list (label * T)) :
  (find_match lbl patterns = None <->
   Forall (fun q => is_match lbl (fst q) = false) patterns)
  /\ (forall v, find_match lbl patterns = Some v <->
                exists before pattern after,
                  patterns = before ++ (pattern, v) :: after
                  /\ is_match lbl pattern = true
                  /\ Forall (fun q => is_match lbl (fst q) = false) before).
Proof.
  induction patterns as [| [pattern w] rest [IHn IHs]]; simpl.
  - split.
    + split; [constructor | reflexivity].
    + intros v. split; [discriminate |].
      intros (before & p0 & after & E & _). destruct before; discriminate.
  - destruct (is_match lbl pattern) eqn:Em.
    + split.
      * split; [discriminate |]. intros H. inversion H; subst. simpl in *. congruence.
      * intros v. split.
        -- intros E. inversion E; subst. exists [], pattern, rest. auto.
        -- intros (before & p0 & after & E & Hm & Hb).
           destruct before as [| q before]; simpl in E; inversion E; subst.
           ++ reflexivity.
           ++ inversion Hb; subst. simpl in *. congruence.
    + split.
      * rewrite IHn. split; intros H.
        -- constructor; assumption.
        -- inversion H; assumption.
      * intros v. rewrite IHs. split.
        -- intros (before & p0 & after & -> & Hm & Hb).
           exists ((pattern, w) :: before), p0, after. repeat split; auto.
        -- intros (before & p0 & after & E & Hm & Hb).
           destruct before as [| q before]; simpl in E; inversion E; subst.
           ++ congruence.
           ++ inversion Hb; subst. exists before, p0, after. auto.
Qed.

(** A tuple pattern matches a label exactly when the label is a tuple
    with the same components, a NaN component being the same float object
    in both: never a scalar, never a longer or shorter tuple, never by
    prefix, and never two tuples whose NaN components are different
    objects. *)
Theorem is_match_tuple_pattern (lbl : label) (pattern : list scalar) :
  is_match lbl (LTuple pattern) = true <-> lbl = LTuple pattern.
Proof.
  unfold is_match. destruct lbl as [v | parts]; simpl.
  - split; discriminate.
  - destruct (tuple_eq parts pattern) eqn:E.
    + split; [| reflexivity]. intros _. f_equal. apply tuple_eq_iff, E.
    + split; [discriminate |]. intros H. inversion H; subst.
      rewrite tuple_eq_refl in E. discriminate.
Qed.

(** A scalar pattern matches a tuple label exactly when some component
    equals the pattern or, both being strings, starts with it. *)
Theorem is_match_tuple_label (parts : list scalar) (pattern : scalar) :
  is_match (LTuple parts) (LScalar pattern) = true <->
  exists part, In part parts
               /\ (scalar_eq part pattern = true
                   \/ exists s t, part = PStr s /\ pattern = PStr t
                                  /\ startswith s t = true).
Proof.
  unfold is_match. simpl.
  induction parts as [| part rest IH]; simpl.
  - split; [discriminate | intros (part & [] & _)].
  - destruct (scalar_eq part pattern) eqn:E.
    + split; [| reflexivity]. intros _. exists part. auto.
    + assert (Hrest : _tuple_contains_match rest (LScalar pattern) = true ->
                      exists part0, In part0 (part :: rest)
                                    /\ (scalar_eq part0 pattern = true
                                        \/ exists s t, part0 = PStr s /\ pattern = PStr t
                                                       /\ startswith s t = true)).
      { intros H. apply IH in H. destruct H as (q & Hq & H). exists q. split; [right |]; auto. }
      assert (Hback : forall q, In q rest ->
                (scalar_eq q pattern = true
                 \/ exists s t, q = PStr s /\ pattern = PStr t /\ startswith s t = true) ->
                _tuple_contains_match rest (LScalar pattern) = true).
      { intros q Hq H. apply IH. exists q. auto. }
      assert (Hplain : (forall s, part <> PStr s) \/ (forall t, pattern <> PStr t) ->
                       (_tuple_contains_match rest (LScalar pattern) = true <->
                        exists part0, In part0 (part :: rest)
                                      /\ (scalar_eq part0 pattern = true
                                          \/ exists s t, part0 = PStr s /\ pattern = PStr t
                                                         /\ startswith s t = true))).
      { intros Hno. split; [exact Hrest |].
        intros (q & [<- | Hq] & H); [| eapply Hback; eassumption].
        destruct H as [H | (s1 & t1 & H1 & H2 & _)]; [congruence |].
        destruct Hno as [Hno | Hno]; [elim (Hno s1 H1) | elim (Hno t1 H2)]. }
      destruct part as [| | s | z];
        try (apply Hplain; left; intros s0; discriminate).
      destruct pattern as [| | t | z'];
        try (apply Hplain; right; intros t0; discriminate).
      destruct (startswith s t) eqn:Ep.
      * split; [| reflexivity]. intros _. exists (PStr s). split; [left; reflexivity |].
        right. exists s, t. auto.
      * split; [exact Hrest |].
        intros (q & [<- | Hq] & H); [| eapply Hback; eassumption].
        destruct H as [H | (s1 & t1 & H1 & H2 & H3)]; [congruence |].
        inversion H1; inversion H2; subst. congruence.
Qed.

Section PositionMap.
Context {T : Type}.

Lemma length_list_set (l : list T) (n : nat) (v : T) :
  List.length (list_set l n v) = List.length l.
Proof. revert n. induction l as [| a l IH]; intros [| n]; simpl; auto. Qed.

Lemma nth_list_set_same (l : list T) (n : nat) (v d : T) :
  (n < List.length l)%nat -> nth n (list_set l n v) d = v.
Proof.
  revert n. induction l as [| a l IH]; intros [| n] H; simpl in *; try lia.
  - reflexivity.
  - apply IH. lia.
Qed.

Lemma nth_list_set_other (l : list T) (n m : nat) (v d : T) :
  n <> m -> nth n (list_set l m v) d = nth n l d.
Proof.
  revert n m. induction l as [| a l IH]; intros [| n] [| m] H; simpl; try reflexivity.
  - congruence.
  - apply IH. congruence.
Qed.
End PositionMap.

Section ListUpdates.
(** A loop over the labels that assigns [result[i] = v] when [upd] gives
    [Some v] for label [i]. *)
Context {T : Type}.
Variable upd : label -> option T.
Variable step : list T -> Z * label -> list T.
Hypothesis step_spec :
  forall l i lbl,
    step l (i, lbl) = match upd lbl with
                      | Some v => list_set l (Z.to_nat i) v
                      | None => l
                      end.

Lemma length_updates (labels : list label) (k : Z) (l : list T) :
  List.length (fold_left step (enumerate_from k labels) l) = List.length l.
Proof.
  revert k l. induction labels as [| lbl rest IH]; intros k l; simpl; [reflexivity |].
  rewrite IH, step_spec. destruct (upd lbl); [apply length_list_set | reflexivity].
Qed.

Lemma nth_updates_outside (labels : list label) (k : Z) (l : list T) (n : nat) (d : T) :
  0 <= k ->
  (n < Z.to_nat k \/ Z.to_nat k + List.length labels <= n)%nat ->
  nth n (fold_left step (enumerate_from k labels) l) d = nth n l d.
Proof.
  revert k l. induction labels as [| lbl rest IH]; intros k l Hk Hn; simpl.
  - reflexivity.
  - rewrite IH by (simpl in Hn; lia). rewrite step_spec.
    destruct (upd lbl); [| reflexivity]. apply nth_list_set_other. simpl in Hn. lia.
Qed.

Lemma nth_updates_inside (labels : list label) (k : Z) (l : list T) (n : nat) (d : T) :
  0 <= k ->
  (Z.to_nat k + List.length labels <= List.length l)%nat ->
  (Z.to_nat k <= n < Z.to_nat k + List.length labels)%nat ->
  nth n (fold_left step (enumerate_from k labels) l) d
  = match upd (nth (n - Z.to_nat k) labels (LScalar PNone)) with
    | Some v => v
    | None => nth n l d
    end.
Proof.
  revert k l. induction labels as [| lbl rest IH]; intros k l Hk Hlen Hn; simpl in *.
  - lia.
  - destruct (Nat.eq_dec n (Z.to_nat k)) as [-> | Hne].
    + rewrite nth_updates_outside by lia.
      rewrite Nat.sub_diag, step_spec.
      destruct (upd lbl); [apply nth_list_set_same; lia | reflexivity].
    + rewrite IH.
      * replace (n - Z.to_nat k)%nat with (S (n - Z.to_nat (k + 1))) by lia.
        rewrite step_spec. destruct (upd lbl); [| reflexivity].
        rewrite nth_list_set_other by exact Hne. reflexivity.
      * lia.
      * rewrite step_spec. destruct (upd lbl); rewrite ?length_list_set; lia.
      * lia.
Qed.
End ListUpdates.

(** [create_position_map] returns one entry per label; entry [n] is the
    value of the first pattern matching label [n], and [None] when no
    pattern matches or that value is [None]. *)
Theorem create_position_map_entries {T : Type} (labels : list label)
        (patterns : list (label * option T)) (n : nat) :
  (n < List.length labels)%nat ->
  List.length (create_position_map labels patterns) = List.length labels
  /\ nth n (create_position_map labels patterns) None
     = match find_match (nth n labels (LScalar PNone)) patterns with
       | Some (Some m) => Some m
       | _ => None
       end.
Proof.
  intros Hn. unfold create_position_map, enumerate, len. rewrite Nat2Z.id.
  set (upd := fun lbl : label =>
                match find_match lbl patterns with
                | Some (Some m) => Some (Some m)
                | _ => None
                end).
  assert (Hstep : forall (l : list (option T)) (i : Z) (lbl : label),
             (fun result '(i, lbl) =>
                match find_match lbl patterns with
                | Some (Some m) => list_set result (Z.to_nat i) (Some m)
                | _ => result
                end) l (i, lbl)
             = match upd lbl with
               | Some v => list_set l (Z.to_nat i) v
               | None => l
               end).
  { intros l i lbl. unfold upd. destruct (find_match lbl patterns) as [[m |] |]; reflexivity. }
  split.
  - rewrite (length_updates upd _ Hstep). apply repeat_length.
  - rewrite (nth_updates_inside upd _ Hstep) by (rewrite ?repeat_length; simpl; lia).
    simpl. rewrite Nat.sub_0_r. unfold upd.
    destruct (find_match _ patterns) as [[m |] |]; try reflexivity; apply nth_repeat.
Qed.

Lemma create_position_map_example :
  let labels := [LTuple [PStr "EU"; PStr "NL"]; LScalar (PStr "total"); LScalar (PInt 3)] in
  let patterns := [(LScalar (PStr "N"), Some 1); (LScalar (PStr "total"), Some 2);
                   (LScalar (PInt 3), None)] in
  List.length (create_position_map labels patterns) = 3%nat
  /\ nth 0 (create_position_map labels patterns) None = Some 1.
Proof.
  exact (create_position_map_entries
           [LTuple [PStr "EU"; PStr "NL"]; LScalar (PStr "total"); LScalar (PInt 3)]
           [(LScalar (PStr "N"), Some 1); (LScalar (PStr "total"), Some 2);
            (LScalar (PInt 3), None)]
           0 ltac:(simpl; lia)).
Defined.

End PatternExtra.

(** ** Spans: maximal runs and nesting of levels *)

Module SpanExtra.
Import Py Spans SpanProps.

Section Runs.
Context {A : Type} (py_none : A) (py_ne : A -> A -> bool).

Lemma differs_from_last_snoc (l : list (span A)) (sp : span A) (v : A) :
  differs_from_last py_ne (l ++ [sp]) v <-> py_ne v (value sp) = true.
Proof.
  induction l as [| a l IH]; simpl; [reflexivity |].
  destruct (l ++ [sp]) eqn:E; [destruct l; discriminate | exact IH].
Qed.

Lemma adjacent_differ_snoc (l : list (span A)) (sp : span A) :
  adjacent_differ py_ne l -> differs_from_last py_ne l (value sp) ->
  adjacent_differ py_ne (l ++ [sp]).
Proof.
  induction l as [| a l IH]; simpl; intros Hadj Hlast; [auto |].
  destruct Hadj as [Hhead Hadj]. destruct l as [| b l]; simpl in *.
  - auto.
  - split; [exact Hhead |]. apply IH; assumption.
Qed.

Lemma loop_inv_no_spans_at_0 (seen : list A) (st : loop_state) :
  loop_inv py_ne 0 seen st -> spans st = [].
Proof.
  intros [_ Hchain [Hle _] _]. destruct (spans st) as [| sp rest]; [reflexivity |].
  simpl in Hchain. destruct Hchain as (Hs & Hc & Hrest).
  apply chained_bounds in Hrest. lia.
Qed.

Lemma loop_body_runs (i : Z) (seen : list A) (st : loop_state) (val : A) :
  loop_inv py_ne i seen st ->
  adjacent_differ py_ne (spans st) /\ differs_from_last py_ne (spans st) (prev st) ->
  adjacent_differ py_ne (spans (loop_body py_ne st i val))
  /\ differs_from_last py_ne (spans (loop_body py_ne st i val))
                       (prev (loop_body py_ne st i val)).
Proof.
  intros Hinv [Hadj Hlast]. unfold loop_body.
  destruct (py_ne val (prev st)) eqn:Hne; [| split; assumption]. simpl.
  destruct (0 <? i) eqn:Hpos.
  - split.
    + apply adjacent_differ_snoc; assumption.
    + apply differs_from_last_snoc. exact Hne.
  - apply Z.ltb_ge in Hpos.
    assert (Hi : i = 0)
      by (destruct Hinv as [Hlen _ _ _]; pose proof (len_nonneg seen); lia).
    rewrite Hi in Hinv. rewrite (loop_inv_no_spans_at_0 seen st Hinv).
    simpl. auto.
Qed.

Lemma loop_runs (values seen : list A) (i : Z) (st : loop_state) :
  loop_inv py_ne i seen st ->
  adjacent_differ py_ne (spans st) /\ differs_from_last py_ne (spans st) (prev st) ->
  let st' := loop py_ne i values st in
  adjacent_differ py_ne (spans st') /\ differs_from_last py_ne (spans st') (prev st').
Proof.
  cbv zeta. revert seen i st. induction values as [| val rest IH]; intros seen i st Hinv Hrun.
  - exact Hrun.
  - simpl. apply (IH (seen ++ [val])).
    + apply loop_body_inv, Hinv.
    + eapply loop_body_runs; eassumption.
Qed.

(** The spans are maximal runs: the value of every span differs, under
    the comparison the scan uses, from the value of the span before it. *)
Theorem spans_maximal (values : list A) :
  adjacent_differ py_ne (get_contiguous_spans py_none py_ne values).
Proof.
  unfold get_contiguous_spans.
  destruct (loop_runs values [] 0 _ (loop_inv_init py_none py_ne)) as [Hadj Hlast];
    [simpl; auto |].
  destruct (0 <? len values); [| exact Hadj].
  apply adjacent_differ_snoc; assumption.
Qed.
End Runs.

Section Refinement.
(** Two scans over the same rows, one on a coarser key [fA] and one on a
    finer key [fB]: wherever the coarse key changes, the fine key changes
    too. *)
Context {X A B : Type} (fA : X -> A) (fB : X -> B).
Context (noneA : A) (neA : A -> A -> bool) (noneB : B) (neB : B -> B -> bool).
Hypothesis soundA : forall u t, neA (fA u) (fA t) = false -> fA u = fA t.
Hypothesis soundB : forall u t, neB (fB u) (fB t) = false -> fB u = fB t.
Hypothesis finer : forall u t, neA (fA u) (fA t) = true -> neB (fB u) (fB t) = true.
Hypothesis startA : forall u, neA (fA u) noneA = true.
Hypothesis startB : forall u, neB (fB u) noneB = true.

Lemma lockstep (ts : list X) (i : Z) (stA : @loop_state A) (stB : @loop_state B) :
  0 < i ->
  incl (map start (spans stA) ++ [start_idx stA])
       (map start (spans stB) ++ [start_idx stB]) ->
  (exists t, prev stA = fA t /\ prev stB = fB t) ->
  let stA' := loop neA i (map fA ts) stA in
  let stB' := loop neB i (map fB ts) stB in
  incl (map start (spans stA') ++ [start_idx stA'])
       (map start (spans stB') ++ [start_idx stB']).
Proof.
  cbv zeta. revert i stA stB.
  induction ts as [| u rest IH]; intros i stA stB Hi Hincl (t & HpA & HpB); simpl.
  - exact Hincl.
  - assert (Hpos : (0 <? i) = true) by (apply Z.ltb_lt; exact Hi).
    apply IH; [lia | |]; unfold loop_body; rewrite HpA, HpB, Hpos.
    + destruct (neA (fA u) (fA t)) eqn:EA.
      * rewrite (finer _ _ EA). simpl. rewrite !map_app. simpl.
        apply incl_app; [apply incl_appl; exact Hincl | apply incl_appr, incl_refl].
      * destruct (neB (fB u) (fB t)) eqn:EB; simpl.
        -- rewrite map_app. simpl. apply incl_appl. exact Hincl.
        -- exact Hincl.
    + destruct (neA (fA u) (fA t)) eqn:EA; destruct (neB (fB u) (fB t)) eqn:EB; simpl;
        exists u; split; try reflexivity;
        try (rewrite HpA; symmetry; apply soundA; assumption);
        try (rewrite HpB; symmetry; apply soundB; assumption).
Qed.

Lemma starts_refine (ts : list X) :
  incl (map start (get_contiguous_spans noneA neA (map fA ts)))
       (map start (get_contiguous_spans noneB neB (map fB ts))).
Proof.
  unfold get_contiguous_spans.
  replace (len (map fB ts)) with (len (map fA ts))
    by (unfold len; rewrite !length_map; reflexivity).
  destruct ts as [| u rest]; [simpl; apply incl_refl |].
  assert (Hlen : (0 <? len (map fA (u :: rest))) = true)
    by (apply Z.ltb_lt; unfold len; simpl; lia).
  rewrite Hlen.
  assert (EA : loop_body neA {| spans := []; prev := noneA; start_idx := 0 |} 0 (fA u)
               = {| spans := []; prev := fA u; start_idx := 0 |})
    by (unfold loop_body; simpl; rewrite startA; reflexivity).
  assert (EB : loop_body neB {| spans := []; prev := noneB; start_idx := 0 |} 0 (fB u)
               = {| spans := []; prev := fB u; start_idx := 0 |})
    by (unfold loop_body; simpl; rewrite startB; reflexivity).
  change (loop neA 0 (map fA (u :: rest)) {| spans := []; prev := noneA; start_idx := 0 |})
    with (loop neA (0 + 1) (map fA rest)
               (loop_body neA {| spans := []; prev := noneA; start_idx := 0 |} 0 (fA u))).
  change (loop neB 0 (map fB (u :: rest)) {| spans := []; prev := noneB; start_idx := 0 |})
    with (loop neB (0 + 1) (map fB rest)
               (loop_body neB {| spans := []; prev := noneB; start_idx := 0 |} 0 (fB u))).
  rewrite EA, EB, !map_app. simpl map.
  apply (lockstep rest (0 + 1)); simpl; [lia | apply incl_refl | exists u; auto].
Qed.
End Refinement.

Lemma label_ne_tuples (a b : list scalar) :
  label_ne (LTuple a) (LTuple b) = true <-> a <> b.
Proof.
  unfold label_ne. simpl. rewrite negb_true_iff. split.
  - intros H E. subst. rewrite PatternExtra.tuple_eq_refl in H. discriminate.
  - intros H. destruct (tuple_eq a b) eqn:E; [| reflexivity].
    apply SpanProps.tuple_eq_true in E. contradiction.
Qed.

Lemma nth_levels {C : Type} (f : Z -> C) (n k : Z) (d : C) :
  0 <= k < n -> nth (Z.to_nat k) (map f (range 0 n)) d = f k.
Proof.
  intros H.
  rewrite (nth_indep _ d (f 0)) by (rewrite length_map, LayoutExtra.length_range; lia).
  rewrite (map_nth f), LayoutExtra.nth_range by lia. f_equal. lia.
Qed.

(** Levels nest: every position where a span starts at an outer level of
    a MultiIndex is also the start of a span at every deeper level. *)
Theorem level_spans_nest (nlevels : Z) (names : list (option string))
        (tuples : list (list scalar)) (outer inner : Z) :
  0 <= outer <= inner -> inner < nlevels ->
  let levels := get_level_spans (MultiIndex nlevels names tuples) None in
  incl (map start (nth (Z.to_nat outer) levels []))
       (map start (nth (Z.to_nat inner) levels [])).
Proof.
  intros Hlev Hin. cbv zeta. unfold get_level_spans.
  rewrite !(nth_levels _ nlevels) by lia.
  rewrite <- (map_map (fun idx => slice_to idx (outer + 1)) LTuple).
  rewrite <- (map_map (fun idx => slice_to idx (inner + 1)) LTuple).
  rewrite <- (map_map (fun idx => idx) (fun idx => slice_to idx (outer + 1))) at 1.
  rewrite !map_map.
  apply (starts_refine (fun idx => LTuple (slice_to idx (outer + 1)))
                       (fun idx => LTuple (slice_to idx (inner + 1)))).
  - intros u t H. apply label_ne_false, H.
  - intros u t H. apply label_ne_false, H.
  - intros u t H. apply label_ne_tuples. apply label_ne_tuples in H.
    intros E. apply H. unfold slice_to in *.
    transitivity (firstn (Z.to_nat (outer + 1)) (firstn (Z.to_nat (inner + 1)) u)).
    + rewrite firstn_firstn, Nat.min_l by lia. reflexivity.
    + rewrite E, firstn_firstn, Nat.min_l by lia. reflexivity.
  - reflexivity.
  - reflexivity.
Qed.

Lemma level_spans_nest_example :
  let levels := get_level_spans (index sparse_df) None in
  incl (map start (nth 0 levels [])) (map start (nth 2 levels [])).
Proof.
  exact (level_spans_nest 3 [None; None; None]
           [[PStr "A"; PStr "x"; PStr "y"]; [PStr "A"; np_nan; np_nan]]
           0 2 ltac:(lia) ltac:(lia)).
Defined.

End SpanExtra.

(** ** Merge ranges: shape and place *)

Module MergeRangeExtra.
Import Py Spans SpanProps MergeRangeProps.

Section Blocks.
Context {A : Type} (layout : Layout.BaseLayout) (is_row_index : bool).

Lemma in_level_block_count (level : Z) (level_spans : list (span A)) (r : MergeRange) :
  In r (level_block layout is_row_index level level_spans) ->
  exists sp : span A,
    In sp level_spans /\ 1 < count sp
    /\ r = span_merge_range layout is_row_index level sp.
Proof.
  unfold level_block. intros H. apply in_flat_map in H.
  destruct H as (sp & Hsp & Hr). exists sp.
  destruct (1 <? count sp) eqn:E; simpl in Hr; [| contradiction].
  destruct Hr as [<- | []]. apply Z.ltb_lt in E. auto.
Qed.

Lemma in_level_blocks_level (k : Z) (spans : list (list (span A))) (r : MergeRange) :
  0 <= k ->
  In r (level_blocks layout is_row_index k spans) ->
  exists (level : Z) (level_spans : list (span A)) (sp : span A),
    k <= level < k + len spans
    /\ In level_spans spans /\ In sp level_spans /\ 1 < count sp
    /\ r = span_merge_range layout is_row_index level sp.
Proof.
  revert k. induction spans as [| ls rest IH]; intros k Hk H; [destruct H |].
  unfold level_blocks in H. simpl in H. apply in_app_iff in H.
  assert (Hlen : len (ls :: rest) = 1 + len rest)
    by (unfold len; cbn [List.length]; lia).
  pose proof (len_nonneg rest). destruct H as [H | H].
  - apply in_level_block_count in H. destruct H as (sp & Hsp & Hc & ->).
    exists k, ls, sp. repeat split; simpl; auto; lia.
  - apply IH in H; [| lia]. destruct H as (level & ls' & sp & Hl & Hls & Hsp & Hc & ->).
    exists level, ls', sp. repeat split; simpl; auto; lia.
Qed.
End Blocks.

Lemma smr_shape {A : Type} (layout : Layout.BaseLayout) (level : Z) (sp : span A) :
  1 < count sp ->
  (let r := span_merge_range layout true level sp in
   start_col r = end_col r /\ start_row r < end_row r)
  /\ (let r := span_merge_range layout false level sp in
      start_row r = end_row r /\ start_col r < end_col r).
Proof.
  intros H. unfold span_merge_range, Layout.cell_at, Layout.CellPosition_init,
              Layout.excel_x, Layout.excel_y. simpl. repeat split; lia.
Qed.

(** A merge derived from a span of the row index is one column wide and
    at least two rows high; one derived from a span of the column index is
    one row high and at least two columns wide.  Spans of count 1 leave no
    range behind. *)
Theorem span_merges_shape (df : DataFrame) (layout : Layout.TableLayout) :
  Forall (fun r => start_col r = end_col r /\ start_row r < end_row r)
         (row_merges df layout)
  /\ Forall (fun r => start_row r = end_row r /\ start_col r < end_col r)
            (column_merges df layout).
Proof.
  unfold row_merges, column_merges. rewrite !get_merge_ranges_from_spans_blocks.
  split; apply Forall_forall; intros r Hr;
    apply in_level_blocks_level in Hr; try lia;
    destruct Hr as (level & ls & sp & _ & _ & _ & Hc & ->);
    apply (smr_shape _ level sp Hc).
Qed.

Lemma length_get_level_spans (ix : pd_index) :
  len (get_level_spans ix None) <= Z.max 0 (index_nlevels ix).
Proof.
  destruct ix as [name values | nlevels names tuples]; unfold len; simpl.
  - lia.
  - rewrite length_map, LayoutExtra.length_range. lia.
Qed.

Lemma smr_within {A : Type} (region : Layout.BaseLayout) (level : Z) (sp : span A) :
  0 <= start sp -> 0 < count sp ->
  (0 <= level < Layout.width region -> start sp + count sp <= Layout.height region ->
   range_within region (span_merge_range region true level sp))
  /\ (0 <= level < Layout.height region -> start sp + count sp <= Layout.width region ->
      range_within region (span_merge_range region false level sp)).
Proof.
  intros Hs Hc.
  unfold range_within, span_merge_range, Layout.cell_at, Layout.CellPosition_init,
    Layout.excel_x, Layout.excel_y, Layout.x_end, Layout.y_end. simpl.
  split; intros Hl Hn; repeat split; lia.
Qed.

Lemma header_merges_within (df : DataFrame) (x_offset y_offset : Z) :
  let layout := Layout.from_df df x_offset y_offset in
  Forall (range_within (Layout.base (Layout.index layout))) (row_merges df layout)
  /\ Forall (range_within (Layout.base (Layout.columns layout))) (column_merges df layout).
Proof.
  cbv zeta. unfold row_merges, column_merges.
  rewrite !get_merge_ranges_from_spans_blocks.
  split; apply Forall_forall; intros r Hr;
    apply in_level_blocks_level in Hr; try lia;
    destruct Hr as (level & ls & sp & Hl & Hls & Hsp & Hc & ->).
  - pose proof (length_get_level_spans (index df)) as Hn.
    pose proof (get_level_spans_chained (index df) None) as Hch.
    rewrite Forall_forall in Hch. apply Hch in Hls.
    apply chained_bounds in Hls. destruct Hls as [_ Hall].
    rewrite Forall_forall in Hall. apply Hall in Hsp.
    apply smr_within; simpl; lia.
  - pose proof (length_get_level_spans (columns df)) as Hn.
    pose proof (get_level_spans_chained (columns df) None) as Hch.
    rewrite Forall_forall in Hch. apply Hch in Hls.
    apply chained_bounds in Hls. destruct Hls as [_ Hall].
    rewrite Forall_forall in Hall. apply Hall in Hsp.
    apply smr_within; simpl; lia.
Qed.

Section StrictScan.
Variable layout : Layout.TableLayout.

Ltac unfold_sheet :=
  unfold sheet_col, sheet_row, Layout.cell_at, Layout.CellPosition_init,
    Layout.excel_x, Layout.excel_y in *; simpl in *.

Lemma row_scan_strict_step (i : Z) (idx : list scalar) (level : Z) (st : scan_state) :
  row_scan_strict layout i level st ->
  row_scan_strict layout i (level + 1) (scan_level layout i idx st level).
Proof.
  intros (Hlne & Hopen & Hall). unfold scan_level.
  destruct (is_empty_value (getitem idx level)).
  - destruct (span_start st) as [s |] eqn:Es.
    + split; [lia | split; [| exact Hall]].
      rewrite Es. intros s' E. specialize (Hopen s' E). lia.
    + split; [simpl; lia | split; [| exact Hall]].
      simpl. intros s' E. inversion E; subst. lia.
  - assert (Hold : Forall (fun r => start_row r = sheet_row layout i
                                    /\ end_row r = sheet_row layout i
                                    /\ sheet_col layout 0 <= start_col r
                                    /\ start_col r < end_col r
                                    /\ end_col r < sheet_col layout level)
                          (merge_ranges st)).
    { eapply Forall_impl; [| exact Hall]. simpl. intros r (H1 & H2 & H3 & H4 & H5).
      repeat split; auto. unfold_sheet. lia. }
    split; [simpl; lia | split; [simpl; discriminate |]]. simpl.
    destruct (span_start st) as [s |] eqn:Es; [| exact Hold].
    apply Forall_app. split; [exact Hold |].
    constructor; [| constructor]. rewrite empty_merge_range_eq. simpl.
    specialize (Hopen s eq_refl). unfold_sheet. repeat split; lia.
Qed.

Lemma row_scan_strict_range (i : Z) (idx : list scalar) (a b : Z) (st : scan_state) :
  a <= b ->
  row_scan_strict layout i a st ->
  row_scan_strict layout i b (fold_left (scan_level layout i idx) (range a b) st).
Proof.
  intros Hab. remember (Z.to_nat (b - a)) as n eqn:Hn.
  revert a st Hab Hn. induction n as [| n IH]; intros a st Hab Hn Hinv.
  - assert (a = b) by lia. subst a. rewrite range_nil by lia. exact Hinv.
  - rewrite range_cons by lia. simpl. apply IH; try lia.
    apply row_scan_strict_step, Hinv.
Qed.

(** The ranges of one row of a well-formed index: on that row, from level
    0 or later up to the last level at most, at least two columns wide. *)
Lemma scan_row_strict (i : Z) (idx : list scalar) :
  Forall (fun r => start_row r = sheet_row layout i
                   /\ end_row r = sheet_row layout i
                   /\ sheet_col layout 0 <= start_col r
                   /\ start_col r < end_col r
                   /\ end_col r <= sheet_col layout (len idx - 1))
         (scan_row layout (len idx) [] (i, idx)).
Proof.
  unfold scan_row. set (st := fold_left _ _ _).
  assert (Hinv : row_scan_strict layout i (Z.max 1 (len idx)) st).
  { assert (Hinit : row_scan_strict layout i 1
                      {| merge_ranges := []; span_start := None; last_non_empty := 0 |}).
    { split; [simpl; lia | split; [simpl; discriminate | constructor]]. }
    destruct (Z.le_gt_cases 1 (len idx)) as [H | H].
    - rewrite Z.max_r by lia. apply row_scan_strict_range; [lia | exact Hinit].
    - unfold st. rewrite range_nil by lia. simpl. rewrite Z.max_l by lia. exact Hinit. }
  destruct Hinv as (Hlne & Hopen & Hall).
  assert (Hold : Forall (fun r => start_row r = sheet_row layout i
                                  /\ end_row r = sheet_row layout i
                                  /\ sheet_col layout 0 <= start_col r
                                  /\ start_col r < end_col r
                                  /\ end_col r <= sheet_col layout (len idx - 1))
                        (merge_ranges st)).
  { eapply Forall_impl; [| exact Hall]. simpl. intros r (H1 & H2 & H3 & H4 & H5).
    repeat split; auto.
    assert (last_non_empty st <= len idx - 1 \/ len idx < 1) by lia.
    destruct (Z.le_gt_cases 1 (len idx)); unfold_sheet; lia. }
  destruct (span_start st) as [s |] eqn:Es; [| exact Hold].
  apply Forall_app. split; [exact Hold |].
  constructor; [| constructor]. rewrite empty_merge_range_eq. simpl.
  specialize (Hopen s eq_refl). unfold_sheet. repeat split; lia.
Qed.

Lemma scan_rows_strict (nlevels k : Z) (tuples : list (list scalar)) :
  0 <= k ->
  Forall (fun idx => len idx = nlevels) tuples ->
  Forall (fun r => (exists i, k <= i < k + len tuples
                              /\ start_row r = sheet_row layout i
                              /\ end_row r = sheet_row layout i)
                   /\ sheet_col layout 0 <= start_col r
                   /\ start_col r < end_col r
                   /\ end_col r <= sheet_col layout (nlevels - 1))
         (flat_map (scan_row layout nlevels []) (enumerate_from k tuples)).
Proof.
  revert k. induction tuples as [| idx rest IH]; intros k Hk Hwf; [constructor |].
  inversion Hwf as [| ? ? Hlen Hrest]; subst. simpl.
  assert (Hl : len (idx :: rest) = 1 + len rest)
    by (unfold len; cbn [List.length]; lia).
  pose proof (len_nonneg rest).
  apply Forall_app. split.
  - eapply Forall_impl; [| apply scan_row_strict]. simpl.
    intros r (H1 & H2 & H3 & H4 & H5). repeat split; auto.
    exists k. repeat split; auto; lia.
  - eapply Forall_impl; [| apply (IH (k + 1)); [lia | exact Hrest]]. simpl.
    intros r ((i & Hi & H1 & H2) & H3). split; [| exact H3].
    exists i. repeat split; auto; lia.
Qed.
End StrictScan.

Lemma blank_merges_in_index (df : DataFrame) (x_offset y_offset : Z) :
  well_formed (index df) ->
  let layout := Layout.from_df df x_offset y_offset in
  Forall (fun r => start_row r = end_row r
                   /\ start_col r < end_col r
                   /\ range_within (Layout.base (Layout.index layout)) r)
         (get_empty_spans df layout).
Proof.
  intros Hwf. cbv zeta. rewrite get_empty_spans_rows.
  unfold Layout.from_df. destruct (index df) as [name values | nlevels names tuples];
    [constructor |].
  simpl in Hwf.
  eapply Forall_impl; [| apply (scan_rows_strict _ nlevels 0 tuples); [lia | exact Hwf]].
  simpl. intros r ((i & Hi & H1 & H2) & H3 & H4 & H5).
  unfold range_within, sheet_row, sheet_col, Layout.cell_at, Layout.CellPosition_init,
    Layout.excel_x, Layout.excel_y, Layout.x_end, Layout.y_end, Layout.x_start,
    Layout.y_start in *.
  simpl in *. unfold len in *. rewrite length_map. repeat split; lia.
Qed.

(** With the layout made from the DataFrame, every merge of the row
    header lies inside the index region and every merge of the column
    header lies inside the column-header region. *)
Theorem span_merges_within (df : DataFrame) (x_offset y_offset : Z) :
  let layout := Layout.from_df df x_offset y_offset in
  Forall (range_within (Layout.base (Layout.index layout))) (row_merges df layout)
  /\ Forall (range_within (Layout.base (Layout.columns layout))) (column_merges df layout).
Proof. exact (header_merges_within df x_offset y_offset). Qed.

(** In a well-formed MultiIndex (one component per level in every row),
    with the layout made from the DataFrame, every blank-trailing merge
    lies on a single row, covers at least two columns and stays inside the
    index region. *)
Theorem blank_merges_shape (df : DataFrame) (x_offset y_offset : Z) :
  well_formed (index df) ->
  let layout := Layout.from_df df x_offset y_offset in
  Forall (fun r => start_row r = end_row r
                   /\ start_col r < end_col r
                   /\ range_within (Layout.base (Layout.index layout)) r)
         (get_empty_spans df layout).
Proof. exact (blank_merges_in_index df x_offset y_offset). Qed.

Lemma blank_merges_shape_example :
  Forall (fun r => start_row r = end_row r
                   /\ start_col r < end_col r
                   /\ range_within (Layout.base (Layout.index sparse_layout)) r)
         (get_empty_spans sparse_df sparse_layout).
Proof.
  refine (blank_merges_shape sparse_df 0 0 _).
  simpl. repeat constructor.
Defined.

Lemma scan_non_blank_levels (layout : Layout.TableLayout) (i : Z) (idx : list scalar)
      (a b : Z) (st : scan_state) :
  (forall level, a <= level < b -> is_empty_value (getitem idx level) = false) ->
  span_start st = None ->
  let st' := fold_left (scan_level layout i idx) (range a b) st in
  merge_ranges st' = merge_ranges st /\ span_start st' = None.
Proof.
  cbv zeta. remember (Z.to_nat (b - a)) as n eqn:Hn.
  revert a st Hn. induction n as [| n IH]; intros a st Hn Hfull Hclosed.
  - rewrite range_nil by lia. simpl. auto.
  - rewrite range_cons by lia. simpl.
    assert (E : is_empty_value (getitem idx a) = false) by (apply Hfull; lia).
    destruct (IH (a + 1) (scan_level layout i idx st a)) as (H1 & H2);
      [lia | intros level Hl; apply Hfull; lia
       | unfold scan_level; rewrite E; reflexivity |].
    split; [| exact H2]. rewrite H1. unfold scan_level. rewrite E, Hclosed.
    reflexivity.
Qed.

Lemma getitem_tail (idx : list scalar) (level : Z) :
  Forall (fun v => is_empty_value v = false) (tl idx) ->
  1 <= level < len idx ->
  is_empty_value (getitem idx level) = false.
Proof.
  intros Hfull Hlevel. unfold getitem, len in *.
  destruct idx as [| v0 rest]; [simpl in Hlevel; lia |].
  simpl in Hfull, Hlevel.
  replace (Z.to_nat level) with (S (Z.to_nat level - 1)) by lia.
  simpl. rewrite Forall_forall in Hfull. apply Hfull, nth_In. lia.
Qed.

(** A row index without blanks yields no blank-trailing merge: none for a
    flat index, and none for a MultiIndex in which no component below the
    outermost level is null or empty. *)
Theorem no_blanks_no_merges (df : DataFrame) (layout : Layout.TableLayout) :
  no_blank_levels (index df) -> get_empty_spans df layout = [].
Proof.
  intros Hfull. rewrite get_empty_spans_rows.
  destruct (index df) as [name values | nlevels names tuples]; [reflexivity |].
  simpl in Hfull. unfold enumerate. generalize 0 as k.
  induction tuples as [| idx rest IH]; intros k; [reflexivity |].
  inversion Hfull as [| ? ? Hidx Hrest]; subst. simpl.
  rewrite (IH Hrest), app_nil_r. unfold scan_row.
  destruct (scan_non_blank_levels layout k idx 1 (len idx)
              {| merge_ranges := []; span_start := None; last_non_empty := 0 |})
    as (H1 & H2); [intros level Hl; apply getitem_tail; assumption | reflexivity |].
  rewrite H2. exact H1.
Qed.

Lemma no_blanks_no_merges_example :
  get_empty_spans dense_df (Layout.from_df dense_df 0 0) = [].
Proof.
  refine (no_blanks_no_merges dense_df (Layout.from_df dense_df 0 0) _).
  simpl. repeat constructor.
Defined.

Lemma within_not_data (t : Layout.TableArgs) (r : MergeRange) (row col : Z) :
  let layout := Layout._init_layouts t in
  range_within (Layout.base (Layout.index layout)) r
  \/ range_within (Layout.base (Layout.columns layout)) r ->
  covers r row col -> ~ data_cell layout row col.
Proof.
  cbv zeta. intros Hin Hcov Hdata. apply covers_bounds in Hcov.
  destruct t as [[x0 y0] iw ih cw ch inames cnames].
  unfold range_within, data_cell, Layout.contains, Layout._init_layouts,
    Layout._create_column_layout, Layout._create_index_layout,
    Layout._create_data_layout, Layout.AxisLayout_init, Layout.BaseLayout_init,
    Layout.CellPosition_init in *.
  unfold Layout.x_end, Layout.y_end in *. unfold Layout.x_start, Layout.y_start in *.
  simpl in *. destruct inames; simpl in *; lia.
Qed.

(** No merge the engine asks for touches the data body: with a
    well-formed row index and the layout made from the DataFrame, no range
    of [get_all_merge_ranges] covers a cell of the data region. *)
Theorem merges_avoid_data (df : DataFrame) (x_offset y_offset : Z) :
  well_formed (index df) ->
  let layout := Layout.from_df df x_offset y_offset in
  Forall (fun r => forall row col, covers r row col -> ~ data_cell layout row col)
         (get_all_merge_ranges df layout).
Proof.
  intros Hwf. cbv zeta. unfold get_all_merge_ranges.
  destruct (header_merges_within df x_offset y_offset) as [Hrows Hcols].
  pose proof (blank_merges_in_index df x_offset y_offset Hwf) as Hblank.
  cbv zeta in Hblank.
  rewrite !Forall_app. repeat split.
  - eapply Forall_impl; [| exact Hrows]. simpl. intros r Hr row col.
    apply (within_not_data _ r row col). left. exact Hr.
  - eapply Forall_impl; [| exact Hcols]. simpl. intros r Hr row col.
    apply (within_not_data _ r row col). right. exact Hr.
  - eapply Forall_impl; [| exact Hblank]. simpl. intros r (_ & _ & Hr) row col.
    apply (within_not_data _ r row col). left. exact Hr.
Qed.

Lemma merges_avoid_data_example :
  Forall (fun r => forall row col, covers r row col -> ~ data_cell sparse_layout row col)
         (get_all_merge_ranges sparse_df sparse_layout).
Proof.
  refine (merges_avoid_data sparse_df 0 0 _).
  simpl. repeat constructor.
Defined.

End MergeRangeExtra.

(** ** Borders *)

Module BordersExtra.
Import Py Style Borders.

Lemma with_top_idem (b : Border) (s : option Side) : with_top (with_top b s) s = with_top b s.
Proof. reflexivity. Qed.

Lemma add_top_border_at (ws : Worksheet) (x0 y0 : Z) (style : BorderStyle) (r c : Z) :
  add_top_border ws (Layout.CellPosition_init x0 y0 false) style r c
  = if (r =? y0 + 1) && (c =? x0 + 1)
    then with_top (ws r c) (make_side style) else ws r c.
Proof.
  unfold add_top_border, set_border, Layout.excel_x, Layout.excel_y,
    Layout.CellPosition_init. simpl.
  destruct (Z.eqb_spec r (y0 + 1)), (Z.eqb_spec c (x0 + 1)); simpl; subst; reflexivity.
Qed.

Lemma add_left_border_at (ws : Worksheet) (x0 y0 : Z) (style : BorderStyle) (r c : Z) :
  add_left_border ws (Layout.CellPosition_init x0 y0 false) style r c
  = if (r =? y0 + 1) && (c =? x0 + 1)
    then with_left (ws r c) (make_side style) else ws r c.
Proof.
  unfold add_left_border, set_border, Layout.excel_x, Layout.excel_y,
    Layout.CellPosition_init. simpl.
  destruct (Z.eqb_spec r (y0 + 1)), (Z.eqb_spec c (x0 + 1)); simpl; subst; reflexivity.
Qed.

Lemma top_fold (a b row_pos : Z) (style : BorderStyle) (ws : Worksheet) (r c : Z) :
  fold_left (fun ws x0 => add_top_border ws (Layout.CellPosition_init x0 row_pos false) style)
            (range a b) ws r c
  = if at_line r row_pos && ((a + 1 <=? c) && (c <=? b))
    then with_top (ws r c) (make_side style) else ws r c.
Proof.
  remember (Z.to_nat (b - a)) as n eqn:Hn. revert a ws Hn.
  induction n as [| n IH]; intros a ws Hn.
  - rewrite MergeRangeProps.range_nil by lia. simpl.
    destruct (at_line r row_pos); simpl; [| reflexivity].
    destruct (Z.leb_spec (a + 1) c), (Z.leb_spec c b); simpl; try reflexivity. lia.
  - rewrite MergeRangeProps.range_cons by lia. cbn [fold_left]. rewrite IH by lia.
    rewrite add_top_border_at. unfold at_line.
    destruct (Z.eqb_spec r (row_pos + 1)), (Z.eqb_spec c (a + 1)),
      (Z.leb_spec (a + 1 + 1) c), (Z.leb_spec (a + 1) c), (Z.leb_spec c b);
      simpl; try reflexivity; lia.
Qed.

Lemma left_fold (a b col_pos : Z) (style : BorderStyle) (ws : Worksheet) (r c : Z) :
  fold_left (fun ws y0 => add_left_border ws (Layout.CellPosition_init col_pos y0 false) style)
            (range a b) ws r c
  = if at_line c col_pos && ((a + 1 <=? r) && (r <=? b))
    then with_left (ws r c) (make_side style) else ws r c.
Proof.
  remember (Z.to_nat (b - a)) as n eqn:Hn. revert a ws Hn.
  induction n as [| n IH]; intros a ws Hn.
  - rewrite MergeRangeProps.range_nil by lia. simpl.
    destruct (at_line c col_pos); simpl; [| reflexivity].
    destruct (Z.leb_spec (a + 1) r), (Z.leb_spec r b); simpl; try reflexivity. lia.
  - rewrite MergeRangeProps.range_cons by lia. cbn [fold_left]. rewrite IH by lia.
    rewrite add_left_border_at. unfold at_line.
    destruct (Z.eqb_spec c (col_pos + 1)), (Z.eqb_spec r (a + 1)),
      (Z.leb_spec (a + 1 + 1) r), (Z.leb_spec (a + 1) r), (Z.leb_spec r b);
      simpl; try reflexivity; lia.
Qed.

Lemma top_edge_across_at (ws : Worksheet) (layout : Layout.TableLayout) (row_pos : Z)
      (style : BorderStyle) (r c : Z) :
  top_edge_across ws layout row_pos style r c
  = if in_table_columns layout c && at_line r row_pos
    then with_top (ws r c) (make_side style) else ws r c.
Proof.
  unfold top_edge_across. rewrite top_fold. unfold in_table_columns.
  rewrite andb_comm. reflexivity.
Qed.

Lemma left_edge_down_at (ws : Worksheet) (layout : Layout.TableLayout) (col_pos : Z)
      (style : BorderStyle) (r c : Z) :
  left_edge_down ws layout col_pos style r c
  = if in_table_rows layout r && at_line c col_pos
    then with_left (ws r c) (make_side style) else ws r c.
Proof.
  unfold left_edge_down. rewrite left_fold. unfold in_table_rows.
  rewrite andb_comm. reflexivity.
Qed.

(** The two structural borders: [add_vertical_index_border] replaces the
    left side of the cells of the first data column on every row of the
    table, [add_horizontal_header_border] the top side of the cells of the
    first data row on every column of the table; every other side and
    every other cell keeps its border. *)
Theorem structural_borders (ws : Worksheet) (layout : Layout.TableLayout)
        (style : BorderStyle) (r c : Z) :
  add_vertical_index_border ws layout style r c
  = (if in_table_rows layout r
        && (c =? Layout.x_start (Layout.data_layout layout) + 1)
     then with_left (ws r c) (make_side style) else ws r c)
  /\ add_horizontal_header_border ws layout style r c
     = (if in_table_columns layout c
           && (r =? Layout.y_start (Layout.data_layout layout) + 1)
        then with_top (ws r c) (make_side style) else ws r c).
Proof.
  unfold add_vertical_index_border, add_horizontal_header_border.
  rewrite left_edge_down_at, top_edge_across_at. split; reflexivity.
Qed.

(** Edges on a list of rows, or of columns, one after the other. *)
Lemma top_edges_at (layout : Layout.TableLayout) (style : BorderStyle) (rows : list Z)
      (ws : Worksheet) (r c : Z) :
  fold_left (fun ws row_pos => top_edge_across ws layout row_pos style) rows ws r c
  = if in_table_columns layout c && existsb (at_line r) rows
    then with_top (ws r c) (make_side style) else ws r c.
Proof.
  revert ws. induction rows as [| row_pos rest IH]; intros ws; simpl.
  - rewrite andb_false_r. reflexivity.
  - rewrite IH, top_edge_across_at.
    destruct (in_table_columns layout c), (at_line r row_pos), (existsb (at_line r) rest);
      reflexivity.
Qed.

Lemma left_edges_at (layout : Layout.TableLayout) (style : BorderStyle) (cols : list Z)
      (ws : Worksheet) (r c : Z) :
  fold_left (fun ws col_pos => left_edge_down ws layout col_pos style) cols ws r c
  = if in_table_rows layout r && existsb (at_line c) cols
    then with_left (ws r c) (make_side style) else ws r c.
Proof.
  revert ws. induction cols as [| col_pos rest IH]; intros ws; simpl.
  - rewrite andb_false_r. reflexivity.
  - rewrite IH, left_edge_down_at.
    destruct (in_table_rows layout r), (at_line c col_pos), (existsb (at_line c) rest);
      reflexivity.
Qed.

Lemma conditional_fold {X : Type} (f : Worksheet -> Z -> Worksheet) (g : X -> list Z)
      (step : Worksheet -> X -> Worksheet) (l : list X) (ws : Worksheet) :
  (forall w x, step w x = fold_left f (g x) w) ->
  fold_left step l ws = fold_left f (flat_map g l) ws.
Proof.
  intros Hstep. revert ws. induction l as [| x rest IH]; intros ws; simpl.
  - reflexivity.
  - rewrite fold_left_app, <- Hstep. apply IH.
Qed.

Section LevelFold.
(** The loop [for level in range(n): spans = all_spans[level]; ...], with
    [None] for the [IndexError] of a level past the end. *)
Context {X W : Type} (f : W -> X -> W).

Let step (all : list X) (acc : option W) (level : Z) : option W :=
  match acc with
  | None => None
  | Some w =>
      match nth_error all (Z.to_nat level) with
      | None => None
      | Some x => Some (f w x)
      end
  end.

Lemma levels_fold_none (all : list X) (levels : list Z) :
  fold_left (step all) levels None = None.
Proof. induction levels as [| level rest IH]; simpl; auto. Qed.

Lemma levels_fold_some (rest pre : list X) (k n : Z) (w : W) :
  k = len pre -> n <= k + len rest ->
  fold_left (step (pre ++ rest)) (range k n) (Some w)
  = Some (fold_left f (firstn (Z.to_nat (n - k)) rest) w).
Proof.
  revert pre k w. induction rest as [| x rest IH]; intros pre k w Hk Hn.
  - rewrite MergeRangeProps.range_nil by (unfold len in *; simpl in *; lia).
    rewrite firstn_nil. reflexivity.
  - destruct (Z_le_gt_dec n k) as [Hle | Hgt].
    + rewrite MergeRangeProps.range_nil by lia.
      replace (Z.to_nat (n - k)) with 0%nat by lia. reflexivity.
    + rewrite MergeRangeProps.range_cons by lia. cbn [fold_left].
      assert (Enth : nth_error (pre ++ x :: rest) (Z.to_nat k) = Some x).
      { rewrite nth_error_app2 by (unfold len in Hk; lia).
        replace (Z.to_nat k - List.length pre)%nat with 0%nat by (unfold len in Hk; lia).
        reflexivity. }
      unfold step at 2. rewrite Enth.
      replace (pre ++ x :: rest) with ((pre ++ [x]) ++ rest)
        by (rewrite <- app_assoc; reflexivity).
      rewrite (IH (pre ++ [x]) (k + 1) (f w x)).
      * replace (Z.to_nat (n - k)) with (S (Z.to_nat (n - (k + 1)))) by lia.
        reflexivity.
      * unfold len in *. rewrite length_app. simpl. lia.
      * unfold len in *. simpl in Hn. lia.
Qed.

Lemma levels_fold_prefix (all : list X) (n : Z) (w : W) :
  n <= len all ->
  fold_left (step all) (range 0 n) (Some w)
  = Some (fold_left f (firstn (Z.to_nat n) all) w).
Proof.
  intros Hn.
  pose proof (levels_fold_some all [] 0 n w) as H. simpl in H.
  rewrite Z.sub_0_r in H. apply H; [reflexivity | lia].
Qed.

Lemma levels_fold_past_end (all : list X) (n : Z) (w : W) :
  len all < n -> fold_left (step all) (range 0 n) (Some w) = None.
Proof.
  intros Hn. pose proof (SpanProps.len_nonneg all) as Hpos.
  rewrite (MergeRangeProps.range_app 0 (len all) n) by lia.
  rewrite fold_left_app.
  rewrite (levels_fold_prefix all (len all) w) by lia.
  rewrite MergeRangeProps.range_cons by lia. cbn [fold_left].
  unfold step at 2.
  replace (nth_error all (Z.to_nat (len all))) with (@None X).
  - apply levels_fold_none.
  - symmetry. apply nth_error_None. unfold len. lia.
Qed.
End LevelFold.

Section LevelBorders.
Context {A : Type}.
Variables (layout : Layout.TableLayout) (style : BorderStyle).

Lemma row_level_pass_rows (ws : Worksheet) (spans : list (Spans.span A)) :
  row_level_pass layout style ws spans
  = fold_left (fun ws row_pos => top_edge_across ws layout row_pos style)
              (flat_map (fun sp => if 0 <? Spans.start sp
                                   then [Layout.y_start (Layout.base (Layout.index layout))
                                         + Spans.start sp]
                                   else [])
                        spans)
              ws.
Proof.
  unfold row_level_pass. apply conditional_fold.
  intros w sp. destruct (0 <? Spans.start sp); reflexivity.
Qed.

Lemma column_level_pass_cols (ws : Worksheet) (spans : list (Spans.span A)) :
  column_level_pass layout style ws spans
  = fold_left (fun ws col_pos => left_edge_down ws layout col_pos style)
              (flat_map (fun sp => if 0 <? Spans.start sp
                                   then [Layout.x_start (Layout.base (Layout.columns layout))
                                         + Spans.start sp]
                                   else [])
                        spans)
              ws.
Proof.
  unfold column_level_pass. apply conditional_fold.
  intros w sp. destruct (0 <? Spans.start sp); reflexivity.
Qed.

Lemma row_levels_some (ws : Worksheet) (row_spans : list (list (Spans.span A)))
      (min_border_level : Z) :
  0 <= min_border_level ->
  _add_row_level_borders ws layout row_spans min_border_level style
  = Some (fold_left (fun ws row_pos => top_edge_across ws layout row_pos style)
                    (level_border_positions
                       (Layout.y_start (Layout.base (Layout.index layout)))
                       row_spans min_border_level)
                    ws).
Proof.
  intros Hmin. unfold _add_row_level_borders, level_border_positions.
  rewrite (levels_fold_prefix (row_level_pass layout style) row_spans)
    by lia.
  f_equal.
  rewrite <- (conditional_fold (fun ws row_pos => top_edge_across ws layout row_pos style)
                _ (row_level_pass layout style)); [reflexivity |].
  intros w spans. apply row_level_pass_rows.
Qed.

Lemma column_levels_some (ws : Worksheet) (column_spans : list (list (Spans.span A)))
      (min_border_level : Z) :
  0 <= min_border_level ->
  _add_column_level_borders ws layout column_spans min_border_level style
  = Some (fold_left (fun ws col_pos => left_edge_down ws layout col_pos style)
                    (level_border_positions
                       (Layout.x_start (Layout.base (Layout.columns layout)))
                       column_spans min_border_level)
                    ws).
Proof.
  intros Hmin. unfold _add_column_level_borders, level_border_positions.
  rewrite (levels_fold_prefix (column_level_pass layout style) column_spans)
    by lia.
  f_equal.
  rewrite <- (conditional_fold (fun ws col_pos => left_edge_down ws layout col_pos style)
                _ (column_level_pass layout style)); [reflexivity |].
  intros w spans. apply column_level_pass_cols.
Qed.

Lemma no_positions (origin : Z) (spans : list (list (Spans.span A))) (min_border_level : Z) :
  len spans <= min_border_level ->
  level_border_positions origin spans min_border_level = [].
Proof.
  intros H. unfold level_border_positions.
  replace (Z.to_nat (len spans - min_border_level)) with 0%nat by lia. reflexivity.
Qed.

Lemma level_borders_some (ws : Worksheet)
      (row_spans column_spans : list (list (Spans.span A))) (min_border_level : Z) :
  0 <= min_border_level ->
  exists ws',
    add_level_borders ws layout row_spans column_spans min_border_level style = Some ws'
    /\ forall r c,
         ws' r c
         = edges_at layout (make_side style)
                    (level_border_positions
                       (Layout.y_start (Layout.base (Layout.index layout)))
                       row_spans min_border_level)
                    (level_border_positions
                       (Layout.x_start (Layout.base (Layout.columns layout)))
                       column_spans min_border_level)
                    (ws r c) r c.
Proof.
  intros Hmin. unfold add_level_borders.
  set (rows := level_border_positions _ row_spans _).
  set (cols := level_border_positions _ column_spans _).
  set (ws1 := fold_left (fun ws row_pos => top_edge_across ws layout row_pos style) rows ws).
  assert (E1 : (if min_border_level <? len row_spans
                then _add_row_level_borders ws layout row_spans min_border_level style
                else Some ws) = Some ws1).
  { destruct (min_border_level <? len row_spans) eqn:E.
    - apply row_levels_some, Hmin.
    - apply Z.ltb_ge in E. unfold ws1, rows. rewrite no_positions by exact E. reflexivity. }
  rewrite E1.
  exists (fold_left (fun ws col_pos => left_edge_down ws layout col_pos style) cols ws1).
  split.
  - destruct (min_border_level <? len column_spans) eqn:E.
    + apply column_levels_some, Hmin.
    + apply Z.ltb_ge in E. unfold cols. rewrite no_positions by exact E. reflexivity.
  - intros r c. rewrite left_edges_at. unfold ws1. rewrite top_edges_at. reflexivity.
Qed.

Lemma level_borders_none (ws : Worksheet)
      (row_spans column_spans : list (list (Spans.span A))) (min_border_level : Z) :
  min_border_level < 0 ->
  add_level_borders ws layout row_spans column_spans min_border_level style = None.
Proof.
  intros Hmin. unfold add_level_borders.
  pose proof (SpanProps.len_nonneg row_spans) as Hpos.
  replace (min_border_level <? len row_spans) with true by (symmetry; apply Z.ltb_lt; lia).
  unfold _add_row_level_borders.
  rewrite (levels_fold_past_end (row_level_pass layout style)) by lia. reflexivity.
Qed.
End LevelBorders.

(** [add_level_borders] fails with an IndexError exactly when
    [min_border_level] is negative; otherwise it returns. *)
Theorem level_borders_index_error {A : Type} (ws : Worksheet) (layout : Layout.TableLayout)
        (row_spans column_spans : list (list (Spans.span A))) (min_border_level : Z)
        (style : BorderStyle) :
  add_level_borders ws layout row_spans column_spans min_border_level style = None
  <-> min_border_level < 0.
Proof.
  split.
  - intros H. destruct (Z_lt_ge_dec min_border_level 0) as [Hlt | Hge]; [exact Hlt |].
    destruct (level_borders_some layout style ws row_spans column_spans min_border_level)
      as (ws' & E & _); [lia | congruence].
  - apply level_borders_none.
Qed.

(** With a non-negative [min_border_level], [add_level_borders] draws a
    top edge across the width of the table on the row where each span of
    the row index starts, and a left edge down the height of the table on
    the column where each span of the column index starts, for the levels
    before the last [min_border_level] and for every span but the one
    that starts at 0; every other side of every cell is kept. *)
Theorem level_borders_placed {A : Type} (ws : Worksheet) (layout : Layout.TableLayout)
        (row_spans column_spans : list (list (Spans.span A))) (min_border_level : Z)
        (style : BorderStyle) :
  0 <= min_border_level ->
  exists ws',
    add_level_borders ws layout row_spans column_spans min_border_level style = Some ws'
    /\ forall r c,
         ws' r c
         = edges_at layout (make_side style)
                    (level_border_positions
                       (Layout.y_start (Layout.base (Layout.index layout)))
                       row_spans min_border_level)
                    (level_border_positions
                       (Layout.x_start (Layout.base (Layout.columns layout)))
                       column_spans min_border_level)
                    (ws r c) r c.
Proof. apply level_borders_some. Qed.

Lemma level_borders_placed_example :
  let ws := fun _ _ : Z => {| left := None; right := None; top := None; bottom := None |} in
  let rows := Spans.get_level_spans (index Spans.dense_df) None in
  let cols := Spans.get_level_spans (columns Spans.dense_df) None in
  let layout := Layout.from_df Spans.dense_df 0 0 in
  exists ws',
    add_level_borders ws layout rows cols 1 THIN = Some ws'
    /\ forall r c,
         ws' r c
         = edges_at layout (make_side THIN)
                    (level_border_positions
                       (Layout.y_start (Layout.base (Layout.index layout))) rows 1)
                    (level_border_positions
                       (Layout.x_start (Layout.base (Layout.columns layout))) cols 1)
                    (ws r c) r c.
Proof.
  exact (level_borders_placed
           (fun _ _ : Z => {| left := None; right := None; top := None; bottom := None |})
           (Layout.from_df Spans.dense_df 0 0)
           (Spans.get_level_spans (index Spans.dense_df) None)
           (Spans.get_level_spans (columns Spans.dense_df) None)
           1 THIN ltac:(lia)).
Defined.

Lemma level_positions_after_first {A : Type} (origin : Z)
      (spans : list (list (Spans.span A))) (min_border_level : Z) :
  existsb (at_line (origin + 1)) (level_border_positions origin spans min_border_level)
  = false.
Proof.
  destruct (existsb _ _) eqn:E; [| reflexivity].
  apply existsb_exists in E. destruct E as (p & Hp & Hline).
  unfold level_border_positions in Hp. apply in_flat_map in Hp.
  destruct Hp as (ls & _ & Hp). apply in_flat_map in Hp. destruct Hp as (sp & _ & Hp).
  destruct (0 <? Spans.start sp) eqn:Es; [| destruct Hp].
  destruct Hp as [<- | []]. apply Z.ltb_lt in Es.
  unfold at_line in Hline. apply Z.eqb_eq in Hline. lia.
Qed.

(** Level borders never redraw the two structural borders: with a
    non-negative [min_border_level] the call returns, and whatever the
    spans, the left side of the cells of the first data column and the top
    side of the cells of the first data row are as they were, because the
    span that starts at 0 gets no border. *)
Theorem level_borders_keep_structural {A : Type} (ws : Worksheet) (t : Layout.TableArgs)
        (row_spans column_spans : list (list (Spans.span A))) (min_border_level : Z)
        (style : BorderStyle) (r c : Z) :
  0 <= min_border_level ->
  let layout := Layout._init_layouts t in
  exists ws',
    add_level_borders ws layout row_spans column_spans min_border_level style = Some ws'
    /\ left (ws' r (Layout.x_start (Layout.data_layout layout) + 1))
       = left (ws r (Layout.x_start (Layout.data_layout layout) + 1))
    /\ top (ws' (Layout.y_start (Layout.data_layout layout) + 1) c)
       = top (ws (Layout.y_start (Layout.data_layout layout) + 1) c).
Proof.
  intros Hge. cbv zeta.
  destruct (level_borders_some (Layout._init_layouts t) style ws row_spans column_spans
                              min_border_level) as (ws' & E & Hat); [lia |].
  exists ws'. split; [exact E |].
  rewrite !Hat. unfold edges_at.
  change (Layout.x_start (Layout.data_layout (Layout._init_layouts t)))
    with (Layout.x_start (Layout.base (Layout.columns (Layout._init_layouts t)))).
  change (Layout.y_start (Layout.data_layout (Layout._init_layouts t)))
    with (Layout.y_start (Layout.base (Layout.index (Layout._init_layouts t)))).
  rewrite !level_positions_after_first, !andb_false_r. split.
  - destruct (_ && _); reflexivity.
  - destruct (_ && _); reflexivity.
Qed.

Lemma level_borders_keep_structural_example :
  let ws := fun _ _ : Z => {| left := None; right := None; top := None; bottom := None |} in
  let t := Layout.args (Layout.from_df Spans.sparse_df 0 0) in
  let rows := Spans.get_level_spans (index Spans.sparse_df) None in
  let cols := Spans.get_level_spans (columns Spans.sparse_df) None in
  let layout := Layout._init_layouts t in
  exists ws',
    add_level_borders ws layout rows cols 0 THICK = Some ws'
    /\ left (ws' 3 (Layout.x_start (Layout.data_layout layout) + 1))
       = left (ws 3 (Layout.x_start (Layout.data_layout layout) + 1))
    /\ top (ws' (Layout.y_start (Layout.data_layout layout) + 1) 2)
       = top (ws (Layout.y_start (Layout.data_layout layout) + 1) 2).
Proof.
  exact (level_borders_keep_structural
           (fun _ _ : Z => {| left := None; right := None; top := None; bottom := None |})
           (Layout.args (Layout.from_df Spans.sparse_df 0 0))
           (Spans.get_level_spans (index Spans.sparse_df) None)
           (Spans.get_level_spans (columns Spans.sparse_df) None)
           0 THICK 3 2 ltac:(lia)).
Defined.

Lemma flagged_fold (layout : Layout.TableLayout) (origin : Z)
      (f : Worksheet -> Z -> Worksheet) (flags : list bool) (ws : Worksheet) :
  fold_left (fun ws '(i, needs_border) =>
               if (needs_border : bool) then f ws (origin + i) else ws)
            (enumerate flags) ws
  = fold_left f (flagged_positions origin flags) ws.
Proof.
  unfold flagged_positions. apply conditional_fold.
  intros w [i b]. destruct b; reflexivity.
Qed.

Lemma custom_borders_at (ws : Worksheet) (layout : Layout.TableLayout)
      (row_borders column_borders : list bool) (style : BorderStyle) (r c : Z) :
  add_custom_borders ws layout row_borders column_borders style r c
  = edges_at layout (make_side style)
             (flagged_positions (Layout.y_start (Layout.base (Layout.index layout)))
                                row_borders)
             (flagged_positions (Layout.x_start (Layout.base (Layout.columns layout)))
                                column_borders)
             (ws r c) r c.
Proof.
  unfold add_custom_borders.
  rewrite (flagged_fold layout _ (fun ws col_pos => left_edge_down ws layout col_pos style)).
  rewrite (flagged_fold layout _ (fun ws row_pos => top_edge_across ws layout row_pos style)).
  rewrite left_edges_at, top_edges_at. reflexivity.
Qed.

(** [add_custom_borders] draws a top edge across the width of the table
    on every flagged row and a left edge down the height of the table on
    every flagged column, and keeps every other side of every cell. *)
Theorem custom_borders_placed (ws : Worksheet) (layout : Layout.TableLayout)
        (row_borders column_borders : list bool) (style : BorderStyle) (r c : Z) :
  add_custom_borders ws layout row_borders column_borders style r c
  = edges_at layout (make_side style)
             (flagged_positions (Layout.y_start (Layout.base (Layout.index layout)))
                                row_borders)
             (flagged_positions (Layout.x_start (Layout.base (Layout.columns layout)))
                                column_borders)
             (ws r c) r c.
Proof. apply custom_borders_at. Qed.

Lemma flagged_positions_from (origin k : Z) (flags : list bool) (line : Z) :
  existsb (at_line line)
          (flat_map (fun '(i, needs_border) =>
                       if (needs_border : bool) then [origin + i] else [])
                    (enumerate_from k flags)) = true
  <-> exists n, nth_error flags n = Some true /\ line = origin + (k + Z.of_nat n) + 1.
Proof.
  revert k. induction flags as [| b rest IH]; intros k; simpl.
  - split; [discriminate | intros (n & H & _); destruct n; discriminate].
  - rewrite existsb_app, orb_true_iff, IH. split.
    + intros [H | (n & Hn & ->)].
      * destruct b; simpl in H; [| discriminate]. rewrite orb_false_r in H.
        unfold at_line in H. apply Z.eqb_eq in H. exists 0%nat. split; [reflexivity | lia].
      * exists (S n). split; [exact Hn | lia].
    + intros ([| n] & Hn & ->); simpl in Hn.
      * inversion Hn; subst. left. simpl. unfold at_line.
        rewrite orb_false_r. apply Z.eqb_eq. lia.
      * right. exists n. split; [exact Hn | lia].
Qed.

End BordersExtra.

(** ** Border patterns of the writer *)

Module WriterExtra.
Import Py Style Borders Writer.

Lemma mark_borders_at (patterns : list label) (labels : list label) (n : nat) :
  (n < List.length labels)%nat ->
  List.length (mark_borders patterns labels (repeat false (List.length labels)))
  = List.length labels
  /\ nth n (mark_borders patterns labels (repeat false (List.length labels))) false
     = existsb (Pattern.is_match (nth n labels (LScalar PNone))) patterns.
Proof.
  intros Hn. unfold mark_borders, enumerate.
  set (upd := fun lbl : label =>
                if existsb (Pattern.is_match lbl) patterns then Some true else None).
  assert (Hstep : forall (l : list bool) (i : Z) (lbl : label),
             (fun flags '(i, lbl) =>
                if existsb (Pattern.is_match lbl) patterns
                then Pattern.list_set flags (Z.to_nat i) true
                else flags) l (i, lbl)
             = match upd lbl with
               | Some v => Pattern.list_set l (Z.to_nat i) v
               | None => l
               end).
  { intros l i lbl. unfold upd. destruct (existsb _ patterns); reflexivity. }
  split.
  - rewrite (PatternExtra.length_updates upd _ Hstep). apply repeat_length.
  - rewrite (PatternExtra.nth_updates_inside upd _ Hstep)
      by (rewrite ?repeat_length; simpl; lia).
    simpl. rewrite Nat.sub_0_r. unfold upd.
    destruct (existsb _ patterns); [reflexivity | apply nth_repeat].
Qed.

Lemma border_flags_rows (d : DataFrame) (x_offset y_offset : Z)
      (border_specs : border_specs_arg) (n : nat) :
  (n < List.length (index_labels (index d)))%nat ->
  nth n (fst (border_flags d x_offset y_offset border_specs)) false
  = existsb (Pattern.is_match (nth n (index_labels (index d)) (LScalar PNone)))
            (row_border_patterns border_specs).
Proof.
  intros Hn. unfold border_flags.
  destruct (WriterProps.init_heights d x_offset y_offset) as [Hh Hw]. rewrite Hh, Hw.
  unfold _process_border_specs, row_border_patterns.
  destruct border_specs as [| [rp |] [cp |] | [| p ps] | p | [| p ps]];
    try (destruct (label_truthy p)); cbn [fst];
    try (apply mark_borders_at; exact Hn);
    rewrite nth_repeat; reflexivity.
Qed.

Lemma border_flags_columns (d : DataFrame) (x_offset y_offset : Z)
      (border_specs : border_specs_arg) (n : nat) :
  (n < List.length (index_labels (columns d)))%nat ->
  nth n (snd (border_flags d x_offset y_offset border_specs)) false
  = existsb (Pattern.is_match (nth n (index_labels (columns d)) (LScalar PNone)))
            (column_border_patterns border_specs).
Proof.
  intros Hn. unfold border_flags.
  destruct (WriterProps.init_heights d x_offset y_offset) as [Hh Hw]. rewrite Hh, Hw.
  unfold _process_border_specs, column_border_patterns.
  destruct border_specs as [| [rp |] [cp |] | [| p ps] | p | [| p ps]];
    try (destruct (label_truthy p)); cbn [snd];
    try (apply mark_borders_at; exact Hn);
    rewrite nth_repeat; reflexivity.
Qed.

(** After [__init__] the flag of row [n] is set exactly when the label of
    the row matches one of the border patterns that apply to rows, and
    the flag of column [m] exactly when its label matches one of those
    that apply to columns. *)
Theorem border_flags_match (d : DataFrame) (x_offset y_offset : Z)
        (border_specs : border_specs_arg) (n m : nat) :
  (n < List.length (index_labels (index d)))%nat ->
  (m < List.length (index_labels (columns d)))%nat ->
  let flags := border_flags d x_offset y_offset border_specs in
  nth n (fst flags) false
  = existsb (Pattern.is_match (nth n (index_labels (index d)) (LScalar PNone)))
            (row_border_patterns border_specs)
  /\ nth m (snd flags) false
     = existsb (Pattern.is_match (nth m (index_labels (columns d)) (LScalar PNone)))
               (column_border_patterns border_specs).
Proof.
  intros Hn Hm. split; [apply border_flags_rows | apply border_flags_columns]; assumption.
Qed.

Lemma border_flags_match_example :
  let flags := border_flags formats_df 0 0 (SingleBorder (LScalar (PStr "B"))) in
  nth 1 (fst flags) false = true /\ nth 0 (snd flags) false = false.
Proof.
  exact (border_flags_match formats_df 0 0 (SingleBorder (LScalar (PStr "B"))) 1 0
           ltac:(simpl; lia) ltac:(simpl; lia)).
Defined.

Lemma nth_true_nth_error (flags : list bool) (n : nat) :
  nth n flags false = true -> nth_error flags n = Some true.
Proof.
  revert n. induction flags as [| b rest IH]; intros [| n] H; simpl in *;
    try discriminate; [congruence | apply IH, H].
Qed.

(** From pattern to edge: when the label of row [n] matches one of the
    border patterns that apply to rows, [add_custom_borders], run on the
    flags the writer computed, leaves a top edge of the requested style on
    every cell of that row across the width of the table. *)
Theorem matching_row_gets_border (d : DataFrame) (x_offset y_offset : Z)
        (border_specs : border_specs_arg) (style : BorderStyle) (ws : Worksheet)
        (n : nat) (c : Z) :
  (n < List.length (index_labels (index d)))%nat ->
  existsb (Pattern.is_match (nth n (index_labels (index d)) (LScalar PNone)))
          (row_border_patterns border_specs) = true ->
  let layout := Layout.from_df d x_offset y_offset in
  let flags := border_flags d x_offset y_offset border_specs in
  in_table_columns layout c = true ->
  top (add_custom_borders ws layout (fst flags) (snd flags) style
         (Layout.y_start (Layout.base (Layout.index layout)) + Z.of_nat n + 1) c)
  = make_side style.
Proof.
  intros Hn Hmatch. cbv zeta. intros Hc.
  rewrite BordersExtra.custom_borders_at. unfold edges_at. rewrite Hc.
  assert (Hrow : existsb (at_line (Layout.y_start
                                     (Layout.base (Layout.index
                                        (Layout.from_df d x_offset y_offset)))
                                   + Z.of_nat n + 1))
                         (flagged_positions
                            (Layout.y_start
                               (Layout.base (Layout.index
                                  (Layout.from_df d x_offset y_offset))))
                            (fst (border_flags d x_offset y_offset border_specs)))
                 = true).
  { apply (BordersExtra.flagged_positions_from _ 0). exists n. split; [| lia].
    apply nth_true_nth_error. rewrite border_flags_rows by exact Hn. exact Hmatch. }
  rewrite Hrow. simpl. destruct (_ && _); reflexivity.
Qed.

Lemma matching_row_gets_border_example :
  top (add_custom_borders
         (fun _ _ => {| left := None; right := None; top := None; bottom := None |})
         (Layout.from_df formats_df 0 0)
         (fst (border_flags formats_df 0 0 (SingleBorder (LScalar (PStr "B")))))
         (snd (border_flags formats_df 0 0 (SingleBorder (LScalar (PStr "B")))))
         THIN 3 2)
  = make_side THIN.
Proof.
  exact (matching_row_gets_border formats_df 0 0 (SingleBorder (LScalar (PStr "B"))) THIN
           (fun _ _ => {| left := None; right := None; top := None; bottom := None |})
           1 2 ltac:(simpl; lia) eq_refl eq_refl).
Defined.

End WriterExtra.

(** ** Table elements *)

Module ElementsExtra.
Import Py Elements.

(** A table element stacks its parts without gap or overlap: the title,
    when there is one, sits on the element's first row, the table starts
    on the row after it, the caption, when there is one, sits on the row
    after the table's last row, and the element's height and last row
    account for exactly these parts.  An empty title or caption counts as
    none. *)
Theorem table_element_stacking (d : DataFrame) (x_offset y_offset : Z)
        (title caption : option string) :
  let e := TableElement_init d x_offset y_offset title caption in
  let t := table_layout e in
  let title_rows := if text_truthy title then 1 else 0 in
  let caption_rows := if text_truthy caption then 1 else 0 in
  text_row (title_element e) = (if text_truthy title then Some y_offset else None)
  /\ Layout.TableLayout_x_start t = x_offset
  /\ Layout.TableLayout_y_start t = y_offset + title_rows
  /\ text_row (caption_element e)
     = (if text_truthy caption then Some (Layout.TableLayout_y_end t + 1) else None)
  /\ height e = title_rows + Layout.total_height t + caption_rows
  /\ width e = Layout.total_width t
  /\ y_end e = Layout.TableLayout_y_end t + caption_rows
  /\ x_end e = Layout.TableLayout_x_end t.
Proof.
  cbv zeta. unfold TableElement_init, height, width, y_end, x_end, y_start, x_start,
    text_row, TextElement_height.
  destruct (text_truthy title), (text_truthy caption); cbn -[Z.add Z.sub];
    unfold Layout.TableLayout_x_start, Layout.TableLayout_y_start,
      Layout.TableLayout_x_end, Layout.TableLayout_y_end, Layout.total_height,
      Layout.total_width, Layout.x_end, Layout.y_end, Layout.x_start, Layout.y_start;
    cbn -[Z.add Z.sub];
    destruct (Layout.any_name (index_names (index d)));
    repeat split; try (f_equal; lia); lia.
Qed.

End ElementsExtra.

(** ** The merge manager in general *)

Module MergeExtra.
Import Merge.

Section Manager.
Context {Worksheet : Type}.
Variable merge_cells : Worksheet -> Spans.MergeRange -> Worksheet * option exn.

Lemma apply_merges_general (self : MergeManager) (merge_ranges : list Spans.MergeRange) :
  let result := apply_merges merge_cells self merge_ranges in
  exists done rest,
    merge_ranges = done ++ rest
    /\ applied_merges (fst result)
       = applied_merges self ++ sink_accepted merge_cells (worksheet self) done
    /\ match snd result with
       | None => rest = []
                 /\ worksheet (fst result)
                    = sink_after merge_cells (worksheet self) done
       | Some e =>
           e <> ValueError
           /\ exists r rest',
               rest = r :: rest'
               /\ merge_cells (sink_after merge_cells (worksheet self) done) r
                  = (worksheet (fst result), Some e)
       end.
Proof.
  cbv zeta. revert self. induction merge_ranges as [| r rs IH]; intros self.
  - simpl. exists [], []. simpl. rewrite app_nil_r. auto.
  - simpl. destruct (merge_cells (worksheet self) r) as [ws1 raised1] eqn:E.
    destruct raised1 as [[| name] |].
    + specialize (IH {| worksheet := ws1; applied_merges := applied_merges self |}).
      destruct (apply_merges merge_cells _ rs) as [after raised].
      destruct IH as (done & rest & -> & Happ & Hout). simpl in *.
      exists (r :: done), rest. simpl. rewrite E. simpl. auto.
    + exists [], (r :: rs). simpl. rewrite app_nil_r. repeat split.
      * discriminate.
      * exists r, rs. auto.
    + specialize (IH {| worksheet := ws1; applied_merges := applied_merges self ++ [r] |}).
      destruct (apply_merges merge_cells _ rs) as [after raised].
      destruct IH as (done & rest & -> & Happ & Hout). simpl in *.
      exists (r :: done), rest. simpl. rewrite E. simpl.
      rewrite Happ, <- app_assoc. auto.
Qed.

(** What [apply_merges] does for any sink.  Over ranges that the sink
    accepts or rejects with [ValueError] it returns, having handed every
    one of them to the sink and recorded exactly the accepted ones.  When
    the sink then raises any other exception on the next range, that
    exception leaves the method there: the ranges accepted before it stay
    recorded and no later range is handed to the sink. *)
Theorem apply_merges_outcome (self : MergeManager) (done : list Spans.MergeRange) :
  only_ValueError merge_cells (worksheet self) done ->
  let completed :=
    {| worksheet := sink_after merge_cells (worksheet self) done;
       applied_merges :=
         applied_merges self ++ sink_accepted merge_cells (worksheet self) done |} in
  apply_merges merge_cells self done = (completed, None)
  /\ forall r rest ws e,
       merge_cells (worksheet completed) r = (ws, Some e) ->
       e <> ValueError ->
       apply_merges merge_cells self (done ++ r :: rest)
       = ({| worksheet := ws; applied_merges := applied_merges completed |}, Some e).
Proof.
  cbv zeta. revert self. induction done as [| d ds IH]; intros self Hquiet.
  - simpl. rewrite app_nil_r. split; [destruct self; reflexivity |].
    intros r rest ws e E Hne. rewrite E.
    destruct e as [| name]; [congruence | reflexivity].
  - simpl in *. destruct (merge_cells (worksheet self) d) as [ws1 raised1]. simpl in *.
    destruct raised1 as [[| name] |]; [| contradiction |].
    + apply (IH {| worksheet := ws1; applied_merges := applied_merges self |} Hquiet).
    + destruct (IH {| worksheet := ws1; applied_merges := applied_merges self ++ [d] |}
                   Hquiet) as [Hreturn Hraise].
      simpl in *. rewrite <- app_assoc in Hreturn, Hraise. simpl in *.
      split; [exact Hreturn | exact Hraise].
Qed.

(** Applying two lists one after the other is applying their
    concatenation: the second call continues where the first one stopped,
    unless the first one was left by an exception. *)
Theorem apply_merges_app (self : MergeManager) (first second : list Spans.MergeRange) :
  apply_merges merge_cells self (first ++ second)
  = match snd (apply_merges merge_cells self first) with
    | None => apply_merges merge_cells (fst (apply_merges merge_cells self first)) second
    | Some e => (fst (apply_merges merge_cells self first), Some e)
    end.
Proof.
  revert self. induction first as [| r rs IH]; intros self; simpl.
  - reflexivity.
  - destruct (merge_cells (worksheet self) r) as [ws1 raised1].
    destruct raised1 as [[| name] |]; [apply IH | reflexivity | apply IH].
Qed.

Lemma is_merged_cell_iff (self : @MergeManager Worksheet) (row col : Z) :
  is_merged_cell self row col = true <->
  exists r, In r (applied_merges self) /\ Spans.covers r row col.
Proof.
  unfold is_merged_cell. rewrite existsb_exists. split.
  - intros ([[[r1 c1] r2] c2] & Hin & H). exists (r1, c1, r2, c2). split; [exact Hin |].
    simpl. rewrite !andb_true_iff, !Z.leb_le in H. lia.
  - intros ([[[r1 c1] r2] c2] & Hin & H). exists (r1, c1, r2, c2). split; [exact Hin |].
    simpl in H. rewrite !andb_true_iff, !Z.leb_le. lia.
Qed.

(** A cell covered by a recorded merge is reported by [is_merged_cell],
    and [apply_merges] never takes it out of the record: it is still
    reported after the call, whether the call returns or is left by an
    exception. *)
Theorem merged_cells_persist (self : MergeManager) (merge_ranges : list Spans.MergeRange)
        (r : Spans.MergeRange) (row col : Z) :
  In r (applied_merges self) -> Spans.covers r row col ->
  is_merged_cell self row col = true
  /\ is_merged_cell (fst (apply_merges merge_cells self merge_ranges)) row col = true.
Proof.
  intros Hin Hcov. split.
  - apply is_merged_cell_iff. exists r. auto.
  - pose proof (apply_merges_general self merge_ranges) as Hgen. cbv zeta in Hgen.
    destruct Hgen as (done & rest & _ & Happ & _).
    apply is_merged_cell_iff. exists r. split; [| exact Hcov].
    rewrite Happ. apply in_app_iff. left. exact Hin.
Qed.
End Manager.

Lemma apply_merges_outcome_example :
  apply_merges guarded_merge_cells (MergeManager_init []) [(2, 1, 3, 1); (3, 1, 3, 3)]
  = ({| worksheet := [(2, 1, 3, 1)]; applied_merges := [(2, 1, 3, 1)] |}, None)
  /\ apply_merges guarded_merge_cells (MergeManager_init [])
                  ([(2, 1, 3, 1); (3, 1, 3, 3)] ++ (0, 1, 0, 3) :: [(5, 1, 6, 1)])
     = ({| worksheet := [(2, 1, 3, 1)]; applied_merges := [(2, 1, 3, 1)] |},
        Some (OtherException "TypeError")).
Proof.
  pose proof (apply_merges_outcome guarded_merge_cells (MergeManager_init [])
                [(2, 1, 3, 1); (3, 1, 3, 3)] I) as [Hreturn Hraise].
  split; [exact Hreturn |].
  exact (Hraise (0, 1, 0, 3) [(5, 1, 6, 1)] [(2, 1, 3, 1)] (OtherException "TypeError")
                eq_refl ltac:(discriminate)).
Defined.

Lemma merged_cells_persist_example :
  let self := {| worksheet := [(2, 1, 3, 1)]; applied_merges := [(2, 1, 3, 1)] |} in
  is_merged_cell self 3 1 = true
  /\ is_merged_cell (fst (apply_merges strict_merge_cells self [(3, 1, 3, 3); (5, 1, 6, 1)]))
                    3 1 = true.
Proof.
  exact (merged_cells_persist strict_merge_cells
           {| worksheet := [(2, 1, 3, 1)]; applied_merges := [(2, 1, 3, 1)] |}
           [(3, 1, 3, 3); (5, 1, 6, 1)] (2, 1, 3, 1) 3 1
           ltac:(left; reflexivity) ltac:(simpl; lia)).
Defined.

End MergeExtra.
